(** * Bucket Chat: integrity and storage-addressing core

    A shallow embedding of [bucket_chat/core/crypto.py],
    [bucket_chat/core/events.py] and [bucket_chat/core/storage.py], with the
    properties of the protocol specification stated and proved over it.

    Conventions of the embedding.
    - A Python [str] is a Rocq [string]; each character stands for the code
      point of the same number (U+0000 to U+00FF).
    - Python [bytes] are [list byte].
    - A Python [dict] with string keys is an association list in insertion
      order, with pairwise distinct keys.
    - Library calls that can raise return a [result]. *)

From Stdlib Require Import ZArith Ascii String List Bool Lia Permutation Sorted.
From Stdlib.Strings Require Import Byte.
From Stdlib Require DecimalString DecimalZ.
From stdpp Require Import base option list sorting gmap strings.
Import ListNotations.

Local Open Scope Z_scope.

(** ** Python strings and bytes *)

Definition code_point (c : ascii) : Z := Z.of_N (N_of_ascii c).

Definition chr (z : Z) : ascii := ascii_of_N (Z.to_N z).

Definition byte_val (b : byte) : Z := Z.of_N (Byte.to_N b).

Definition byte_of_Z (z : Z) : byte :=
  match Byte.of_N (Z.to_N (z mod 256)) with
  | Some b => b
  | None => x00
  end.

(** [s.encode('utf-8')] for code points below U+0100: one byte below U+0080,
    two bytes from there on. *)
Fixpoint encode_utf8 (s : string) : list byte :=
  match s with
  | EmptyString => []
  | String c s' =>
      let n := code_point c in
      if n <? 128 then byte_of_Z n :: encode_utf8 s'
      else byte_of_Z (Z.lor 192 (Z.shiftr n 6))
             :: byte_of_Z (Z.lor 128 (Z.land n 63)) :: encode_utf8 s'
  end.

(** [b.decode('utf-8')] of ASCII bytes, as produced by [base64.b64encode]. *)
Definition decode_ascii (bs : list byte) : string :=
  string_of_list_byte bs.

(** ** SHA-256 (FIPS 180-4), the function behind [hashlib.sha256] *)

Module SHA256.

Definition w32 (x : Z) : Z := x mod 4294967296.

Definition add32 (x y : Z) : Z := w32 (x + y).

Definition rotr (n x : Z) : Z :=
  Z.lor (Z.shiftr x n) (w32 (Z.shiftl x (32 - n))).

Definition not32 (x : Z) : Z := Z.lxor x 4294967295.

Definition Ch (x y z : Z) : Z :=
  Z.lxor (Z.land x y) (Z.land (not32 x) z).

Definition Maj (x y z : Z) : Z :=
  Z.lxor (Z.lxor (Z.land x y) (Z.land x z)) (Z.land y z).

Definition Sigma0 (x : Z) : Z :=
  Z.lxor (Z.lxor (rotr 2 x) (rotr 13 x)) (rotr 22 x).

Definition Sigma1 (x : Z) : Z :=
  Z.lxor (Z.lxor (rotr 6 x) (rotr 11 x)) (rotr 25 x).

Definition sigma0 (x : Z) : Z :=
  Z.lxor (Z.lxor (rotr 7 x) (rotr 18 x)) (Z.shiftr x 3).

Definition sigma1 (x : Z) : Z :=
  Z.lxor (Z.lxor (rotr 17 x) (rotr 19 x)) (Z.shiftr x 10).

(** The round constants: the first 32 bits of the fractional parts of the
    cube roots of the first 64 primes. *)
Definition K : list Z :=
  [ 1116352408; 1899447441; 3049323471; 3921009573;
    961987163; 1508970993; 2453635748; 2870763221;
    3624381080; 310598401; 607225278; 1426881987;
    1925078388; 2162078206; 2614888103; 3248222580;
    3835390401; 4022224774; 264347078; 604807628;
    770255983; 1249150122; 1555081692; 1996064986;
    2554220882; 2821834349; 2952996808; 3210313671;
    3336571891; 3584528711; 113926993; 338241895;
    666307205; 773529912; 1294757372; 1396182291;
    1695183700; 1986661051; 2177026350; 2456956037;
    2730485921; 2820302411; 3259730800; 3345764771;
    3516065817; 3600352804; 4094571909; 275423344;
    430227734; 506948616; 659060556; 883997877;
    958139571; 1322822218; 1537002063; 1747873779;
    1955562222; 2024104815; 2227730452; 2361852424;
    2428436474; 2756734187; 3204031479; 3329325298 ].

(** The initial state: the same of the square roots of the first 8 primes. *)
Definition H0 : list Z :=
  [ 1779033703; 3144134277; 1013904242; 2773480762;
    1359893119; 2600822924; 528734635; 1541459225 ].

(** Big-endian bytes of a [n]-byte unsigned number. *)
Fixpoint be_bytes (n : nat) (x : Z) : list Z :=
  match n with
  | O => []
  | S k => (Z.shiftr x (8 * Z.of_nat k)) mod 256 :: be_bytes k x
  end.

(** Padding: a one bit, zeros up to 56 modulo 64, the bit length on 8 bytes. *)
Definition pad (msg : list Z) : list Z :=
  let len := Z.of_nat (List.length msg) in
  let zeros := Z.to_nat ((55 - len) mod 64) in
  msg ++ [128] ++ List.repeat 0 zeros ++ be_bytes 8 (8 * len).

Fixpoint words (n : nat) (bs : list Z) : list Z :=
  match n, bs with
  | S k, b0 :: b1 :: b2 :: b3 :: r =>
      (b0 * 16777216 + b1 * 65536 + b2 * 256 + b3) :: words k r
  | _, _ => []
  end.

Definition nthw (l : list Z) (i : nat) : Z := List.nth i l 0.

(** The message schedule, grown one word at a time from the 16 block words. *)
Fixpoint schedule (n : nat) (w : list Z) : list Z :=
  match n with
  | O => w
  | S k =>
      let t := List.length w in
      let x := add32 (add32 (sigma1 (nthw w (t - 2))) (nthw w (t - 7)))
                     (add32 (sigma0 (nthw w (t - 15))) (nthw w (t - 16))) in
      schedule k (w ++ [x])
  end.

Definition round (st : list Z) (kw : Z * Z) : list Z :=
  match st with
  | [a; b; c; d; e; f; g; h] =>
      let t1 := add32 (add32 (add32 h (Sigma1 e)) (Ch e f g))
                      (add32 (fst kw) (snd kw)) in
      let t2 := add32 (Sigma0 a) (Maj a b c) in
      [add32 t1 t2; a; b; c; add32 d t1; e; f; g]
  | _ => st
  end.

Fixpoint zip_add (xs ys : list Z) : list Z :=
  match xs, ys with
  | x :: xs', y :: ys' => add32 x y :: zip_add xs' ys'
  | _, _ => []
  end.

Definition compress (st : list Z) (block : list Z) : list Z :=
  let w := schedule 48 (words 16 block) in
  zip_add st (List.fold_left round (List.combine K w) st).

Fixpoint blocks (n : nat) (st : list Z) (bs : list Z) : list Z :=
  match n with
  | O => st
  | S k => blocks k (compress st (List.firstn 64 bs)) (List.skipn 64 bs)
  end.

Definition digest (msg : list byte) : list byte :=
  let p := pad (List.map byte_val msg) in
  let st := blocks (List.length p / 64) H0 p in
  List.map byte_of_Z (List.concat (List.map (be_bytes 4) st)).

End SHA256.

(** ** Base64 (RFC 4648), the function behind [base64.b64encode] *)

Module Base64.

Definition alphabet : string :=
  "ABCDEFGHIJKLMNOPQRSTUVWXYZabcdefghijklmnopqrstuvwxyz0123456789+/".

Definition sextet (n : Z) : byte :=
  match String.get (Z.to_nat (n mod 64)) alphabet with
  | Some c => byte_of_ascii c
  | None => x00
  end.

Fixpoint enc (bs : list Z) {struct bs} : list byte :=
  match bs with
  | [] => []
  | [a] =>
      [sextet (Z.shiftr a 2); sextet (Z.shiftl (Z.land a 3) 4); x3d; x3d]
  | [a; b] =>
      [sextet (Z.shiftr a 2);
       sextet (Z.lor (Z.shiftl (Z.land a 3) 4) (Z.shiftr b 4));
       sextet (Z.shiftl (Z.land b 15) 2); x3d]
  | a :: b :: c :: r =>
      sextet (Z.shiftr a 2)
        :: sextet (Z.lor (Z.shiftl (Z.land a 3) 4) (Z.shiftr b 4))
        :: sextet (Z.lor (Z.shiftl (Z.land b 15) 2) (Z.shiftr c 6))
        :: sextet (Z.land c 63) :: enc r
  end.

Definition b64encode (bs : list byte) : list byte :=
  enc (List.map byte_val bs).

End Base64.

Definition hexdigit (n : Z) : ascii :=
  match String.get (Z.to_nat n) "0123456789abcdef" with
  | Some c => c
  | None => "0"%char
  end.

Definition hex_of_bytes (bs : list byte) : string :=
  List.fold_right
    (fun b acc => String (hexdigit (byte_val b / 16))
                    (String (hexdigit (byte_val b mod 16)) acc))
    EmptyString bs.


(** ** Exceptions *)

Inductive exn : Type :=
  | TypeError
  | ValueError
  | KeyError
  | BinasciiError
  | InvalidSignature
  | ValidationError
  | OSError.

Inductive result (A : Type) : Type :=
  | Ok (a : A)
  | Raise (e : exn).

Arguments Ok {A} a.
Arguments Raise {A} e.

#[global] Instance result_ret : MRet result := fun _ a => Ok a.

#[global] Instance result_bind : MBind result := fun _ _ f m =>
  match m with
  | Ok a => f a
  | Raise e => Raise e
  end.

(** [try: body except Exception: return False] *)
Definition try_except_false (body : result bool) : bool :=
  match body with
  | Ok b => b
  | Raise _ => false
  end.

(** ** JSON values and Python dictionaries *)

#[warnings="-register-all"]
Inductive json : Type :=
  | JNull
  | JBool (b : bool)
  | JInt (n : Z)
  | JStr (s : string)
  | JList (l : list json)
  | JDict (d : list (string * json)).

Abbreviation dict := (list (string * json)).

(** [d.get(k)]: [None] when the key is absent. *)
Fixpoint dict_get (k : string) (d : dict) : option json :=
  match d with
  | [] => None
  | (k', v) :: d' => if String.eqb k k' then Some v else dict_get k d'
  end.

(** [d.get(k, default)] *)
Definition dict_get_default (k : string) (default : json) (d : dict) : json :=
  match dict_get k d with
  | Some v => v
  | None => default
  end.

(** [k in d] *)
Definition dict_contains (k : string) (d : dict) : bool :=
  match dict_get k d with
  | Some _ => true
  | None => false
  end.

(** [d.copy()], on values. *)
Definition dict_copy (d : dict) : dict := d.

(** [d.pop(k, None)]: the entry of key [k] leaves, the others keep their order. *)
Fixpoint dict_pop (k : string) (d : dict) : dict :=
  match d with
  | [] => []
  | (k', v) :: d' =>
      if String.eqb k k' then dict_pop k d' else (k', v) :: dict_pop k d'
  end.

(** [d[k] = v]: an existing key keeps its position, a new key goes last. *)
Fixpoint dict_set (k : string) (v : json) (d : dict) : dict :=
  match d with
  | [] => [(k, v)]
  | (k', v') :: d' =>
      if String.eqb k k' then (k', v) :: d' else (k', v') :: dict_set k v d'
  end.

Definition dict_keys (d : dict) : list string := List.map fst d.

(** Truth value of a Python object, as [not x] and [if x] test it. *)
Definition py_truthy (v : json) : bool :=
  match v with
  | JNull => false
  | JBool b => b
  | JInt n => negb (n =? 0)
  | JStr s => negb (String.eqb s EmptyString)
  | JList l => match l with [] => false | _ => true end
  | JDict d => match d with [] => false | _ => true end
  end.

(** [v == s] for a string [s]: only an equal string is equal to a string. *)
Definition py_eq_str (v : json) (s : string) : bool :=
  match v with
  | JStr s' => String.eqb s' s
  | _ => false
  end.

(** ** Sorting, as [sorted] and [list.sort] do it

    Python sorts stably and compares with [<] only.  [insert_sorted] puts an
    element before the first one that is not smaller, so elements that were
    earlier in the input stay earlier among equals. *)

Section PySort.
Context {A : Type} (lt : A -> A -> bool).

Fixpoint insert_sorted (x : A) (l : list A) : list A :=
  match l with
  | [] => [x]
  | y :: l' => if lt y x then y :: insert_sorted x l' else x :: y :: l'
  end.

Fixpoint py_sorted (l : list A) : list A :=
  match l with
  | [] => []
  | x :: l' => insert_sorted x (py_sorted l')
  end.
End PySort.

Section PySortPartial.
Context {A : Type} (lt : A -> A -> result bool).

(** The same sort when [<] can raise: the exception aborts the sort. *)
Fixpoint insert_sorted_exn (x : A) (l : list A) : result (list A) :=
  match l with
  | [] => Ok [x]
  | y :: l' =>
      b ← lt y x;
      if (b : bool) then (r ← insert_sorted_exn x l'; Ok (y :: r))
      else Ok (x :: y :: l')
  end.

Fixpoint py_sorted_exn (l : list A) : result (list A) :=
  match l with
  | [] => Ok []
  | x :: l' => r ← py_sorted_exn l'; insert_sorted_exn x r
  end.
End PySortPartial.

(** ** [json.dumps(obj, sort_keys=True, separators=(',', ':'))] *)

(** [repr] of an [int]. *)
Definition py_int_repr (n : Z) : string :=
  DecimalString.NilZero.string_of_int (Z.to_int n).

Definition hex4 (n : Z) : string :=
  String (hexdigit (n / 4096 mod 16))
    (String (hexdigit (n / 256 mod 16))
      (String (hexdigit (n / 16 mod 16))
        (String (hexdigit (n mod 16)) EmptyString))).

(** One character under [ensure_ascii=True]: printable ASCII is literal, save
    the quote and the backslash; the five short escapes; the rest is
    [\uXXXX]. *)
Definition escape_char_ascii (c : ascii) : string :=
  let n := code_point c in
  if n =? 34 then String "\" (String c EmptyString)
  else if n =? 92 then String "\" (String c EmptyString)
  else if n =? 8 then "\b"
  else if n =? 12 then "\f"
  else if n =? 10 then "\n"
  else if n =? 13 then "\r"
  else if n =? 9 then "\t"
  else if (32 <=? n) && (n <=? 126) then String c EmptyString
  else "\u" +:+ hex4 n.

Fixpoint escape_ascii (s : string) : string :=
  match s with
  | EmptyString => EmptyString
  | String c s' => escape_char_ascii c +:+ escape_ascii s'
  end.

Definition quote : string := String (chr 34) EmptyString.

Definition encode_basestring_ascii (s : string) : string :=
  quote +:+ escape_ascii s +:+ quote.

(** [sep.join(parts)] *)
Fixpoint join (sep : string) (parts : list string) : string :=
  match parts with
  | [] => EmptyString
  | [p] => p
  | p :: ps => p +:+ sep +:+ join sep ps
  end.

(** The order of [sorted(dct.items())]: keys are distinct, so the values
    never take part in a comparison. *)
Definition item_lt {V : Type} (a b : string * V) : bool :=
  String.ltb (fst a) (fst b).

Definition render_item (kv : string * string) : string :=
  encode_basestring_ascii (fst kv) +:+ ":" +:+ snd kv.

(** The items of a dictionary are sorted by key and each value is rendered.
    Rendering the values first and sorting after gives the same text
    ([py_sorted_map_snd]) and keeps the recursion structural. *)
Fixpoint dumps_canonical (j : json) : string :=
  match j with
  | JNull => "null"
  | JBool true => "true"
  | JBool false => "false"
  | JInt n => py_int_repr n
  | JStr s => encode_basestring_ascii s
  | JList l => "[" +:+ join "," (List.map dumps_canonical l) +:+ "]"
  | JDict d =>
      "{" +:+ join ","
        (List.map render_item
           (py_sorted item_lt
              (List.map (fun kv => (fst kv, dumps_canonical (snd kv))) d)))
        +:+ "}"
  end.

(** ** Comparison of Python objects *)

(** The number behind an [int] or a [bool] ([bool] is a subclass of [int]). *)
Definition py_num (v : json) : option Z :=
  match v with
  | JInt n => Some n
  | JBool b => Some (if b then 1 else 0)
  | _ => None
  end.

(** [a == b] *)
Fixpoint py_eq (a b : json) {struct a} : bool :=
  match a, b with
  | JNull, JNull => true
  | JStr s, JStr t => String.eqb s t
  | JList l, JList m =>
      (fix all2 (l : list json) (m : list json) {struct l} : bool :=
         match l, m with
         | [], [] => true
         | x :: l', y :: m' => py_eq x y && all2 l' m'
         | _, _ => false
         end) l m
  | JDict d, JDict e =>
      (List.length d =? List.length e)%nat
      && List.forallb
           (fun kv => match dict_get (fst kv) e with
                      | Some w => py_eq (snd kv) w
                      | None => false
                      end) d
  | _, _ =>
      match py_num a, py_num b with
      | Some x, Some y => x =? y
      | _, _ => false
      end
  end.

(** [a < b]: numbers with numbers, strings with strings, lists with lists
    (at the first index where they differ); anything else is a [TypeError]. *)
Fixpoint py_lt (a b : json) {struct a} : result bool :=
  match a, b with
  | JStr s, JStr t => Ok (String.ltb s t)
  | JList l, JList m =>
      (fix lex (l : list json) (m : list json) {struct l} : result bool :=
         match l, m with
         | [], [] => Ok false
         | [], _ :: _ => Ok true
         | _ :: _, [] => Ok false
         | x :: l', y :: m' => if py_eq x y then lex l' m' else py_lt x y
         end) l m
  | _, _ =>
      match py_num a, py_num b with
      | Some x, Some y => Ok (x <? y)
      | _, _ => Raise TypeError
      end
  end.

(** [d.get(k)] as a Python object: [None] for an absent key. *)
Definition py_get (k : string) (d : dict) : json :=
  dict_get_default k JNull d.

Definition is_None (v : json) : bool :=
  match v with
  | JNull => true
  | _ => false
  end.

(** ** crypto.py *)

(** The Ed25519 primitives of the [cryptography] package and the decoder of
    [base64] are taken as given.  [b64decode] receives whatever object the
    caller passes and raises for what it cannot decode. *)
Class CryptoLib : Type := {
  ed25519_public_key : list byte -> list byte;
  ed25519_sign : list byte -> list byte -> list byte;
  ed25519_verify : list byte -> list byte -> list byte -> bool;
  b64decode : json -> result (list byte)
}.

Record KeyPair : Type := { private_key : list byte }.

Section Crypto.
Context `{CryptoLib}.

Definition public_key (kp : KeyPair) : list byte :=
  ed25519_public_key (private_key kp).

(** [KeyPair.sign] *)
Definition KeyPair_sign (kp : KeyPair) (data : list byte) : string :=
  let signature := ed25519_sign (private_key kp) data in
  decode_ascii (Base64.b64encode signature).

(** [Ed25519PublicKey.from_public_bytes]: a key is 32 bytes. *)
Definition from_public_bytes (public_key_bytes : list byte)
  : result (list byte) :=
  if (List.length public_key_bytes =? 32)%nat then Ok public_key_bytes
  else Raise ValueError.

(** [public_key.verify(signature, data)] *)
Definition public_key_verify (pk signature data : list byte) : result unit :=
  if ed25519_verify pk signature data then Ok tt
  else Raise InvalidSignature.

Definition verify_signature_with_public_key
    (data : list byte) (signature : json) (public_key_bytes : list byte)
  : bool :=
  try_except_false (
    public_key ← from_public_bytes public_key_bytes;
    signature_bytes ← b64decode signature;
    _ ← public_key_verify public_key signature_bytes data;
    Ok true).

Definition canonical_json (event_copy : dict) : string :=
  dumps_canonical (JDict event_copy).

Definition compute_event_hash (event_dict : dict) : string :=
  let event_copy := dict_copy event_dict in
  let event_copy := dict_pop "signature" event_copy in
  let canonical_json := canonical_json event_copy in
  let hash_bytes := SHA256.digest (encode_utf8 canonical_json) in
  decode_ascii (Base64.b64encode hash_bytes).

(** [sign_event] on values; [Store.sign_event] below is the same function
    on a store of mutable dictionaries. *)
Definition sign_event (event_dict : dict) (keypair : KeyPair) : dict :=
  let event_copy := dict_copy event_dict in
  let event_copy := dict_pop "signature" event_copy in
  let canonical_json := canonical_json event_copy in
  let signature := KeyPair_sign keypair (encode_utf8 canonical_json) in
  dict_set "signature" (JStr signature) event_copy.

Definition verify_event_signature
    (event_dict : dict) (public_key_bytes : list byte) : bool :=
  try_except_false (
    let signature := py_get "signature" event_dict in
    if negb (py_truthy signature) then Ok false
    else
      let event_copy := dict_copy event_dict in
      let event_copy := dict_pop "signature" event_copy in
      let canonical_json := canonical_json event_copy in
      Ok (verify_signature_with_public_key
            (encode_utf8 canonical_json) signature public_key_bytes)).

Definition is_sender (sender_id : string) (e : dict) : bool :=
  py_eq_str (py_get "sender_id" e) sender_id.

Definition timestamp_key (e : dict) : json :=
  dict_get_default "timestamp_ms" (JInt 0) e.

Definition timestamp_lt (a b : dict) : result bool :=
  py_lt (timestamp_key a) (timestamp_key b).

Definition build_hash_chain (events : list dict) (sender_id : string)
  : result (list string) :=
  let sender_events := List.filter (is_sender sender_id) events in
  sender_events ← py_sorted_exn timestamp_lt sender_events;
  Ok (List.map compute_event_hash sender_events).

(** The body of the [for] loop of [verify_hash_chain]; [prev_hash] is
    [None] before the first event and a hash afterwards. *)
Fixpoint verify_loop (prev_hash : option string) (sender_events : list dict)
  : bool :=
  match sender_events with
  | [] => true
  | event :: rest =>
      let expected_prev_hash := py_get "prev_event_hash" event in
      let mismatch :=
        match prev_hash with
        | None => negb (is_None expected_prev_hash)
        | Some h => negb (py_eq_str expected_prev_hash h)
        end in
      if mismatch then false
      else verify_loop (Some (compute_event_hash event)) rest
  end.

Definition verify_hash_chain (events : list dict) (sender_id : string)
  : result bool :=
  let sender_events := List.filter (is_sender sender_id) events in
  sender_events ← py_sorted_exn timestamp_lt sender_events;
  match sender_events with
  | [] => Ok true
  | _ => Ok (verify_loop None sender_events)
  end.

End Crypto.

(** *** [sign_event] over mutable dictionaries

    A store maps references to dictionaries.  [dict.copy] allocates,
    [dict.pop] and item assignment update the dictionary a reference points
    to.  The values inside a dictionary are never modified by the code below
    and are kept as plain values. *)
Module Store.

Definition ref : Type := positive.

Abbreviation store := (gmap ref dict).

(** A computation reads and updates the store; [None] is a dangling
    reference, which Python does not have. *)
Definition M (A : Type) : Type := store -> option (A * store).

#[global] Instance M_ret : MRet M := fun _ a h => Some (a, h).

#[global] Instance M_bind : MBind M := fun _ _ f m h =>
  match m h with
  | Some (a, h') => f a h'
  | None => None
  end.

(** [d.copy()] *)
Definition copy (r : ref) : M ref := fun h =>
  match h !! r with
  | Some d => let r' := fresh (dom h) in Some (r', <[r' := d]> h)
  | None => None
  end.

(** [d.pop(k, None)] *)
Definition pop (r : ref) (k : string) : M json := fun h =>
  match h !! r with
  | Some d => Some (py_get k d, <[r := dict_pop k d]> h)
  | None => None
  end.

(** [d[k] = v] *)
Definition setitem (r : ref) (k : string) (v : json) : M unit := fun h =>
  match h !! r with
  | Some d => Some (tt, <[r := dict_set k v d]> h)
  | None => None
  end.

(** [json.dumps(d, sort_keys=True, separators=(',', ':'))] *)
Definition dumps (r : ref) : M string := fun h =>
  match h !! r with
  | Some d => Some (dumps_canonical (JDict d), h)
  | None => None
  end.

Section WithLib.
Context `{CryptoLib}.

Definition compute_event_hash (event_dict : ref) : M string :=
  event_copy ← copy event_dict;
  _ ← pop event_copy "signature";
  canonical_json ← dumps event_copy;
  let hash_bytes := SHA256.digest (encode_utf8 canonical_json) in
  mret (decode_ascii (Base64.b64encode hash_bytes)).

Definition sign_event (event_dict : ref) (keypair : KeyPair) : M ref :=
  event_copy ← copy event_dict;
  _ ← pop event_copy "signature";
  canonical_json ← dumps event_copy;
  let signature := KeyPair_sign keypair (encode_utf8 canonical_json) in
  _ ← setitem event_copy "signature" (JStr signature);
  mret event_copy.
End WithLib.

End Store.


(** ** Python string methods *)

(** [sub in s] *)
Fixpoint str_contains (sub s : string) : bool :=
  String.prefix sub s
  || match s with
     | EmptyString => false
     | String _ s' => str_contains sub s'
     end.

(** [s.split(sep)] for a separator that is not empty: the text is scanned
    from the left, [skip] counts the characters of a separator that was just
    found and [cur] holds the part read so far. *)
Fixpoint split_from (sep s : string) (skip : nat) (cur : string) : list string :=
  match s with
  | EmptyString => [cur]
  | String c s' =>
      match skip with
      | S k => split_from sep s' k cur
      | O =>
          if String.prefix sep s
          then cur :: split_from sep s' (String.length sep - 1) EmptyString
          else split_from sep s' O (cur +:+ String c EmptyString)
      end
  end.

Definition str_split (sep s : string) : list string :=
  split_from sep s O EmptyString.

(** [c.isalnum()] for the code points below U+0100: the ASCII letters and
    digits, the letters of Latin-1 and its superscript digits and fractions. *)
Definition isalnum (c : ascii) : bool :=
  let n := code_point c in
  ((48 <=? n) && (n <=? 57)) || ((65 <=? n) && (n <=? 90))
  || ((97 <=? n) && (n <=? 122))
  || (n =? 170) || (n =? 178) || (n =? 179) || (n =? 181)
  || (n =? 185) || (n =? 186) || ((188 <=? n) && (n <=? 190))
  || ((192 <=? n) && (n <=? 214)) || ((216 <=? n) && (n <=? 246))
  || ((248 <=? n) && (n <=? 255)).

Fixpoint str_forallb (f : ascii -> bool) (s : string) : bool :=
  match s with
  | EmptyString => true
  | String c s' => f c && str_forallb f s'
  end.

(** [c.isspace()] for the code points below U+0100. *)
Definition isspace (c : ascii) : bool :=
  let n := code_point c in
  ((9 <=? n) && (n <=? 13)) || ((28 <=? n) && (n <=? 32))
  || (n =? 133) || (n =? 160).

Fixpoint lstrip (s : string) : string :=
  match s with
  | EmptyString => EmptyString
  | String c s' => if isspace c then lstrip s' else s
  end.

Fixpoint rstrip (s : string) : string :=
  match s with
  | EmptyString => EmptyString
  | String c s' =>
      match rstrip s' with
      | EmptyString => if isspace c then EmptyString else String c EmptyString
      | r => String c r
      end
  end.

(** [s.strip()] *)
Definition strip (s : string) : string := rstrip (lstrip s).

Fixpoint str_filter (f : ascii -> bool) (s : string) : string :=
  match s with
  | EmptyString => EmptyString
  | String c s' => if f c then String c (str_filter f s') else str_filter f s'
  end.

(** ** events.py *)

Module EventTypes.
Definition MESSAGE : string := "m.room.message".
Definition MEMBER : string := "m.room.member".
Definition REDACTION : string := "m.room.redaction".
Definition EDIT : string := "m.room.edit".
Definition REACTION : string := "m.room.reaction".
Definition TYPING : string := "m.room.typing".
End EventTypes.

Record Event : Type := {
  event_id : string;
  room_id : string;
  timestamp_ms : Z;
  sender_id : string;
  type : string;
  parent_event_id : option string;
  prev_event_hash : option string;
  signature : string;
  content : dict
}.

(** [Event.validate_timestamp]; [now_ms] is the clock of the validator. *)
Definition validate_timestamp (now_ms : Z) (v : Z) : result Z :=
  if v <=? 0 then Raise ValueError
  else if v >? now_ms + 3600000 then Raise ValueError
  else Ok v.

(** [Event.validate_event_id]; [values] holds the fields validated before
    this one. *)
Definition validate_event_id (v : string) (values : dict) : result string :=
  if negb (str_contains "::" v) then Raise ValueError
  else
    let parts := str_split "::" v in
    if negb (List.length parts =? 3)%nat then Raise ValueError
    else if dict_contains "room_id" values
            && negb (py_eq (JStr (List.nth 0 parts EmptyString))
                           (py_get "room_id" values))
    then Raise ValueError
    else Ok v.

Definition valid_types : list string :=
  [EventTypes.MESSAGE; EventTypes.MEMBER; EventTypes.REDACTION;
   EventTypes.EDIT; EventTypes.REACTION; EventTypes.TYPING].

(** [Event.validate_event_type] *)
Definition validate_event_type (v : string) : result string :=
  if negb (List.existsb (String.eqb v) valid_types) then Raise ValueError
  else Ok v.

(** *** Validation of the model

    Pydantic validates the fields in the order of their declaration: the
    value is checked against the type of the field, then the validator of the
    field runs and receives in [values] the fields that were validated before
    it.  A missing required field, a value of another type and a [ValueError]
    of a validator all end in a [ValidationError].  Values are taken at their
    JSON type; the conversions of Pydantic between types are not part of the
    model. *)

Definition as_validation_error {A : Type} (r : result A) : result A :=
  match r with
  | Ok a => Ok a
  | Raise _ => Raise ValidationError
  end.

Definition field_str (name : string) (data : dict) : result string :=
  match dict_get name data with
  | Some (JStr s) => Ok s
  | _ => Raise ValidationError
  end.

Definition field_int (name : string) (data : dict) : result Z :=
  match dict_get name data with
  | Some (JInt n) => Ok n
  | _ => Raise ValidationError
  end.

Definition field_optional_str (name : string) (data : dict)
  : result (option string) :=
  match dict_get name data with
  | None | Some JNull => Ok None
  | Some (JStr s) => Ok (Some s)
  | _ => Raise ValidationError
  end.

Definition field_dict (name : string) (data : dict) : result dict :=
  match dict_get name data with
  | Some (JDict d) => Ok d
  | _ => Raise ValidationError
  end.

(** [Event.model_validate(data)], also the constructor of [Event] given the
    entries of [data] as keywords *)
Definition model_validate (now_ms : Z) (data : dict) : result Event :=
  let values : dict := [] in
  event_id ← (v ← field_str "event_id" data;
              as_validation_error (validate_event_id v values));
  let values := dict_set "event_id" (JStr event_id) values in
  room_id ← field_str "room_id" data;
  let values := dict_set "room_id" (JStr room_id) values in
  timestamp_ms ← (v ← field_int "timestamp_ms" data;
                  as_validation_error (validate_timestamp now_ms v));
  sender_id ← field_str "sender_id" data;
  type ← (v ← field_str "type" data;
          as_validation_error (validate_event_type v));
  parent_event_id ← field_optional_str "parent_event_id" data;
  prev_event_hash ← field_optional_str "prev_event_hash" data;
  signature ← field_str "signature" data;
  content ← field_dict "content" data;
  Ok {| event_id := event_id; room_id := room_id;
        timestamp_ms := timestamp_ms; sender_id := sender_id; type := type;
        parent_event_id := parent_event_id;
        prev_event_hash := prev_event_hash;
        signature := signature; content := content |}.

(** [validate_event_dict] *)
Definition validate_event_dict (now_ms : Z) (event_dict : dict) : bool :=
  match model_validate now_ms event_dict with
  | Ok _ => true
  | Raise _ => false
  end.

Definition json_of_option (o : option string) : json :=
  match o with
  | Some s => JStr s
  | None => JNull
  end.

(** [Event.to_dict], that is [model_dump()] *)
Definition to_dict (e : Event) : dict :=
  [("event_id", JStr (event_id e)); ("room_id", JStr (room_id e));
   ("timestamp_ms", JInt (timestamp_ms e)); ("sender_id", JStr (sender_id e));
   ("type", JStr (type e));
   ("parent_event_id", json_of_option (parent_event_id e));
   ("prev_event_hash", json_of_option (prev_event_hash e));
   ("signature", JStr (signature e)); ("content", JDict (content e))].

(** ** [json.dumps(obj, indent=2, ensure_ascii=False)] *)

(** One character under [ensure_ascii=False]: only the quote, the backslash
    and the control characters are escaped. *)
Definition escape_char (c : ascii) : string :=
  let n := code_point c in
  if n =? 34 then String (chr 92) (String c EmptyString)
  else if n =? 92 then String (chr 92) (String c EmptyString)
  else if n =? 8 then "\b"
  else if n =? 12 then "\f"
  else if n =? 10 then "\n"
  else if n =? 13 then "\r"
  else if n =? 9 then "\t"
  else if n <? 32 then "\u" +:+ hex4 n
  else String c EmptyString.

Fixpoint escape (s : string) : string :=
  match s with
  | EmptyString => EmptyString
  | String c s' => escape_char c +:+ escape s'
  end.

Definition encode_basestring (s : string) : string :=
  quote +:+ escape s +:+ quote.

Fixpoint spaces (n : nat) : string :=
  match n with
  | O => EmptyString
  | S k => String " " (spaces k)
  end.

Definition newline_indent (level : nat) : string :=
  String (chr 10) (spaces (2 * level)).

Fixpoint dumps_indent (level : nat) (j : json) : string :=
  match j with
  | JNull => "null"
  | JBool true => "true"
  | JBool false => "false"
  | JInt n => py_int_repr n
  | JStr s => encode_basestring s
  | JList [] => "[]"
  | JList l =>
      "[" +:+ newline_indent (S level)
        +:+ join ("," +:+ newline_indent (S level))
              (List.map (dumps_indent (S level)) l)
        +:+ newline_indent level +:+ "]"
  | JDict [] => "{}"
  | JDict d =>
      "{" +:+ newline_indent (S level)
        +:+ join ("," +:+ newline_indent (S level))
              (List.map (fun kv => encode_basestring (fst kv) +:+ ": "
                                   +:+ dumps_indent (S level) (snd kv)) d)
        +:+ newline_indent level +:+ "}"
  end.

(** ** JSON text, as Pydantic writes and reads it *)

(** A string between quotes, its characters escaped by [esc]. *)
Definition quoted (esc : string -> string) (s : string) : string :=
  quote +:+ esc s +:+ quote.

(** JSON text without spaces, the entries of a dictionary in their order. *)
Fixpoint dumps_with (esc : string -> string) (j : json) : string :=
  match j with
  | JNull => "null"
  | JBool true => "true"
  | JBool false => "false"
  | JInt n => py_int_repr n
  | JStr s => quoted esc s
  | JList l => "[" +:+ join "," (List.map (dumps_with esc) l) +:+ "]"
  | JDict d =>
      "{" +:+ join ","
        (List.map (fun kv => quoted esc (fst kv) +:+ ":"
                             +:+ dumps_with esc (snd kv)) d)
        +:+ "}"
  end.

(** [model_dump_json] writes this text, with the control characters, the
    quote and the backslash escaped. *)
Definition dumps_compact (j : json) : string := dumps_with escape j.

Definition dquote : ascii := Eval cbv in chr 34.

Definition json_ws (c : ascii) : bool :=
  let n := code_point c in
  (n =? 32) || (n =? 9) || (n =? 10) || (n =? 13).

Fixpoint skip_ws (s : string) : string :=
  match s with
  | EmptyString => EmptyString
  | String c s' => if json_ws c then skip_ws s' else s
  end.

Definition hex_val (c : ascii) : option Z :=
  let n := code_point c in
  if (48 <=? n) && (n <=? 57) then Some (n - 48)
  else if (97 <=? n) && (n <=? 102) then Some (n - 87)
  else if (65 <=? n) && (n <=? 70) then Some (n - 55)
  else None.

Definition hex4_val (h1 h2 h3 h4 : ascii) : option Z :=
  match hex_val h1, hex_val h2, hex_val h3, hex_val h4 with
  | Some a, Some b, Some c, Some d => Some (a * 4096 + b * 256 + c * 16 + d)
  | _, _, _, _ => None
  end.

(** The character a backslash and [e] stand for. *)
Definition unescape (e : ascii) : option ascii :=
  if Ascii.eqb e dquote then Some dquote
  else if Ascii.eqb e "\" then Some "\"%char
  else if Ascii.eqb e "/" then Some "/"%char
  else if Ascii.eqb e "b" then Some (chr 8)
  else if Ascii.eqb e "f" then Some (chr 12)
  else if Ascii.eqb e "n" then Some (chr 10)
  else if Ascii.eqb e "r" then Some (chr 13)
  else if Ascii.eqb e "t" then Some (chr 9)
  else None.

Definition cons_char (c : ascii) (r : option (string * string))
  : option (string * string) :=
  match r with
  | Some (s, rest) => Some (String c s, rest)
  | None => None
  end.

(** The text of a string after its opening quote: the string and what
    follows its closing quote.  Code points from U+0100 on are outside what a
    [string] holds and are refused. *)
Fixpoint parse_chars (s : string) : option (string * string) :=
  match s with
  | EmptyString => None
  | String c s1 =>
      if Ascii.eqb c dquote then Some (EmptyString, s1)
      else if Ascii.eqb c "\" then
        match s1 with
        | EmptyString => None
        | String e s2 =>
            if Ascii.eqb e "u" then
              match s2 with
              | String h1 (String h2 (String h3 (String h4 s3))) =>
                  match hex4_val h1 h2 h3 h4 with
                  | Some n =>
                      if n <? 256 then cons_char (chr n) (parse_chars s3)
                      else None
                  | None => None
                  end
              | _ => None
              end
            else
              match unescape e with
              | Some c' => cons_char c' (parse_chars s2)
              | None => None
              end
        end
      else if code_point c <? 32 then None
      else cons_char c (parse_chars s1)
  end.

Definition is_digit (c : ascii) : bool :=
  let n := code_point c in (48 <=? n) && (n <=? 57).

Definition number_char (c : ascii) : bool :=
  is_digit c || Ascii.eqb c "-".

(** The longest prefix made of characters that [f] accepts, and the rest. *)
Fixpoint span (f : ascii -> bool) (s : string) : string * string :=
  match s with
  | EmptyString => (EmptyString, EmptyString)
  | String c s' =>
      if f c then let r := span f s' in (String c (fst r), snd r)
      else (EmptyString, s)
  end.

(** No zero in front of other digits. *)
Definition no_leading_zero (digits : string) : bool :=
  match digits with
  | String c (String _ _) => negb (Ascii.eqb c "0")
  | _ => true
  end.

Definition starts_fraction (s : string) : bool :=
  match s with
  | String c _ => Ascii.eqb c "." || Ascii.eqb c "e" || Ascii.eqb c "E"
  | EmptyString => false
  end.

(** An integer.  Numbers with a fraction or an exponent are floats, which the
    model does not hold; they are refused. *)
Definition parse_number (s : string) : option (json * string) :=
  let r := span number_char s in
  let digits :=
    match fst r with
    | String c d => if Ascii.eqb c "-" then d else fst r
    | EmptyString => EmptyString
    end in
  if starts_fraction (snd r) || negb (no_leading_zero digits) then None
  else
    match DecimalString.NilZero.int_of_string (fst r) with
    | Some d => Some (JInt (Z.of_int d), snd r)
    | None => None
    end.

(** [s] without the prefix [word], when it starts with it. *)
Fixpoint strip_prefix (word s : string) : option string :=
  match word with
  | EmptyString => Some s
  | String a word' =>
      match s with
      | String b s' => if Ascii.eqb a b then strip_prefix word' s' else None
      | EmptyString => None
      end
  end.

Definition expect (word : string) (v : json) (s : string)
  : option (json * string) :=
  match strip_prefix word s with
  | Some rest => Some (v, rest)
  | None => None
  end.

(** A dictionary built by assigning the entries one after the other: a key
    that comes again keeps its place and takes the later value. *)
Definition dict_of_items (items : list (string * json)) : dict :=
  List.fold_left (fun d kv => dict_set (fst kv) (snd kv) d) items [].

(** Whether the text, after white space, starts with the character [c]. *)
Definition next_is (c : ascii) (s : string) : option string :=
  match skip_ws s with
  | String c' rest => if Ascii.eqb c' c then Some rest else None
  | EmptyString => None
  end.

(** The parser; [fuel] bounds the number of values and entries read. *)
Fixpoint parse_value (fuel : nat) (s : string) {struct fuel}
  : option (json * string) :=
  match fuel with
  | O => None
  | S fuel' =>
      match skip_ws s with
      | EmptyString => None
      | String c s1 =>
          if Ascii.eqb c "n" then expect "null" JNull (String c s1)
          else if Ascii.eqb c "t" then expect "true" (JBool true) (String c s1)
          else if Ascii.eqb c "f" then expect "false" (JBool false) (String c s1)
          else if Ascii.eqb c dquote then
            match parse_chars s1 with
            | Some (str, rest) => Some (JStr str, rest)
            | None => None
            end
          else if Ascii.eqb c "[" then
            match next_is "]" s1 with
            | Some rest => Some (JList [], rest)
            | None =>
                match parse_elements fuel' s1 with
                | Some (l, rest) => Some (JList l, rest)
                | None => None
                end
            end
          else if Ascii.eqb c "{" then
            match next_is "}" s1 with
            | Some rest => Some (JDict [], rest)
            | None =>
                match parse_members fuel' s1 with
                | Some (items, rest) => Some (JDict (dict_of_items items), rest)
                | None => None
                end
            end
          else if number_char c then parse_number (String c s1)
          else None
      end
  end
with parse_elements (fuel : nat) (s : string) {struct fuel}
  : option (list json * string) :=
  match fuel with
  | O => None
  | S fuel' =>
      match parse_value fuel' s with
      | Some (v, s1) =>
          match next_is "," s1 with
          | Some s2 =>
              match parse_elements fuel' s2 with
              | Some (l, rest) => Some (v :: l, rest)
              | None => None
              end
          | None =>
              match next_is "]" s1 with
              | Some rest => Some ([v], rest)
              | None => None
              end
          end
      | None => None
      end
  end
with parse_members (fuel : nat) (s : string) {struct fuel}
  : option (list (string * json) * string) :=
  match fuel with
  | O => None
  | S fuel' =>
      match next_is dquote s with
      | Some s0 =>
          match parse_chars s0 with
          | Some (k, s1) =>
              match next_is ":" s1 with
              | Some s2 =>
                  match parse_value fuel' s2 with
                  | Some (v, s3) =>
                      match next_is "," s3 with
                      | Some s4 =>
                          match parse_members fuel' s4 with
                          | Some (items, rest) => Some ((k, v) :: items, rest)
                          | None => None
                          end
                      | None =>
                          match next_is "}" s3 with
                          | Some rest => Some ([(k, v)], rest)
                          | None => None
                          end
                      end
                  | None => None
                  end
              | None => None
              end
          | None => None
          end
      | None => None
      end
  end.

(** [json.loads]-like reading of a whole text. *)
Definition json_loads (s : string) : result json :=
  match parse_value (S (String.length s)) s with
  | Some (j, rest) =>
      match skip_ws rest with
      | EmptyString => Ok j
      | _ => Raise ValueError
      end
  | None => Raise ValueError
  end.

(** [Event.model_dump_json] *)
Definition model_dump_json (e : Event) : string :=
  dumps_compact (JDict (to_dict e)).


(** [Event.to_jsonl_line] *)
Definition to_jsonl_line (e : Event) : string :=
  model_dump_json e +:+ String (chr 10) EmptyString.


(** ** storage.py *)

(** *** Paths

    A path is the list of its parts, as [PurePosixPath.parts] gives them; an
    absolute path starts with the part ["/"] (or ["//"]). *)
Abbreviation path := (list string).

Definition path_root (s : string) : string :=
  if String.prefix "///" s then "/"
  else if String.prefix "//" s then "//"
  else if String.prefix "/" s then "/"
  else EmptyString.

Definition is_path_part (c : string) : bool :=
  negb (String.eqb c EmptyString || String.eqb c ".").

Definition path_parts (s : string) : list string :=
  List.filter is_path_part (str_split "/" s).

(** [p / s]: the parts of [s] are appended, unless [s] is absolute, in which
    case it replaces [p]. *)
Definition path_div (p : path) (s : string) : path :=
  if String.eqb (path_root s) EmptyString then p ++ path_parts s
  else path_root s :: path_parts s.

Infix "</>" := path_div (at level 40, left associativity).

(** [Path(s)] *)
Definition Path (s : string) : path := [] </> s.

(** The path of a bucket: the scheme and the bucket are the first part. *)
Definition CloudPath (s : string) : path :=
  match path_parts (String.substring 5 (String.length s - 5) s) with
  | [] => [String.substring 0 5 s]
  | bucket :: key => (String.substring 0 5 s +:+ bucket) :: key
  end.

(** [p.parent] *)
Definition path_parent (p : path) : path := List.removelast p.

(** [p.name] *)
Definition path_name (p : path) : string := List.last p EmptyString.

(** *** The storage backend

    A file system holds files with their text and directories.  A bucket
    holds objects only; there a path exists when it is an object or a prefix
    of one. *)
Record filesystem : Type := {
  fs_files : gmap path string;
  fs_dirs : gset path
}.

Record UnifiedStorage : Type := {
  base_path : path;
  is_cloud : bool
}.

(** [UnifiedStorage.__init__]; [CLOUD_AVAILABLE] tells whether the cloud
    libraries could be imported. *)
Definition UnifiedStorage_init (CLOUD_AVAILABLE : bool) (base_path : string)
  : UnifiedStorage :=
  if String.prefix "file://" base_path then
    {| base_path := Path (String.substring 7 (String.length base_path - 7) base_path);
       is_cloud := false |}
  else if (String.prefix "s3://" base_path || String.prefix "gs://" base_path
           || String.prefix "az://" base_path) && CLOUD_AVAILABLE then
    {| base_path := CloudPath base_path; is_cloud := true |}
  else {| base_path := Path base_path; is_cloud := false |}.

Definition is_file (fs : filesystem) (p : path) : bool :=
  bool_decide (is_Some (fs_files fs !! p)).

Definition is_dir (fs : filesystem) (p : path) : bool :=
  bool_decide (p ∈ fs_dirs fs).

Definition is_object_prefix (fs : filesystem) (p : path) : bool :=
  bool_decide (set_Exists (fun k => p `prefix_of` k) (dom (fs_files fs))).

(** [UnifiedStorage.file_exists], that is [file_path.exists()] *)
Definition file_exists (self : UnifiedStorage) (fs : filesystem) (p : path)
  : bool :=
  if is_cloud self then is_object_prefix fs p
  else is_file fs p || is_dir fs p.

(** The path itself and the paths above it, the shortest first. *)
Fixpoint ancestors_from (above p : path) : list path :=
  match p with
  | [] => []
  | c :: p' => (above ++ [c]) :: ancestors_from (above ++ [c]) p'
  end.

Definition ancestors (p : path) : list path := ancestors_from [] p.

(** [p.mkdir(parents=True, exist_ok=True)]: an [OSError] when the path or a
    path above it is a file. *)
Definition mkdir_parents (p : path) (fs : filesystem) : result filesystem :=
  if List.existsb (is_file fs) (ancestors p) then Raise OSError
  else Ok {| fs_files := fs_files fs;
             fs_dirs := fs_dirs fs ∪ list_to_set (ancestors p) |}.

(** Writing the whole text of a file: an [OSError] when the path is a
    directory. *)
Definition write_text (self : UnifiedStorage) (p : path) (text : string)
    (fs : filesystem) : result filesystem :=
  if negb (is_cloud self) && is_dir fs p then Raise OSError
  else Ok {| fs_files := <[p := text]> (fs_files fs); fs_dirs := fs_dirs fs |}.

(** [UnifiedStorage.write_json]: the answer of the method and the file system
    it leaves.  A failure is caught and reported as [False]; directories made
    before the failure stay. *)
Definition write_json (self : UnifiedStorage) (file_path : path) (data : json)
    (fs : filesystem) : bool * filesystem :=
  let content := dumps_indent 0 data in
  if is_cloud self then
    match write_text self file_path content fs with
    | Ok fs' => (true, fs')
    | Raise _ => (false, fs)
    end
  else
    match mkdir_parents (path_parent file_path) fs with
    | Ok fs1 =>
        match write_text self file_path content fs1 with
        | Ok fs2 => (true, fs2)
        | Raise _ => (false, fs1)
        end
    | Raise _ => (false, fs)
    end.

(** [UnifiedStorage.get_room_metadata_path] *)
Definition get_room_metadata_path (self : UnifiedStorage) (room_id : string)
  : path :=
  base_path self </> "rooms" </> room_id </> "metadata.json".

(** [UnifiedStorage.ensure_room_structure]; [now_iso] is
    [datetime.now().isoformat()] at the time of the call. *)
Definition ensure_room_structure (self : UnifiedStorage) (room_id : string)
    (now_iso : string) (fs : filesystem) : result filesystem :=
  let room_path := base_path self </> "rooms" </> room_id in
  let logs_path := room_path </> "logs" in
  fs ← (if is_cloud self then Ok fs
        else fs ← mkdir_parents room_path fs; mkdir_parents logs_path fs);
  let metadata_path := room_path </> "metadata.json" in
  if negb (file_exists self fs metadata_path) then
    let metadata :=
      [("room_id", JStr room_id); ("created_at", JStr now_iso);
       ("version", JStr "1.0"); ("protocol", JStr "bucket-chat-v1")] in
    Ok (snd (write_json self metadata_path (JDict metadata) fs))
  else Ok fs.

(** [UnifiedStorage.get_daily_log_path] *)
Definition get_daily_log_path (self : UnifiedStorage) (room_id date_str : string)
    (start_ts end_ts : Z) (client_id : string) : path :=
  let filename :=
    "messages_" +:+ py_int_repr start_ts +:+ "_" +:+ py_int_repr end_ts
      +:+ "_" +:+ client_id +:+ ".jsonl" in
  base_path self </> "rooms" </> room_id </> "logs" </> date_str </> filename.

(** [generate_client_id] *)
Definition generate_client_id (user_id : string) : string :=
  let client_id :=
    if str_contains "@" user_id
    then List.nth 0 (str_split "@" user_id) EmptyString
    else user_id in
  str_filter (fun c => isalnum c || Ascii.eqb c "_"%char) client_id.

(** The file [BucketChatClient._write_event_to_storage] writes a segment of
    the writer [user_id] to. *)
Definition writer_log_path (self : UnifiedStorage) (user_id : string)
    (room_id date_str : string) (start_ts end_ts : Z) : path :=
  let client_id := generate_client_id user_id in
  get_daily_log_path self room_id date_str start_ts end_ts client_id.

(** ** Dictionaries as key-value maps *)

Fixpoint nodupb (l : list string) : bool :=
  match l with
  | [] => true
  | x :: l' => negb (List.existsb (String.eqb x) l') && nodupb l'
  end.

(** The invariant of Python dictionaries: no key occurs twice, at any depth. *)
Fixpoint wf_json (j : json) : bool :=
  match j with
  | JList l => List.forallb wf_json l
  | JDict d =>
      nodupb (List.map fst d) && List.forallb (fun kv => wf_json (snd kv)) d
  | _ => true
  end.

Definition wf_dict (d : dict) : bool := wf_json (JDict d).

(** Two values are the same when they are the same scalar, the same list of
    values or dictionaries with the same keys bound to the same values,
    whatever the order the keys were inserted in. *)
Fixpoint json_same (a b : json) {struct a} : bool :=
  match a, b with
  | JNull, JNull => true
  | JBool x, JBool y => Bool.eqb x y
  | JInt x, JInt y => x =? y
  | JStr s, JStr t => String.eqb s t
  | JList l, JList m =>
      (fix all2 (l : list json) (m : list json) {struct l} : bool :=
         match l, m with
         | [], [] => true
         | x :: l', y :: m' => json_same x y && all2 l' m'
         | _, _ => false
         end) l m
  | JDict d, JDict e =>
      (List.length d =? List.length e)%nat
      && List.forallb
           (fun kv => match dict_get (fst kv) e with
                      | Some w => json_same (snd kv) w
                      | None => false
                      end) d
  | _, _ => false
  end.

(** Equal as key-value maps once the ['signature'] field is removed. *)
Definition same_without_signature (d1 d2 : dict) : bool :=
  json_same (JDict (dict_pop "signature" d1)) (JDict (dict_pop "signature" d2)).

(** ** The hash chain in the words of the specification

    [s] is the list of one sender's records in sorted order. *)

Definition first_has_no_prev (s : list dict) : Prop :=
  match s with
  | [] => True
  | first :: _ => py_get "prev_event_hash" first = JNull
  end.

Definition links_to_predecessor (s : list dict) : Prop :=
  forall (i : nat) (pred e : dict),
    s !! i = Some pred -> s !! S i = Some e ->
    py_get "prev_event_hash" e = JStr (compute_event_hash pred).

Definition chain_valid (s : list dict) : Prop :=
  first_has_no_prev s /\ links_to_predecessor s.

(** The integer timestamp of a record, when it has one. *)
Definition int_timestamp (e : dict) : option Z :=
  match timestamp_key e with
  | JInt n => Some n
  | _ => None
  end.

Definition timestamp_of (e : dict) : Z := default 0 (int_timestamp e).

Fixpoint nodupZ (l : list Z) : bool :=
  match l with
  | [] => true
  | x :: l' => negb (List.existsb (Z.eqb x) l') && nodupZ l'
  end.

Fixpoint increasingZ (l : list Z) : bool :=
  match l with
  | x :: ((y :: _) as l') => (x <? y) && increasingZ l'
  | _ => true
  end.

Definition all_int_timestamps (l : list dict) : bool :=
  List.forallb (fun e => match int_timestamp e with Some _ => true | None => false end) l.

(** Every record carries an integer timestamp and no two carry the same. *)
Definition distinct_int_timestamps (l : list dict) : bool :=
  all_int_timestamps l && nodupZ (List.map timestamp_of l).

(** Every record carries an integer timestamp, each larger than the one before. *)
Definition increasing_int_timestamps (l : list dict) : bool :=
  all_int_timestamps l && increasingZ (List.map timestamp_of l).

(** A stand-in for the library, for running the definitions on examples: a
    signature is two digests of key and data, and [b64decode] accepts the
    padded base64 text of a byte string and nothing else. *)
Fixpoint index_of (c : ascii) (s : string) (i : Z) : option Z :=
  match s with
  | EmptyString => None
  | String c' s' => if Ascii.eqb c c' then Some i else index_of c s' (i + 1)
  end.

Definition sextet_of (c : ascii) : option Z :=
  if Ascii.eqb c "="%char then Some 64 else index_of c Base64.alphabet 0.

Fixpoint decode_quads (cs : list Z) {struct cs} : result (list Z) :=
  match cs with
  | [] => Ok []
  | a :: b :: c :: d :: r =>
      if (a =? 64) || (b =? 64) then Raise BinasciiError
      else if (c =? 64) && (d =? 64) then
        match r with
        | [] => Ok [a * 4 + b / 16]
        | _ => Raise BinasciiError
        end
      else if c =? 64 then Raise BinasciiError
      else if d =? 64 then
        match r with
        | [] => Ok [a * 4 + b / 16; b mod 16 * 16 + c / 4]
        | _ => Raise BinasciiError
        end
      else
        rest ← decode_quads r;
        Ok (a * 4 + b / 16 :: b mod 16 * 16 + c / 4 :: c mod 4 * 64 + d :: rest)
  | _ => Raise BinasciiError
  end.

Definition example_b64decode (v : json) : result (list byte) :=
  match v with
  | JStr s =>
      match mapM sextet_of (list_ascii_of_string s) with
      | Some cs => bs ← decode_quads cs; Ok (List.map byte_of_Z bs)
      | None => Raise BinasciiError
      end
  | _ => Raise TypeError
  end.

Definition example_lib : CryptoLib := {|
  ed25519_public_key := fun sk => sk;
  ed25519_sign := fun sk data =>
    SHA256.digest (sk ++ data) ++ SHA256.digest (data ++ sk);
  ed25519_verify := fun pk signature data =>
    bool_decide (List.map byte_val signature
                 = List.map byte_val
                     (SHA256.digest (pk ++ data) ++ SHA256.digest (data ++ pk)));
  b64decode := example_b64decode
|}.

(** The record hash does not collide on the records of [chain]: two of them
    with the same hash have the same canonical encoding. *)
Definition hashes_collision_free (chain : list dict) : bool :=
  List.forallb
    (fun a =>
       List.forallb
         (fun b =>
            implb (String.eqb (compute_event_hash a) (compute_event_hash b))
                  (String.eqb (canonical_json (dict_pop "signature" a))
                              (canonical_json (dict_pop "signature" b))))
         chain)
    chain.

(** The value with the keys of every dictionary in sorted order. *)
Fixpoint sort_keys (j : json) : json :=
  match j with
  | JList l => JList (List.map sort_keys l)
  | JDict d =>
      JDict (py_sorted item_lt
               (List.map (fun kv => (fst kv, sort_keys (snd kv))) d))
  | _ => j
  end.

(** ** Example records *)

Definition example_record (id : string) (ts : Z) (prev : json) (body : string)
  : dict :=
  [("event_id", JStr ("room::" +:+ id)); ("room_id", JStr "room");
   ("timestamp_ms", JInt ts); ("sender_id", JStr "alice");
   ("type", JStr "m.room.message"); ("parent_event_id", JNull);
   ("prev_event_hash", prev); ("signature", JStr EmptyString);
   ("content", JDict [("body", JStr body); ("msgtype", JStr "m.text")])].

(** Three chained records of one sender at the timestamps 1000, 1001, 1002. *)
Definition m1 : dict := example_record "t0::a" 1000 JNull "m1".
Definition m2 : dict :=
  example_record "t1::b" 1001 (JStr (compute_event_hash m1)) "m2".
Definition m3 : dict :=
  example_record "t2::c" 1002 (JStr (compute_event_hash m2)) "m3".

(** Two chained records that carry the same timestamp. *)
Definition tie_a : dict := example_record "t0::a" 1000 JNull "first".
Definition tie_b : dict :=
  example_record "t0::b" 1000 (JStr (compute_event_hash tie_a)) "second".

(** A record whose identifier names the room [other] while its [room_id] is
    [room]. *)
Definition mismatched_room_record : dict :=
  dict_set "event_id" (JStr "other::t0::a") m1.

(** ** Notions used in the statements and their proofs *)

(** [a] may stand before [b] in a sorted output: [b] is not smaller. *)
Definition not_after {A : Type} (lt : A -> A -> bool) (a b : A) : Prop :=
  lt b a = false.

(** Comparison of two elements by their keys. *)
Definition key_lt {A K : Type} (key : A -> K) (ltK : K -> K -> bool)
    (a b : A) : bool :=
  ltK (key a) (key b).

Definition key_before {A K : Type} (key : A -> K) (ltK : K -> K -> bool)
    (a b : A) : Prop :=
  ltK (key a) (key b) = true.

(** The order of records that carry integer timestamps. *)
Definition ts_lt : dict -> dict -> bool := key_lt timestamp_of Z.ltb.

(** The items [dumps_canonical] sorts. *)
Definition rendered_items (d : dict) : list (string * string) :=
  List.map (fun kv => (fst kv, dumps_canonical (snd kv))) d.

(** The entries of a dictionary, values with sorted keys, in sorted order. *)
Definition sorted_entries (d : dict) : dict :=
  py_sorted item_lt (List.map (fun kv => (fst kv, sort_keys (snd kv))) d).

(** The first record of [s], if any, carries the previous hash [h]. *)
Definition head_links_to (h : string) (s : list dict) : Prop :=
  match s with
  | [] => True
  | e :: _ => py_get "prev_event_hash" e = JStr h
  end.

(** Whatever goes wrong ends in a [ValidationError]. *)
Definition only_validation_error {A : Type} (r : result A) : Prop :=
  forall x, r = Raise x -> x = ValidationError.

Definition not_slash (c : ascii) : bool := negb (Ascii.eqb c "/"%char).

(** The name [get_daily_log_path] gives to a segment file. *)
Definition log_file_name (start_ts end_ts : Z) (client_id : string) : string :=
  "messages_" +:+ py_int_repr start_ts +:+ "_" +:+ py_int_repr end_ts
    +:+ "_" +:+ client_id +:+ ".jsonl".

(** The metadata [ensure_room_structure] writes. *)
Definition room_metadata (room_id now_iso : string) : json :=
  JDict [("room_id", JStr room_id); ("created_at", JStr now_iso);
         ("version", JStr "1.0"); ("protocol", JStr "bucket-chat-v1")].

(** What can follow a value inside a JSON text. *)
Definition delimited (rest : string) : bool :=
  match rest with
  | EmptyString => true
  | String c _ => Ascii.eqb c "," || Ascii.eqb c "]" || Ascii.eqb c "}"
  end.

(** The number of values in [j], each counted with the entry that holds it:
    the fuel that reading [j] takes. *)
Fixpoint json_size (j : json) : nat :=
  match j with
  | JList l => S (list_sum (List.map (fun x => S (json_size x)) l))
  | JDict d => S (list_sum (List.map (fun kv => S (json_size (snd kv))) d))
  | _ => 1
  end.

(** The characters a value can start with. *)
Definition value_start (c : ascii) : bool :=
  number_char c || Ascii.eqb c "n" || Ascii.eqb c "t" || Ascii.eqb c "f"
  || Ascii.eqb c dquote || Ascii.eqb c "[" || Ascii.eqb c "{".

(** Reading the text of [j], followed by a delimiter, gives [j] back. *)
Definition reads_back (esc : string -> string) (j : json) : Prop :=
  forall (fuel : nat) (rest : string),
    (json_size j <= fuel)%nat -> delimited rest = true -> wf_json j = true ->
    parse_value fuel (dumps_with esc j +:+ rest) = Some (j, rest).

(** The text of one entry of a dictionary. *)
Definition render_entry (esc : string -> string) (kv : string * json) : string :=
  quoted esc (fst kv) +:+ ":" +:+ dumps_with esc (snd kv).



(** ** More of crypto.py *)

Section KeyPairMethods.
Context `{CryptoLib}.

(** [KeyPair.public_key_bytes] *)
Definition public_key_bytes (kp : KeyPair) : list byte := public_key kp.

(** [KeyPair.public_key_base64] *)
Definition public_key_base64 (kp : KeyPair) : string :=
  decode_ascii (Base64.b64encode (public_key_bytes kp)).

(** [KeyPair.verify] *)
Definition KeyPair_verify (kp : KeyPair) (data : list byte) (signature : json)
  : bool :=
  try_except_false (
    signature_bytes ← b64decode signature;
    _ ← public_key_verify (public_key kp) signature_bytes data;
    Ok true).

End KeyPairMethods.

(** The kind of a Python object, as far as [<] is concerned: [<] raises on
    two objects of different kinds. *)
Inductive py_kind : Type :=
  | KNumber
  | KString
  | KList
  | KNone
  | KDict.

Definition kind_of (v : json) : py_kind :=
  match v with
  | JNull => KNone
  | JBool _ | JInt _ => KNumber
  | JStr _ => KString
  | JList _ => KList
  | JDict _ => KDict
  end.

(** The records of [sender_id] among [events], in the order of the input. *)
Definition sender_events (events : list dict) (sender_id : string) : list dict :=
  List.filter (is_sender sender_id) events.

(** ** More of events.py *)

Definition newline : string := String (chr 10) EmptyString.

(** The factory functions read the clock, format a time and draw a UUID:
    [now_ms] is [int(datetime.now().timestamp() * 1000)] at the time of the
    call, [isoformat ts] is
    [datetime.fromtimestamp(ts / 1000).isoformat()] and [unique_id] is the
    text of the UUID drawn. *)
Section Factories.
Variable now_ms : Z.
Variable isoformat : Z -> string.
Variable unique_id : string.

(** [Event.generate_event_id] *)
Definition generate_event_id (room_id : string) (timestamp_ms : Z) : string :=
  let timestamp_iso := isoformat timestamp_ms +:+ "Z" in
  room_id +:+ "::" +:+ timestamp_iso +:+ "::" +:+ unique_id.

(** [create_message_event] *)
Definition create_message_event (room_id sender_id message : string)
    (timestamp_ms : option Z) (parent_event_id prev_event_hash : option string)
  : dict :=
  let timestamp_ms :=
    match timestamp_ms with
    | None => now_ms
    | Some t => t
    end in
  [("event_id", JStr (generate_event_id room_id timestamp_ms));
   ("room_id", JStr room_id);
   ("timestamp_ms", JInt timestamp_ms);
   ("sender_id", JStr sender_id);
   ("type", JStr EventTypes.MESSAGE);
   ("parent_event_id", json_of_option parent_event_id);
   ("prev_event_hash", json_of_option prev_event_hash);
   ("signature", JStr EmptyString);
   ("content", JDict [("body", JStr (strip message));
                      ("msgtype", JStr "m.text")])].

(** [create_member_event] *)
Definition create_member_event (room_id sender_id membership : string)
    (displayname : option string) (timestamp_ms : option Z)
    (prev_event_hash : option string) : dict :=
  let timestamp_ms :=
    match timestamp_ms with
    | None => now_ms
    | Some t => t
    end in
  let content : dict := [("membership", JStr membership)] in
  let content :=
    if py_truthy (json_of_option displayname)
    then dict_set "displayname" (json_of_option displayname) content
    else content in
  [("event_id", JStr (generate_event_id room_id timestamp_ms));
   ("room_id", JStr room_id);
   ("timestamp_ms", JInt timestamp_ms);
   ("sender_id", JStr sender_id);
   ("type", JStr EventTypes.MEMBER);
   ("parent_event_id", JNull);
   ("prev_event_hash", json_of_option prev_event_hash);
   ("signature", JStr EmptyString);
   ("content", JDict content)].

(** [create_reaction_event] *)
Definition create_reaction_event
    (room_id sender_id target_event_id reaction : string)
    (timestamp_ms : option Z) (prev_event_hash : option string) : dict :=
  let timestamp_ms :=
    match timestamp_ms with
    | None => now_ms
    | Some t => t
    end in
  [("event_id", JStr (generate_event_id room_id timestamp_ms));
   ("room_id", JStr room_id);
   ("timestamp_ms", JInt timestamp_ms);
   ("sender_id", JStr sender_id);
   ("type", JStr EventTypes.REACTION);
   ("parent_event_id", JNull);
   ("prev_event_hash", json_of_option prev_event_hash);
   ("signature", JStr EmptyString);
   ("content", JDict [("relates_to", JStr target_event_id);
                      ("reaction", JStr (strip reaction))])].

End Factories.

(** [Event.is_message] *)
Definition is_message (e : Event) : bool :=
  String.eqb (type e) EventTypes.MESSAGE.

(** [Event.is_member_event] *)
Definition is_member_event (e : Event) : bool :=
  String.eqb (type e) EventTypes.MEMBER.

(** [Event.get_message_body] *)
Definition get_message_body (e : Event) : json :=
  if is_message e then py_get "body" (content e) else JNull.

(** [Event.get_membership_action] *)
Definition get_membership_action (e : Event) : json :=
  if is_member_event e then py_get "membership" (content e) else JNull.

(** [MessageContent.validate_body] *)
Definition validate_body (v : string) : result string :=
  if negb (py_truthy (JStr v)) || negb (py_truthy (JStr (strip v)))
  then Raise ValueError
  else Ok (strip v).

(** [MemberContent.validate_membership] *)
Definition validate_membership (v : string) : result string :=
  let valid_actions := ["join"; "leave"; "invite"; "ban"; "kick"] in
  if negb (List.existsb (String.eqb v) valid_actions) then Raise ValueError
  else Ok v.

(** [ReactionContent.validate_reaction] *)
Definition validate_reaction (v : string) : result string :=
  if negb (py_truthy (JStr v)) || negb (py_truthy (JStr (strip v)))
  then Raise ValueError
  else Ok (strip v).



(** [events_to_jsonl] *)
Definition events_to_jsonl (events : list Event) : string :=
  join EmptyString (List.map to_jsonl_line events).

(** An event with another content, or another signature. *)
Definition with_content (e : Event) (c : dict) : Event :=
  {| event_id := event_id e; room_id := room_id e;
     timestamp_ms := timestamp_ms e; sender_id := sender_id e;
     type := type e; parent_event_id := parent_event_id e;
     prev_event_hash := prev_event_hash e; signature := signature e;
     content := c |}.

Definition with_signature (e : Event) (s : string) : Event :=
  {| event_id := event_id e; room_id := room_id e;
     timestamp_ms := timestamp_ms e; sender_id := sender_id e;
     type := type e; parent_event_id := parent_event_id e;
     prev_event_hash := prev_event_hash e; signature := s;
     content := content e |}.

(** The number of parts [s.split('::')] gives, after [skip] characters that
    belong to a separator found before. *)
Definition count_parts (s : string) (skip : nat) : nat :=
  List.length (split_from "::" s skip EmptyString).

(** What [model_validate] asks of a dictionary for it to give the event [e]:
    every field is there with the value of [e], at the type of the field, and
    the three validators accept. *)
Definition validates_as (now_ms : Z) (data : dict) (e : Event) : Prop :=
  dict_get "event_id" data = Some (JStr (event_id e))
  /\ str_contains "::" (event_id e) = true
  /\ List.length (str_split "::" (event_id e)) = 3%nat
  /\ dict_get "room_id" data = Some (JStr (room_id e))
  /\ dict_get "timestamp_ms" data = Some (JInt (timestamp_ms e))
  /\ 0 < timestamp_ms e <= now_ms + 3600000
  /\ dict_get "sender_id" data = Some (JStr (sender_id e))
  /\ dict_get "type" data = Some (JStr (type e))
  /\ In (type e) valid_types
  /\ field_optional_str "parent_event_id" data = Ok (parent_event_id e)
  /\ field_optional_str "prev_event_hash" data = Ok (prev_event_hash e)
  /\ dict_get "signature" data = Some (JStr (signature e))
  /\ dict_get "content" data = Some (JDict (content e)).

Definition not_newline (c : ascii) : bool := negb (Ascii.eqb c (chr 10)).

Definition no_control (c : ascii) : bool := 32 <=? code_point c.


(** ** More of storage.py *)

(** Reading a file in text mode turns every line ending, a carriage return
    alone or followed by a line feed, into one line feed.  Writing leaves the
    text as it is: the line separator of the system is taken to be the line
    feed. *)
Fixpoint universal_newlines (s : string) : string :=
  match s with
  | EmptyString => EmptyString
  | String c s' =>
      if Ascii.eqb c (chr 13) then
        match s' with
        | String c' s'' =>
            if Ascii.eqb c' (chr 10)
            then String (chr 10) (universal_newlines s'')
            else String (chr 10) (universal_newlines s')
        | EmptyString => String (chr 10) EmptyString
        end
      else String c (universal_newlines s')
  end.

(** Reading the whole text of a file: an [OSError] when there is no file at
    the path. *)
Definition read_text (p : path) (fs : filesystem) : result string :=
  match fs_files fs !! p with
  | Some text => Ok (universal_newlines text)
  | None => Raise OSError
  end.

(** [UnifiedStorage.write_jsonl_file]: the answer of the method and the file
    system it leaves. *)
Definition write_jsonl_file (self : UnifiedStorage) (file_path : path)
    (events : list string) (fs : filesystem) : bool * filesystem :=
  let content := join EmptyString events in
  if is_cloud self then
    match write_text self file_path content fs with
    | Ok fs' => (true, fs')
    | Raise _ => (false, fs)
    end
  else
    match mkdir_parents (path_parent file_path) fs with
    | Ok fs1 =>
        match write_text self file_path content fs1 with
        | Ok fs2 => (true, fs2)
        | Raise _ => (false, fs1)
        end
    | Raise _ => (false, fs)
    end.

(** [UnifiedStorage.read_jsonl_file] *)
Definition read_jsonl_file (self : UnifiedStorage) (file_path : path)
    (fs : filesystem) : list string :=
  match read_text file_path fs with
  | Ok content =>
      List.filter (fun line => py_truthy (JStr (strip line)))
        (str_split newline content)
  | Raise _ => []
  end.

(** [UnifiedStorage.read_json]; [JNull] is the [None] of Python. *)
Definition read_json (self : UnifiedStorage) (file_path : path)
    (fs : filesystem) : json :=
  if negb (file_exists self fs file_path) then JNull
  else
    match read_text file_path fs with
    | Ok content =>
        match json_loads content with
        | Ok data => data
        | Raise _ => JNull
        end
    | Raise _ => JNull
    end.

(** [file_path.unlink()]: an [OSError] when there is no file at the path. *)
Definition unlink (p : path) (fs : filesystem) : result filesystem :=
  if is_file fs p
  then Ok {| fs_files := delete p (fs_files fs); fs_dirs := fs_dirs fs |}
  else Raise OSError.

(** [UnifiedStorage.delete_file] *)
Definition delete_file (self : UnifiedStorage) (file_path : path)
    (fs : filesystem) : bool * filesystem :=
  if file_exists self fs file_path then
    match unlink file_path fs with
    | Ok fs' => (true, fs')
    | Raise _ => (false, fs)
    end
  else (false, fs).

(** [UnifiedStorage.get_room_metadata] *)
Definition get_room_metadata (self : UnifiedStorage) (room_id : string)
    (fs : filesystem) : json :=
  let metadata_path := get_room_metadata_path self room_id in
  read_json self metadata_path fs.

(** [UnifiedStorage.update_room_metadata] *)
Definition update_room_metadata (self : UnifiedStorage) (room_id : string)
    (metadata : json) (fs : filesystem) : bool * filesystem :=
  let metadata_path := get_room_metadata_path self room_id in
  write_json self metadata_path metadata fs.

(** [s[n:]] *)
Definition str_from (n : nat) (s : string) : string :=
  String.substring n (String.length s - n) s.

(** [s.split(sep, maxsplit)] for a separator that is not empty: as
    [split_from], but after [maxsplit] separators the rest of the text is the
    last part. *)
Fixpoint split_max_from (sep s : string) (maxsplit skip : nat) (cur : string)
  : list string :=
  match s with
  | EmptyString => [cur]
  | String c s' =>
      match skip with
      | S k => split_max_from sep s' maxsplit k cur
      | O =>
          match maxsplit with
          | O => [cur +:+ s]
          | S m =>
              if String.prefix sep s
              then cur :: split_max_from sep s' m (String.length sep - 1)
                            EmptyString
              else split_max_from sep s' maxsplit O
                     (cur +:+ String c EmptyString)
          end
      end
  end.

Definition str_split_max (sep s : string) (maxsplit : nat) : list string :=
  split_max_from sep s maxsplit O EmptyString.

(** The entries of a bucket URI: [bucket_key] is ['bucket'] or
    ['container']. *)
Definition bucket_info (type bucket_key uri : string) : dict :=
  let parts := str_split_max "/" (str_from 5 uri) 1 in
  [("type", JStr type);
   (bucket_key, JStr (List.nth 0 parts EmptyString));
   ("prefix", JStr (if (1 <? List.length parts)%nat
                    then List.nth 1 parts EmptyString
                    else EmptyString));
   ("uri", JStr uri)].

(** [parse_storage_uri] *)
Definition parse_storage_uri (uri : string) : dict :=
  if String.prefix "s3://" uri then bucket_info "s3" "bucket" uri
  else if String.prefix "gs://" uri then bucket_info "gcs" "bucket" uri
  else if String.prefix "az://" uri then bucket_info "azure" "container" uri
  else if String.prefix "file://" uri then
    [("type", JStr "local"); ("path", JStr (str_from 7 uri)); ("uri", JStr uri)]
  else
    [("type", JStr "local"); ("path", JStr uri);
     ("uri", JStr (if negb (String.prefix "/" uri) then "file://" +:+ uri
                   else "file://" +:+ uri))].

(** [UnifiedStorage.get_storage_info]; [CLOUD_AVAILABLE] as in
    [UnifiedStorage_init], [str_base_path] is [str(self.base_path)]. *)
Definition get_storage_info (CLOUD_AVAILABLE : bool) (self : UnifiedStorage)
    (str_base_path : string) : dict :=
  [("base_path", JStr str_base_path);
   ("is_cloud", JBool (is_cloud self));
   ("type", JStr (if is_cloud self then "cloud" else "local"));
   ("cloud_available", JBool CLOUD_AVAILABLE)].

Definition not_cr (c : ascii) : bool := negb (Ascii.eqb c (chr 13)).

(** ** client.py *)



(** Two example events of one sender in one room at the same millisecond. *)
Definition example_event (id body : string) : Event :=
  {| event_id := "room::" +:+ id; room_id := "room"; timestamp_ms := 1000;
     sender_id := "alice@example.com"; type := EventTypes.MESSAGE;
     parent_event_id := None; prev_event_hash := None;
     signature := "c2lnbmF0dXJl";
     content := [("body", JStr body); ("msgtype", JStr "m.text")] |}.

Definition empty_fs : filesystem := {| fs_files := ∅; fs_dirs := ∅ |}.

(** ** The records of a sender in the order of their timestamps, in the words
    of the specification *)

(** The record names [sender_id] as its sender. *)
Definition sender_id_matches (sender_id : string) (record : dict) : bool :=
  match dict_get "sender_id" record with
  | Some (JStr s) => String.eqb s sender_id
  | _ => false
  end.

Definition records_of (sender_id : string) (records : list dict) : list dict :=
  List.filter (sender_id_matches sender_id) records.

(** The [timestamp_ms] of a record that carries one. *)
Definition timestamp_ms_of (record : dict) : option Z :=
  match dict_get "timestamp_ms" record with
  | Some (JInt n) => Some n
  | _ => None
  end.

Definition have_timestamps (records : list dict) : bool :=
  List.forallb
    (fun r => match timestamp_ms_of r with Some _ => true | None => false end)
    records.

(** The timestamp of [r1] is not larger than the one of [r2]. *)
Definition not_later (r1 r2 : dict) : Prop :=
  match timestamp_ms_of r1, timestamp_ms_of r2 with
  | Some t1, Some t2 => t1 <= t2
  | _, _ => False
  end.

(** The records that carry the timestamp [t], in their order. *)
Definition records_at (t : Z) (records : list dict) : list dict :=
  List.filter
    (fun r => match timestamp_ms_of r with Some t' => t' =? t | None => false end)
    records.

(** [sorted] is [records] sorted by [timestamp_ms] ascending: the same
    records, none after a record with a larger timestamp, and the records of
    one timestamp in the order they have in [records]. *)
Definition sorted_by_timestamp (sorted records : list dict) : Prop :=
  Permutation sorted records
  /\ StronglySorted not_later sorted
  /\ forall t, records_at t sorted = records_at t records.

(** The elements with the key [t], in their order. *)
Definition at_key {A : Type} (key : A -> Z) (t : Z) (l : list A) : list A :=
  List.filter (fun a => key a =? t) l.

(** ** [base64.b64decode], as Python has it

    The decoder of the library does not validate its input.  It reads the
    characters of the alphabet in groups of four and skips every other
    character; a ['='] ends the input when it completes a group of which at
    least two characters were read, and is skipped otherwise.  Input that
    ends inside a group is an error. *)

(** [binascii.a2b_base64] without strict mode: [quad_pos] counts the
    characters read of the current group, [leftchar] holds the bits not yet
    written and [pads] counts the ['='] seen since the last character of the
    alphabet. *)
Fixpoint a2b_base64 (s : string) (quad_pos : nat) (leftchar : Z) (pads : nat)
  : result (list Z) :=
  match s with
  | EmptyString =>
      if (quad_pos =? 0)%nat then Ok [] else Raise BinasciiError
  | String c s' =>
      if Ascii.eqb c "="%char then
        if (2 <=? quad_pos)%nat && (4 <=? quad_pos + S pads)%nat then Ok []
        else a2b_base64 s' quad_pos leftchar
               (if (2 <=? quad_pos)%nat then S pads else pads)
      else
        match index_of c Base64.alphabet 0 with
        | None => a2b_base64 s' quad_pos leftchar pads
        | Some v =>
            match quad_pos with
            | 0%nat => a2b_base64 s' 1 v 0
            | 1%nat =>
                rest ← a2b_base64 s' 2 (v mod 16) 0;
                Ok (leftchar * 4 + v / 16 :: rest)
            | 2%nat =>
                rest ← a2b_base64 s' 3 (v mod 4) 0;
                Ok (leftchar * 16 + v / 4 :: rest)
            | _ =>
                rest ← a2b_base64 s' 0 0 0;
                Ok (leftchar * 64 + v :: rest)
            end
        end
  end.

Definition is_ascii (c : ascii) : bool := code_point c <? 128.

(** [base64.b64decode(v)]: a [TypeError] for what is not a string, a
    [ValueError] for a string with a character outside ASCII. *)
Definition python_b64decode (v : json) : result (list byte) :=
  match v with
  | JStr s =>
      if str_forallb is_ascii s then
        bs ← a2b_base64 s 0 0 0; Ok (List.map byte_of_Z bs)
      else Raise ValueError
  | _ => Raise TypeError
  end.

(** A library with the decoder of Python. *)
Definition with_python_b64decode (lib : CryptoLib) : CryptoLib := {|
  ed25519_public_key := ed25519_public_key (CryptoLib := lib);
  ed25519_sign := ed25519_sign (CryptoLib := lib);
  ed25519_verify := ed25519_verify (CryptoLib := lib);
  b64decode := python_b64decode
|}.

(** *** Base64 text, in the words of the specification *)

Definition in_alphabet (c : ascii) : bool :=
  match index_of c Base64.alphabet 0 with
  | Some _ => true
  | None => false
  end.

Definition is_pad (c : ascii) : bool := Ascii.eqb c "="%char.

(** The base64 text of a byte string: groups of four characters of the
    alphabet, of which the last may end in one or two ['=']. *)
Fixpoint well_formed_base64 (s : string) : bool :=
  match s with
  | EmptyString => true
  | String a (String b (String c (String d rest))) =>
      in_alphabet a && in_alphabet b
      && match rest with
         | EmptyString =>
             (in_alphabet c && (in_alphabet d || is_pad d))
             || (is_pad c && is_pad d)
         | _ => in_alphabet c && in_alphabet d && well_formed_base64 rest
         end
  | _ => false
  end.

(** The characters of the text that the decoder reads. *)
Fixpoint base64_characters (s : string) : string :=
  match s with
  | EmptyString => EmptyString
  | String c s' =>
      if in_alphabet c || is_pad c then String c (base64_characters s')
      else base64_characters s'
  end.

(** A signature with a character outside the alphabet before and after. *)
Definition example_data : list byte := encode_utf8 "hello".

Definition example_keypair : KeyPair := {| private_key := List.repeat x01 32 |}.

Definition junk_signature : string :=
  "!" +:+ KeyPair_sign (H := example_lib) example_keypair example_data +:+ "#".

(** * Properties *)

(** ** Test vectors of the library functions *)

Example sha256_abc :
  hex_of_bytes (SHA256.digest (encode_utf8 "abc"))
  = "ba7816bf8f01cfea414140de5dae2223b00361a396177a9cb410ff61f20015ad".
Proof. vm_compute. reflexivity. Qed.

Example sha256_empty :
  hex_of_bytes (SHA256.digest [])
  = "e3b0c44298fc1c149afbf4c8996fb92427ae41e4649b934ca495991b7852b855".
Proof. vm_compute. reflexivity. Qed.

Example sha256_two_blocks :
  hex_of_bytes (SHA256.digest (encode_utf8
    "abcdbcdecdefdefgefghfghighijhijkijkljklmklmnlmnomnopnopq"))
  = "248d6a61d20638b8e5c026930c3e6039a33ce45964ff2167f6ecedd419db06c1".
Proof. vm_compute. reflexivity. Qed.

Example b64_foobar :
  decode_ascii (Base64.b64encode (encode_utf8 "foobar")) = "Zm9vYmFy"
  /\ decode_ascii (Base64.b64encode (encode_utf8 "fooba")) = "Zm9vYmE="
  /\ decode_ascii (Base64.b64encode (encode_utf8 "foob")) = "Zm9vYg==".
Proof. vm_compute. repeat split. Qed.


(** ** Sorting *)

Section PySortFacts.
Context {A : Type} (lt : A -> A -> bool).

Lemma insert_sorted_perm (x : A) (l : list A) :
  Permutation (insert_sorted lt x l) (x :: l).
Proof.
  induction l as [|y l IH]; simpl; [reflexivity|].
  destruct (lt y x); [|reflexivity].
  rewrite IH. apply perm_swap.
Qed.

Lemma py_sorted_perm (l : list A) : Permutation (py_sorted lt l) l.
Proof.
  induction l as [|x l IH]; simpl; [reflexivity|].
  rewrite insert_sorted_perm. by constructor.
Qed.


Hypothesis lt_asym : forall a b, lt a b = true -> lt b a = false.
Hypothesis lt_negtrans :
  forall a b c, lt b a = false -> lt c b = false -> lt c a = false.

Lemma insert_sorted_ascending (x : A) (l : list A) :
  StronglySorted (not_after lt) l -> StronglySorted (not_after lt) (insert_sorted lt x l).
Proof.
  induction 1 as [|y l Hs IH Hy]; simpl.
  - repeat constructor.
  - destruct (lt y x) eqn:Hyx.
    + constructor; [exact IH|].
      rewrite Forall_forall in *. intros z Hz.
      rewrite insert_sorted_perm in Hz.
      apply elem_of_cons in Hz as [->|Hz]; [by apply lt_asym | by apply Hy].
    + constructor; [by constructor|].
      constructor; [exact Hyx|].
      rewrite Forall_forall in *. intros z Hz.
      unfold not_after. eapply lt_negtrans; [exact Hyx | by apply Hy].
Qed.

Lemma py_sorted_ascending (l : list A) :
  StronglySorted (not_after lt) (py_sorted lt l).
Proof.
  induction l as [|x l IH]; simpl; [constructor|].
  by apply insert_sorted_ascending.
Qed.
End PySortFacts.

(** Sorting by a key that a strict total order compares: when the keys are
    pairwise distinct, the output depends on the elements only, not on the
    order they come in. *)
Section PySortKey.
Context {A K : Type} (key : A -> K) (ltK : K -> K -> bool).

Hypothesis ltK_irrefl : forall a, ltK a a = false.
Hypothesis ltK_trans :
  forall a b c, ltK a b = true -> ltK b c = true -> ltK a c = true.
Hypothesis ltK_total : forall a b, a <> b -> ltK a b = true \/ ltK b a = true.



Lemma ltK_asym a b : ltK a b = true -> ltK b a = false.
Proof.
  intros Hab. destruct (ltK b a) eqn:Hba; [|done].
  by rewrite <- (ltK_irrefl a), (ltK_trans a b a).
Qed.

Lemma insert_sorted_strict (x : A) (l : list A) :
  key x ∉ List.map key l ->
  StronglySorted (key_before key ltK) l ->
  StronglySorted (key_before key ltK) (insert_sorted (key_lt key ltK) x l).
Proof.
  intros Hx Hs. induction Hs as [|y l Hs IH Hy]; simpl.
  - repeat constructor.
  - simpl in Hx. apply not_elem_of_cons in Hx as [Hxy Hx].
    unfold key_lt at 1. destruct (ltK (key y) (key x)) eqn:Hyx.
    + constructor; [by apply IH|].
      rewrite Forall_forall in *. intros z Hz.
      rewrite insert_sorted_perm in Hz.
      apply elem_of_cons in Hz as [->|Hz]; [done | by apply Hy].
    + assert (Hlt : ltK (key x) (key y) = true).
      { destruct (ltK_total (key x) (key y) Hxy) as [?|?]; [done|congruence]. }
      constructor; [by constructor|].
      constructor; [exact Hlt|].
      rewrite Forall_forall in *. intros z Hz.
      unfold key_before. eapply ltK_trans; [exact Hlt | by apply Hy].
Qed.

Lemma py_sorted_strict (l : list A) :
  NoDup (List.map key l) -> StronglySorted (key_before key ltK) (py_sorted (key_lt key ltK) l).
Proof.
  induction l as [|x l IH]; simpl; [constructor|].
  intros [Hx Hl]%NoDup_cons. apply insert_sorted_strict; [|by apply IH].
  intros Hin. apply Hx. by rewrite py_sorted_perm in Hin.
Qed.

Lemma strict_sorted_unique (l1 l2 : list A) :
  StronglySorted (key_before key ltK) l1 -> StronglySorted (key_before key ltK) l2 ->
  Permutation l1 l2 -> l1 = l2.
Proof.
  intros H1 H2 HP. eapply (StronglySorted_unique_strong (key_before key ltK)); eauto.
  intros a b _ _ Hab Hba. unfold key_before in *.
  apply ltK_asym in Hab. congruence.
Qed.

Lemma py_sorted_permutation_invariant (l1 l2 : list A) :
  NoDup (List.map key l1) -> Permutation l1 l2 ->
  py_sorted (key_lt key ltK) l1 = py_sorted (key_lt key ltK) l2.
Proof.
  intros Hnd HP. apply strict_sorted_unique.
  - by apply py_sorted_strict.
  - apply py_sorted_strict. by rewrite <- HP.
  - by rewrite !py_sorted_perm.
Qed.
End PySortKey.

(** ** The order of strings *)

Lemma string_ltb_lt (s t : string) :
  String.ltb s t = true <-> String.compare s t = Lt.
Proof. unfold String.ltb. destruct (String.compare s t); split; congruence. Qed.

Lemma string_compare_refl (s : string) : String.compare s s = Eq.
Proof.
  induction s as [|c s IH]; simpl; [done|].
  unfold Ascii.compare. by rewrite N.compare_refl.
Qed.

Lemma string_ltb_irrefl (s : string) : String.ltb s s = false.
Proof. unfold String.ltb. by rewrite string_compare_refl. Qed.

Lemma string_ltb_le (s t : string) :
  String.ltb s t = true <-> String.le s t /\ s <> t.
Proof.
  rewrite string_ltb_lt. unfold String.le, String.leb. split.
  - intros Hc. rewrite Hc. split; [done|].
    intros ->. by rewrite string_compare_refl in Hc.
  - intros [Hle Hne]. destruct (String.compare s t) eqn:Hc; [|done..].
    by apply String.compare_eq_iff in Hc.
Qed.

Lemma string_ltb_trans (a b c : string) :
  String.ltb a b = true -> String.ltb b c = true -> String.ltb a c = true.
Proof.
  rewrite !string_ltb_le. intros [Hab Hnab] [Hbc Hnbc]. split.
  - by etrans.
  - intros ->. apply Hnab. by apply (anti_symm String.le).
Qed.

Lemma string_ltb_total (a b : string) :
  a <> b -> String.ltb a b = true \/ String.ltb b a = true.
Proof.
  intros Hne. rewrite !string_ltb_le.
  destruct (total String.le a b); [left | right]; split; auto.
Qed.

(** ** Induction on JSON values *)

Lemma json_ind' (P : json -> Prop) :
  P JNull ->
  (forall b, P (JBool b)) ->
  (forall n, P (JInt n)) ->
  (forall s, P (JStr s)) ->
  (forall l, Forall P l -> P (JList l)) ->
  (forall d, Forall (fun kv => P (snd kv)) d -> P (JDict d)) ->
  forall j, P j.
Proof.
  intros Hnull Hbool Hint Hstr Hlist Hdict.
  fix IH 1. intros [ | b | n | s | l | d].
  - exact Hnull.
  - apply Hbool.
  - apply Hint.
  - apply Hstr.
  - apply Hlist. induction l as [|x l IHl]; constructor; [apply IH | exact IHl].
  - apply Hdict.
    induction d as [|[k v] d IHd]; constructor; [apply IH | exact IHd].
Qed.

(** ** Dictionaries *)

Lemma nodupb_NoDup (l : list string) : nodupb l = true <-> NoDup l.
Proof.
  induction l as [|x l IH]; simpl.
  - split; [constructor | done].
  - rewrite andb_true_iff, negb_true_iff, IH, NoDup_cons.
    assert (List.existsb (String.eqb x) l = false <-> x ∉ l) as ->; [|done].
    rewrite <- not_true_iff_false, existsb_exists. split.
    + intros Hn Hin. apply Hn. exists x. split; [|apply String.eqb_refl].
      by apply list_elem_of_In.
    + intros Hn (y & Hy & ->%String.eqb_eq). by apply Hn, list_elem_of_In.
Qed.

Lemma dict_get_Some_elem (k : string) (v : json) (d : dict) :
  dict_get k d = Some v -> (k, v) ∈ d.
Proof.
  induction d as [|[k' v'] d IH]; simpl; [done|].
  destruct (String.eqb_spec k k') as [->|Hne].
  - intros [= ->]. left.
  - intros Hg. right. by apply IH.
Qed.

Lemma dict_get_elem (k : string) (v : json) (d : dict) :
  NoDup (List.map fst d) -> (k, v) ∈ d -> dict_get k d = Some v.
Proof.
  induction d as [|[k' v'] d IH]; simpl; [by intros _ ?%elem_of_nil|].
  intros [Hk Hd]%NoDup_cons [[= -> ->]|Hin]%elem_of_cons.
  - by rewrite String.eqb_refl.
  - destruct (String.eqb_spec k k') as [->|Hne]; [|by apply IH].
    exfalso. apply Hk. apply list_elem_of_In, in_map_iff.
    exists (k', v). split; [done|]. by apply list_elem_of_In.
Qed.

Lemma dict_pop_keys (k : string) (d : dict) :
  List.map fst (dict_pop k d) = List.filter (fun x => negb (String.eqb k x)) (List.map fst d).
Proof.
  induction d as [|[k' v] d IH]; simpl; [done|].
  destruct (String.eqb k k'); simpl; by rewrite IH.
Qed.

Lemma dict_pop_elem (k : string) (d : dict) (kv : string * json) :
  kv ∈ dict_pop k d <-> kv ∈ d /\ fst kv <> k.
Proof.
  induction d as [|[k' v] d IH]; simpl.
  - split; [by intros ?%elem_of_nil | by intros [?%elem_of_nil _]].
  - destruct (String.eqb_spec k k') as [->|Hne].
    + rewrite IH, elem_of_cons. split.
      * intros [Hin Hk]. split; [by right | done].
      * intros [[->|Hin] Hk]; [done | by split].
    + rewrite !elem_of_cons, IH. split.
      * intros [->|[Hin Hk]]; [|by split; [right|]].
        split; [by left|]. simpl. congruence.
      * intros [[->|Hin] Hk]; [by left | right; by split].
Qed.

Lemma dict_pop_get_same (k : string) (d : dict) : dict_get k (dict_pop k d) = None.
Proof.
  induction d as [|[k' v] d IH]; simpl; [done|].
  destruct (String.eqb k k') eqn:E; [done|]. simpl. by rewrite E.
Qed.

Lemma dict_pop_get_other (k k' : string) (d : dict) :
  k' <> k -> dict_get k' (dict_pop k d) = dict_get k' d.
Proof.
  intros Hne. induction d as [|[k0 v] d IH]; simpl; [done|].
  destruct (String.eqb_spec k k0) as [->|Hk].
  - rewrite IH. by destruct (String.eqb_spec k' k0).
  - simpl. by rewrite IH.
Qed.

Lemma wf_dict_NoDup (d : dict) : wf_dict d = true -> NoDup (List.map fst d).
Proof.
  unfold wf_dict. simpl. intros [Hn _]%andb_true_iff. by apply nodupb_NoDup.
Qed.

Lemma wf_dict_value (d : dict) (kv : string * json) :
  wf_dict d = true -> kv ∈ d -> wf_json (snd kv) = true.
Proof.
  unfold wf_dict. simpl. intros [_ Hall]%andb_true_iff Hin.
  rewrite forallb_forall in Hall. by apply Hall, list_elem_of_In.
Qed.

Lemma wf_dict_pop (k : string) (d : dict) :
  wf_dict d = true -> wf_dict (dict_pop k d) = true.
Proof.
  intros Hwf. unfold wf_dict. simpl. apply andb_true_iff. split.
  - apply nodupb_NoDup. rewrite dict_pop_keys.
    apply NoDup_ListNoDup, List.NoDup_filter, NoDup_ListNoDup.
    by apply wf_dict_NoDup.
  - apply forallb_forall. intros kv Hin%list_elem_of_In.
    apply dict_pop_elem in Hin as [Hin _]. by apply (wf_dict_value d).
Qed.

(** ** The canonical encoding depends on the key-value map only *)


Lemma rendered_items_keys (d : dict) :
  List.map fst (rendered_items d) = List.map fst d.
Proof. unfold rendered_items. rewrite List.map_map. by apply List.map_ext. Qed.

Lemma rendered_items_elem (d : dict) (x : string * string) :
  x ∈ rendered_items d <->
  exists kv, kv ∈ d /\ x = (fst kv, dumps_canonical (snd kv)).
Proof.
  unfold rendered_items. rewrite list_elem_of_In, in_map_iff.
  split; intros (kv & H1 & H2); exists kv.
  - by rewrite list_elem_of_In.
  - by rewrite <- list_elem_of_In.
Qed.

Lemma sorted_items_permutation_invariant {V : Type} (l1 l2 : list (string * V)) :
  NoDup (List.map fst l1) -> Permutation l1 l2 ->
  py_sorted item_lt l1 = py_sorted item_lt l2.
Proof.
  apply (py_sorted_permutation_invariant fst String.ltb).
  - apply string_ltb_irrefl.
  - apply string_ltb_trans.
  - apply string_ltb_total.
Qed.

Lemma json_same_list_dumps (l : list json) :
  Forall (fun a => forall b, wf_json a = true -> wf_json b = true ->
                   json_same a b = true ->
                   dumps_canonical a = dumps_canonical b) l ->
  forall m, List.forallb wf_json l = true -> List.forallb wf_json m = true ->
  json_same (JList l) (JList m) = true ->
  List.map dumps_canonical l = List.map dumps_canonical m.
Proof.
  induction 1 as [|a l Ha Hl IH]; intros [|b m]; simpl; try done.
  intros [Hwa Hwl]%andb_true_iff [Hwb Hwm]%andb_true_iff [Hab Hlm]%andb_true_iff.
  f_equal; [by apply Ha | by apply IH].
Qed.

Lemma json_same_dumps (a : json) :
  forall b, wf_json a = true -> wf_json b = true -> json_same a b = true ->
  dumps_canonical a = dumps_canonical b.
Proof.
  induction a as [ | x | x | s | l IH | d IH] using json_ind';
    intros [ | y | y | t | m | e] Hwa Hwb Hsame; simpl in Hsame; try done.
  - by apply Bool.eqb_prop in Hsame as ->.
  - by apply Z.eqb_eq in Hsame as ->.
  - by apply String.eqb_eq in Hsame as ->.
  - simpl. by rewrite (json_same_list_dumps l IH m).
  - apply andb_true_iff in Hsame as [Hlen Hall].
    apply Nat.eqb_eq in Hlen. rewrite forallb_forall in Hall.
    assert (Hnd : NoDup (List.map fst d)) by by apply wf_dict_NoDup.
    assert (Hne : NoDup (List.map fst e)) by by apply wf_dict_NoDup.
    cut (py_sorted item_lt (rendered_items d)
         = py_sorted item_lt (rendered_items e)).
    { unfold rendered_items. simpl. by intros ->. }
    apply sorted_items_permutation_invariant.
    { by rewrite rendered_items_keys. }
    apply submseteq_length_Permutation.
    + apply NoDup_submseteq.
      * apply (NoDup_fmap_1 fst).
        change (NoDup (List.map fst (rendered_items d))).
        by rewrite rendered_items_keys.
      * intros x (kv & Hin & ->)%rendered_items_elem.
        specialize (Hall kv (proj1 (list_elem_of_In _ _) Hin)).
        destruct (dict_get (fst kv) e) as [w|] eqn:Hg; [|done].
        apply dict_get_Some_elem in Hg.
        apply rendered_items_elem. exists (fst kv, w). split; [done|].
        simpl. f_equal.
        rewrite Forall_forall in IH. apply IH; [done| |  |done].
        -- by apply (wf_dict_value d).
        -- by apply (wf_dict_value e _ Hwb Hg).
    + unfold rendered_items. rewrite !length_map. lia.
Qed.

Lemma canonical_json_same (d e : dict) :
  wf_dict d = true -> wf_dict e = true ->
  json_same (JDict d) (JDict e) = true ->
  canonical_json d = canonical_json e.
Proof. intros. unfold canonical_json. by apply json_same_dumps. Qed.

Lemma py_sorted_map_snd {V W : Type} (f : V -> W) (l : list (string * V)) :
  py_sorted item_lt (List.map (fun kv => (fst kv, f (snd kv))) l)
  = List.map (fun kv => (fst kv, f (snd kv))) (py_sorted item_lt l).
Proof.
  induction l as [|x l IH]; simpl; [done|]. rewrite IH.
  generalize (py_sorted item_lt l). intros s.
  induction s as [|y s IHs]; simpl; [done|].
  unfold item_lt at 1 3. simpl.
  destruct (String.ltb (fst y) (fst x)); simpl; [by rewrite IHs | done].
Qed.

Lemma dict_set_get_same (k : string) (v : json) (d : dict) :
  dict_get k (dict_set k v d) = Some v.
Proof.
  induction d as [|[k' v'] d IH]; simpl.
  - by rewrite String.eqb_refl.
  - destruct (String.eqb k k') eqn:E; simpl; rewrite E; [done | exact IH].
Qed.

Lemma dict_set_absent (k : string) (v : json) (d : dict) :
  dict_get k d = None -> dict_set k v d = d ++ [(k, v)].
Proof.
  induction d as [|[k' v'] d IH]; simpl; [done|].
  destruct (String.eqb k k'); [done|]. intros Hg. by rewrite IH.
Qed.

(** C1. Two event dictionaries that are equal as key-value maps once the
    'signature' field is removed have the same canonical encoding, hence the
    same event hash, and [sign_event] attaches the same signature to both
    under the same key pair, whatever the order of their fields and whatever
    their 'signature' fields hold. *)
Theorem canonical_encoding_order_independent
    `{CryptoLib} (d1 d2 : dict) (keypair : KeyPair) :
  wf_dict d1 = true -> wf_dict d2 = true ->
  same_without_signature d1 d2 = true ->
  canonical_json (dict_pop "signature" d1) = canonical_json (dict_pop "signature" d2)
  /\ compute_event_hash d1 = compute_event_hash d2
  /\ exists signature : string,
       dict_get "signature" (sign_event d1 keypair) = Some (JStr signature)
       /\ dict_get "signature" (sign_event d2 keypair) = Some (JStr signature).
Proof.
  intros Hw1 Hw2 Hsame.
  assert (Hc : canonical_json (dict_pop "signature" d1)
               = canonical_json (dict_pop "signature" d2)).
  { apply canonical_json_same; [by apply wf_dict_pop.. | exact Hsame]. }
  split; [exact Hc|]. split.
  - unfold compute_event_hash, dict_copy. by rewrite Hc.
  - unfold sign_event, dict_copy. rewrite Hc. eexists.
    split; apply dict_set_get_same.
Qed.

Lemma canonical_encoding_order_independent_witness :
  let d1 := [("room_id", JStr "r"); ("signature", JStr "old");
             ("content", JDict [("body", JStr "hi"); ("msgtype", JStr "m.text")]);
             ("timestamp_ms", JInt 5)] in
  let d2 := [("timestamp_ms", JInt 5);
             ("content", JDict [("msgtype", JStr "m.text"); ("body", JStr "hi")]);
             ("room_id", JStr "r")] in
  wf_dict d1 = true /\ wf_dict d2 = true /\ same_without_signature d1 d2 = true
  /\ compute_event_hash d1 = compute_event_hash d2.
Proof.
  intros d1 d2.
  split; [reflexivity|]. split; [reflexivity|]. split; [reflexivity|].
  apply (canonical_encoding_order_independent (H := example_lib) d1 d2
           {| private_key := [] |}); reflexivity.
Defined.

(** ** The hash chain *)

Lemma py_eq_str_true (v : json) (s : string) :
  py_eq_str v s = true <-> v = JStr s.
Proof.
  destruct v; simpl; try (split; [done | congruence]).
  rewrite String.eqb_eq. split; congruence.
Qed.

Lemma is_None_true (v : json) : is_None v = true <-> v = JNull.
Proof. destruct v; simpl; split; congruence. Qed.

Lemma links_nil : links_to_predecessor [].
Proof. intros i pred e Hi. by destruct i. Qed.

Lemma links_single (a : dict) : links_to_predecessor [a].
Proof. intros [|i] pred e Hi Hs; simpl in *; [done | by destruct i]. Qed.

Lemma links_cons (a b : dict) (s : list dict) :
  links_to_predecessor (a :: b :: s) <->
  py_get "prev_event_hash" b = JStr (compute_event_hash a)
  /\ links_to_predecessor (b :: s).
Proof.
  split.
  - intros Hl. split; [by apply (Hl 0%nat)|].
    intros i pred e Hi Hs. by apply (Hl (S i)).
  - intros [Hab Hl] [|i] pred e Hi Hs; simpl in *.
    + by simplify_eq.
    + by apply (Hl i).
Qed.


Lemma verify_loop_Some (h : string) (s : list dict) :
  verify_loop (Some h) s = true <-> head_links_to h s /\ links_to_predecessor s.
Proof.
  revert h. induction s as [|e s IH]; intros h; simpl.
  - split; [intros _; split; [done | apply links_nil] | done].
  - destruct (py_eq_str (py_get "prev_event_hash" e) h) eqn:E; simpl.
    + apply py_eq_str_true in E. rewrite IH. destruct s as [|e' s]; simpl.
      * split; [intros _; split; [done | apply links_single] | done].
      * rewrite links_cons. tauto.
    + split; [done|]. intros [He _]. apply py_eq_str_true in He. congruence.
Qed.

Lemma verify_loop_None (s : list dict) :
  verify_loop None s = true <-> chain_valid s.
Proof.
  unfold chain_valid. destruct s as [|e s]; simpl.
  - split; [intros _; split; [done | apply links_nil] | done].
  - destruct (is_None (py_get "prev_event_hash" e)) eqn:E; simpl.
    + apply is_None_true in E. rewrite verify_loop_Some.
      destruct s as [|e' s]; simpl.
      * split; [intros _; split; [done | apply links_single] | done].
      * rewrite links_cons. tauto.
    + split; [done|]. intros [He _]. apply is_None_true in He. congruence.
Qed.

Lemma verify_hash_chain_sorted (events sorted : list dict) (sender_id : string) :
  py_sorted_exn timestamp_lt (List.filter (is_sender sender_id) events) = Ok sorted ->
  verify_hash_chain events sender_id = Ok (verify_loop None sorted).
Proof.
  intros Hs. unfold verify_hash_chain. rewrite Hs. simpl. by destruct sorted.
Qed.

Lemma verify_hash_chain_Ok (events : list dict) (sender_id : string) (b : bool) :
  verify_hash_chain events sender_id = Ok b ->
  exists sorted,
    py_sorted_exn timestamp_lt (List.filter (is_sender sender_id) events) = Ok sorted
    /\ b = verify_loop None sorted.
Proof.
  unfold verify_hash_chain.
  destruct (py_sorted_exn _ _) as [sorted|] eqn:Hs; simpl; [|done].
  intros Hb. exists sorted. split; [done|]. destruct sorted; by simplify_eq.
Qed.

(** *** Sorting records that carry integer timestamps *)


Lemma Zltb_irrefl (a : Z) : (a <? a) = false.
Proof. apply Z.ltb_irrefl. Qed.

Lemma Zltb_trans (a b c : Z) :
  (a <? b) = true -> (b <? c) = true -> (a <? c) = true.
Proof. rewrite !Z.ltb_lt. lia. Qed.

Lemma Zltb_total (a b : Z) : a <> b -> (a <? b) = true \/ (b <? a) = true.
Proof. rewrite !Z.ltb_lt. lia. Qed.

Lemma timestamp_lt_int (a b : dict) (x y : Z) :
  int_timestamp a = Some x -> int_timestamp b = Some y ->
  timestamp_lt a b = Ok (ts_lt a b).
Proof.
  unfold timestamp_lt, ts_lt, key_lt, timestamp_of, int_timestamp.
  destruct (timestamp_key a); try done. destruct (timestamp_key b); try done.
Qed.

Lemma all_int_timestamps_elem (l : list dict) :
  all_int_timestamps l = true <-> forall e, e ∈ l -> is_Some (int_timestamp e).
Proof.
  unfold all_int_timestamps. rewrite forallb_forall. split.
  - intros Ha e He%list_elem_of_In. specialize (Ha e He).
    destruct (int_timestamp e); [by eexists | done].
  - intros Ha e He%list_elem_of_In. by destruct (Ha e He) as [x ->].
Qed.

Lemma all_int_timestamps_perm (l1 l2 : list dict) :
  Permutation l1 l2 -> all_int_timestamps l1 = true -> all_int_timestamps l2 = true.
Proof.
  rewrite !all_int_timestamps_elem. intros HP Ha e He. apply Ha. by rewrite HP.
Qed.

Lemma insert_sorted_exn_int (x : dict) (l : list dict) :
  is_Some (int_timestamp x) -> all_int_timestamps l = true ->
  insert_sorted_exn timestamp_lt x l = Ok (insert_sorted ts_lt x l).
Proof.
  intros [tx Hx]. induction l as [|y l IH]; simpl; [done|].
  intros [Hy Hl]%andb_true_iff.
  destruct (int_timestamp y) as [ty|] eqn:Ey; [|done].
  rewrite (timestamp_lt_int y x ty tx) by done. simpl.
  destruct (ts_lt y x); [|done]. by rewrite IH.
Qed.

Lemma py_sorted_exn_int (l : list dict) :
  all_int_timestamps l = true ->
  py_sorted_exn timestamp_lt l = Ok (py_sorted ts_lt l).
Proof.
  induction l as [|x l IH]; simpl; [done|].
  intros [Hx Hl]%andb_true_iff. rewrite IH by done. simpl.
  apply insert_sorted_exn_int.
  - by destruct (int_timestamp x).
  - apply (all_int_timestamps_perm l); [|done]. symmetry. apply py_sorted_perm.
Qed.

Lemma nodupZ_NoDup (l : list Z) : nodupZ l = true <-> NoDup l.
Proof.
  induction l as [|x l IH]; simpl.
  - split; [constructor | done].
  - rewrite andb_true_iff, negb_true_iff, IH, NoDup_cons.
    assert (List.existsb (Z.eqb x) l = false <-> x ∉ l) as ->; [|done].
    rewrite <- not_true_iff_false, existsb_exists. split.
    + intros Hn Hin. apply Hn. exists x. split; [|apply Z.eqb_refl].
      by apply list_elem_of_In.
    + intros Hn (y & Hy & ->%Z.eqb_eq). by apply Hn, list_elem_of_In.
Qed.

Lemma increasingZ_sorted (l : list Z) :
  increasingZ l = true -> StronglySorted Z.lt l.
Proof.
  intros Hi. apply Sorted_StronglySorted; [intros ???; lia|].
  induction l as [|x [|y l] IH]; simpl in *.
  - constructor.
  - repeat constructor.
  - apply andb_true_iff in Hi as [Hxy Hi]. constructor; [by apply IH|].
    constructor. by apply Z.ltb_lt.
Qed.

Lemma py_sorted_ts_permutation_invariant (l1 l2 : list dict) :
  NoDup (List.map timestamp_of l1) -> Permutation l1 l2 ->
  py_sorted ts_lt l1 = py_sorted ts_lt l2.
Proof.
  apply (py_sorted_permutation_invariant timestamp_of Z.ltb).
  - apply Zltb_irrefl.
  - apply Zltb_trans.
  - apply Zltb_total.
Qed.

(** A list that is already in strictly increasing order is left as it is. *)
Lemma py_sorted_ts_increasing (l : list dict) :
  StronglySorted Z.lt (List.map timestamp_of l) -> py_sorted ts_lt l = l.
Proof.
  intros Hs.
  assert (Hk : StronglySorted (key_before timestamp_of Z.ltb) l).
  { induction l as [|x l IH]; simpl in *; [constructor|].
    apply StronglySorted_inv in Hs as [Hs Hx]. constructor; [by apply IH|].
    rewrite Forall_forall in Hx. apply Forall_forall. intros y Hy.
    unfold key_before.
    apply Z.ltb_lt, Hx. apply list_elem_of_In, in_map. by apply list_elem_of_In. }
  apply (strict_sorted_unique timestamp_of Z.ltb Zltb_irrefl Zltb_trans);
    [|exact Hk|apply py_sorted_perm].
  apply (py_sorted_strict timestamp_of Z.ltb Zltb_trans Zltb_total).
  clear Hk. induction l as [|x l IH]; simpl in *; [constructor|].
  apply StronglySorted_inv in Hs as [Hs Hx]. constructor; [|by apply IH].
  rewrite Forall_forall in Hx. intros Hin. specialize (Hx _ Hin). lia.
Qed.

Lemma insert_sorted_exn_perm {A : Type} (lt : A -> A -> result bool)
    (x : A) (l r : list A) :
  insert_sorted_exn lt x l = Ok r -> Permutation r (x :: l).
Proof.
  revert r. induction l as [|y l IH]; intros r; cbn [insert_sorted_exn].
  - by intros [= <-].
  - destruct (lt y x) as [[|]|]; cbn [mbind result_bind]; [| |done].
    + destruct (insert_sorted_exn lt x l) as [r'|]; [|done].
      intros [= <-]. rewrite (IH r' eq_refl). apply perm_swap.
    + by intros [= <-].
Qed.

(** When the sort succeeds, its output is a rearrangement of its input. *)
Lemma py_sorted_exn_perm {A : Type} (lt : A -> A -> result bool)
    (l r : list A) :
  py_sorted_exn lt l = Ok r -> Permutation r l.
Proof.
  revert r. induction l as [|x l IH]; intros r; cbn [py_sorted_exn].
  - by intros [= <-].
  - destruct (py_sorted_exn lt l) as [r'|]; cbn [mbind result_bind]; [|done].
    intros Hr%insert_sorted_exn_perm. rewrite Hr. constructor. by apply IH.
Qed.

(** Records that carry integer timestamps are sorted without error, into a
    rearrangement in which no record comes after one with a larger
    timestamp. *)
Lemma py_sorted_exn_ascending (l : list dict) :
  all_int_timestamps l = true ->
  exists r,
    py_sorted_exn timestamp_lt l = Ok r
    /\ Permutation r l
    /\ StronglySorted (fun a b => timestamp_of a <= timestamp_of b) r.
Proof.
  intros Hint. exists (py_sorted ts_lt l).
  split; [by apply py_sorted_exn_int|]. split; [apply py_sorted_perm|].
  assert (Hs : StronglySorted (not_after ts_lt) (py_sorted ts_lt l)).
  { apply py_sorted_ascending; unfold ts_lt, key_lt.
    - intros a b. rewrite Z.ltb_lt, Z.ltb_ge. lia.
    - intros a b c. rewrite !Z.ltb_ge. lia. }
  induction Hs as [|a r Hs IH Ha]; constructor; [done|].
  eapply Forall_impl; [exact Ha|]. intros b. unfold not_after, ts_lt, key_lt.
  rewrite Z.ltb_ge. lia.
Qed.

(** *** The sort is stable *)

Section StableSort.
Context {A : Type} (key : A -> Z).

Lemma at_key_cons (t : Z) (a : A) (l : list A) :
  at_key key t (a :: l)
  = if key a =? t then a :: at_key key t l else at_key key t l.
Proof. reflexivity. Qed.

Lemma at_key_insert_sorted (t : Z) (x : A) (l : list A) :
  at_key key t (insert_sorted (key_lt key Z.ltb) x l)
  = if key x =? t then x :: at_key key t l else at_key key t l.
Proof.
  induction l as [|y l IH]; cbn [insert_sorted]; [by rewrite at_key_cons|].
  unfold key_lt at 1. destruct (key y <? key x) eqn:Hyx.
  - rewrite !at_key_cons, IH.
    destruct (Z.eqb_spec (key x) t), (Z.eqb_spec (key y) t); try done.
    apply Z.ltb_lt in Hyx. lia.
  - by rewrite !at_key_cons.
Qed.

Lemma at_key_py_sorted (t : Z) (l : list A) :
  at_key key t (py_sorted (key_lt key Z.ltb) l) = at_key key t l.
Proof.
  induction l as [|x l IH]; [done|]. cbn [py_sorted].
  by rewrite at_key_insert_sorted, at_key_cons, IH.
Qed.

Lemma at_key_In (t : Z) (a : A) (l : list A) :
  In a (at_key key t l) -> In a l.
Proof. unfold at_key. by intros [? _]%filter_In. Qed.

(** Two ascending lists that hold the same elements under every key, in the
    same order, are one list. *)
Lemma ascending_at_key_unique (l1 l2 : list A) :
  StronglySorted (fun a b => key a <= key b) l1 ->
  StronglySorted (fun a b => key a <= key b) l2 ->
  (forall t, at_key key t l1 = at_key key t l2) ->
  l1 = l2.
Proof.
  revert l2. induction l1 as [|a l1 IH]; intros l2 H1 H2 Heq.
  - destruct l2 as [|b l2]; [done|]. specialize (Heq (key b)).
    rewrite at_key_cons, Z.eqb_refl in Heq. discriminate Heq.
  - destruct l2 as [|b l2].
    { specialize (Heq (key a)). rewrite at_key_cons, Z.eqb_refl in Heq.
      discriminate Heq. }
    apply StronglySorted_inv in H1 as [H1 Ha].
    apply StronglySorted_inv in H2 as [H2 Hb].
    rewrite Forall_forall in Ha, Hb.
    assert (Hab : key a = key b).
    { apply Z.le_antisymm.
      - assert (Hin : In b (at_key key (key b) (a :: l1))).
        { rewrite Heq, at_key_cons, Z.eqb_refl. by left. }
        apply at_key_In in Hin as [->|Hin]; [lia|].
        by apply Ha, list_elem_of_In.
      - assert (Hin : In a (at_key key (key a) (b :: l2))).
        { rewrite <- Heq, at_key_cons, Z.eqb_refl. by left. }
        apply at_key_In in Hin as [->|Hin]; [lia|].
        by apply Hb, list_elem_of_In. }
    pose proof (Heq (key a)) as H0.
    rewrite !at_key_cons, <- Hab, Z.eqb_refl in H0.
    injection H0 as <- _. f_equal. apply IH; [done|done|].
    intros t. specialize (Heq t). rewrite !at_key_cons in Heq.
    destruct (key a =? t); [by injection Heq | done].
Qed.
End StableSort.

Lemma StronglySorted_impl_in {A : Type} (R R' : A -> A -> Prop) (l : list A) :
  (forall a b, In a l -> In b l -> R a b -> R' a b) ->
  StronglySorted R l -> StronglySorted R' l.
Proof.
  intros Himpl Hs. induction Hs as [|a l Hs IH Ha]; constructor.
  - apply IH. intros x y Hx Hy. apply Himpl; by right.
  - rewrite Forall_forall in *. intros b Hb. apply Himpl; [by left| |by apply Ha].
    right. by apply list_elem_of_In.
Qed.

(** *** The sender and the timestamp of a record, as the code reads them *)

Lemma is_sender_matches (sender_id : string) (e : dict) :
  is_sender sender_id e = sender_id_matches sender_id e.
Proof.
  unfold is_sender, sender_id_matches, py_get, dict_get_default.
  by destruct (dict_get "sender_id" e) as [[]|].
Qed.

Lemma filter_is_sender (sender_id : string) (events : list dict) :
  List.filter (is_sender sender_id) events = records_of sender_id events.
Proof. apply filter_ext. intros e. apply is_sender_matches. Qed.

Lemma timestamp_ms_of_Some (e : dict) (t : Z) :
  timestamp_ms_of e = Some t -> int_timestamp e = Some t /\ timestamp_of e = t.
Proof.
  unfold timestamp_ms_of, timestamp_of, int_timestamp, timestamp_key,
    dict_get_default.
  destruct (dict_get "timestamp_ms" e) as [[]|]; try done.
  by intros [= ->].
Qed.

Lemma have_timestamps_In (l : list dict) (e : dict) :
  have_timestamps l = true -> In e l ->
  timestamp_ms_of e = Some (timestamp_of e).
Proof.
  unfold have_timestamps. rewrite forallb_forall. intros Hl He.
  specialize (Hl e He). destruct (timestamp_ms_of e) as [t|] eqn:Ht; [|done].
  by apply timestamp_ms_of_Some in Ht as [_ ->].
Qed.

Lemma have_timestamps_int (l : list dict) :
  have_timestamps l = true -> all_int_timestamps l = true.
Proof.
  unfold have_timestamps, all_int_timestamps. rewrite !forallb_forall.
  intros Hl e He. specialize (Hl e He).
  destruct (timestamp_ms_of e) as [t|] eqn:Ht; [|done].
  by apply timestamp_ms_of_Some in Ht as [-> _].
Qed.

Lemma have_timestamps_perm (l l' : list dict) :
  Permutation l' l -> have_timestamps l = true -> have_timestamps l' = true.
Proof.
  unfold have_timestamps. rewrite !forallb_forall. intros HP Hl e He.
  apply Hl. by apply (Permutation_in _ HP).
Qed.

Lemma records_at_key (t : Z) (l : list dict) :
  have_timestamps l = true -> records_at t l = at_key timestamp_of t l.
Proof.
  intros Hl. apply filter_ext_in. intros e He.
  by rewrite (have_timestamps_In l e Hl He).
Qed.

Lemma not_later_le (a b : dict) :
  not_later a b -> timestamp_of a <= timestamp_of b.
Proof.
  unfold not_later.
  destruct (timestamp_ms_of a) as [ta|] eqn:Ha; [|done].
  destruct (timestamp_ms_of b) as [tb|] eqn:Hb; [|done].
  apply timestamp_ms_of_Some in Ha as [_ ->].
  by apply timestamp_ms_of_Some in Hb as [_ ->].
Qed.

(** What the code's sort gives is the list sorted by timestamp. *)
Lemma py_sorted_sorted_by_timestamp (l : list dict) :
  have_timestamps l = true -> sorted_by_timestamp (py_sorted ts_lt l) l.
Proof.
  intros Hl.
  pose proof (have_timestamps_perm _ _ (py_sorted_perm ts_lt l) Hl) as Hs.
  split; [apply py_sorted_perm|]. split.
  - assert (Hasc : StronglySorted (not_after ts_lt) (py_sorted ts_lt l)).
    { apply py_sorted_ascending; unfold ts_lt, key_lt.
      - intros a b. rewrite Z.ltb_lt, Z.ltb_ge. lia.
      - intros a b c. rewrite !Z.ltb_ge. lia. }
    revert Hasc. apply StronglySorted_impl_in. intros a b Ha Hb.
    unfold not_after, ts_lt, key_lt, not_later.
    rewrite (have_timestamps_In _ a Hs Ha), (have_timestamps_In _ b Hs Hb).
    rewrite Z.ltb_ge. lia.
  - intros t. rewrite !records_at_key by done. apply at_key_py_sorted.
Qed.

(** There is one such list. *)
Lemma sorted_by_timestamp_unique (sorted l : list dict) :
  have_timestamps l = true -> sorted_by_timestamp sorted l ->
  sorted = py_sorted ts_lt l.
Proof.
  intros Hl (HP & Hasc & Hat).
  pose proof (have_timestamps_perm _ _ HP Hl) as Hs.
  destruct (py_sorted_sorted_by_timestamp l Hl) as (HP' & Hasc' & Hat').
  pose proof (have_timestamps_perm _ _ HP' Hl) as Hs'.
  apply (ascending_at_key_unique timestamp_of).
  - revert Hasc. apply StronglySorted_impl_in. intros a b _ _. apply not_later_le.
  - revert Hasc'. apply StronglySorted_impl_in. intros a b _ _. apply not_later_le.
  - intros t. rewrite <- !records_at_key by done. by rewrite Hat, Hat'.
Qed.

(** C2. Take the records whose 'sender_id' is the sender, each with an
    integer 'timestamp_ms', sorted by timestamp ascending, records of one
    timestamp in the order of the input.  There is such a sorted list, and
    [verify_hash_chain] answers true exactly when its first record has no
    previous hash and every later record carries the hash of the record just
    before it; it answers false exactly when the sorted list breaks this.  A
    list without records of the sender, the empty list included, is valid. *)
Theorem verify_hash_chain_spec (events : list dict) (sender_id : string) :
  (have_timestamps (records_of sender_id events) = true ->
   (exists sorted, sorted_by_timestamp sorted (records_of sender_id events))
   /\ (forall sorted,
         sorted_by_timestamp sorted (records_of sender_id events) ->
         (verify_hash_chain events sender_id = Ok true <-> chain_valid sorted)
         /\ (verify_hash_chain events sender_id = Ok false <->
             ~ chain_valid sorted)))
  /\ (records_of sender_id events = [] ->
      verify_hash_chain events sender_id = Ok true)
  /\ verify_hash_chain [] sender_id = Ok true.
Proof.
  split; [|split].
  - intros Hts. split.
    { eexists. by apply py_sorted_sorted_by_timestamp. }
    intros sorted Hsorted.
    apply sorted_by_timestamp_unique in Hsorted; [|done]. subst sorted.
    assert (Hrun : verify_hash_chain events sender_id
                   = Ok (verify_loop None
                           (py_sorted ts_lt (records_of sender_id events)))).
    { apply verify_hash_chain_sorted. rewrite filter_is_sender.
      by apply py_sorted_exn_int, have_timestamps_int. }
    rewrite Hrun, <- verify_loop_None.
    destruct (verify_loop None _); split; split; congruence.
  - intros Hnone. unfold verify_hash_chain.
    by rewrite filter_is_sender, Hnone.
  - reflexivity.
Qed.

Lemma verify_hash_chain_spec_witness :
  sorted_by_timestamp [m1; m2; m3] (records_of "alice" [m3; m1; m2])
  /\ chain_valid [m1; m2; m3]
  /\ verify_hash_chain [m3; m1; m2] "alice" = Ok true.
Proof.
  assert (Hs : sorted_by_timestamp [m1; m2; m3] (records_of "alice" [m3; m1; m2])).
  { change (records_of "alice" [m3; m1; m2]) with [m3; m1; m2].
    change [m1; m2; m3] with (py_sorted ts_lt [m3; m1; m2]).
    by apply py_sorted_sorted_by_timestamp. }
  assert (Hv : chain_valid [m1; m2; m3]).
  { apply verify_loop_None. vm_compute. reflexivity. }
  split; [exact Hs|]. split; [exact Hv|].
  destruct (verify_hash_chain_spec [m3; m1; m2] "alice") as [Hsome _].
  destruct Hsome as [_ Hall]; [vm_compute; reflexivity|].
  by apply (Hall [m1; m2; m3] Hs).
Defined.

Lemma filter_Permutation_list {A : Type} (f : A -> bool) (l1 l2 : list A) :
  Permutation l1 l2 -> Permutation (List.filter f l1) (List.filter f l2).
Proof.
  induction 1 as [|x l1 l2 HP IH|x y l|l1 l2 l3 H1 IH1 H2 IH2]; simpl.
  - reflexivity.
  - destruct (f x); [by constructor | done].
  - destruct (f x), (f y); try reflexivity. apply perm_swap.
  - by etrans.
Qed.

Lemma filter_all {A : Type} (f : A -> bool) (l : list A) :
  List.forallb f l = true -> List.filter f l = l.
Proof.
  induction l as [|x l IH]; simpl; [done|].
  intros [-> Hl]%andb_true_iff. by rewrite IH.
Qed.

Lemma verify_loop_app (p : option string) (l1 l2 : list dict) :
  verify_loop p (l1 ++ l2)
  = verify_loop p l1
    && verify_loop (match last l1 with
                    | Some e => Some (compute_event_hash e)
                    | None => p
                    end) l2.
Proof.
  revert p. induction l1 as [|e l1 IH]; intros p; simpl; [done|].
  destruct (match p with
            | Some h => negb (py_eq_str (py_get "prev_event_hash" e) h)
            | None => negb (is_None (py_get "prev_event_hash" e))
            end); [done|].
  rewrite IH. f_equal. destruct l1 as [|e' l1]; [reflexivity|].
  rewrite last_cons_cons.
  destruct (last (e' :: l1)) eqn:E; [done|]. by apply last_None in E.
Qed.

Lemma verify_hash_chain_increasing (chain : list dict) (sender_id : string) :
  List.forallb (is_sender sender_id) chain = true ->
  increasing_int_timestamps chain = true ->
  verify_hash_chain chain sender_id = Ok (verify_loop None chain).
Proof.
  intros Hs [Hint Hinc]%andb_true_iff.
  apply verify_hash_chain_sorted. rewrite filter_all by done.
  rewrite py_sorted_exn_int by done. f_equal.
  by apply py_sorted_ts_increasing, increasingZ_sorted.
Qed.

Lemma increasingZ_delete (i : nat) (l : list Z) :
  increasingZ l = true -> increasingZ (delete i l) = true.
Proof.
  intros Hs%increasingZ_sorted.
  assert (Hd : StronglySorted Z.lt (delete i l)).
  { revert i. induction Hs as [|x l Hs IH Hx]; intros [|i]; simpl;
      [constructor..|done|].
    constructor; [apply IH|].
    rewrite Forall_forall in Hx. apply Forall_forall. intros y Hy. apply Hx.
    by apply list_elem_of_delete_inv in Hy. }
  clear Hs. induction Hd as [|x [|y m] Hd IH Hx]; simpl; [done..|].
  apply andb_true_iff. split; [|exact IH].
  apply Z.ltb_lt. rewrite Forall_forall in Hx. apply Hx. left.
Qed.

Lemma increasing_int_timestamps_delete (i : nat) (l : list dict) :
  increasing_int_timestamps l = true ->
  increasing_int_timestamps (delete i l) = true.
Proof.
  intros [Hint Hinc]%andb_true_iff. apply andb_true_iff. split.
  - apply all_int_timestamps_elem. intros e He.
    apply (proj1 (all_int_timestamps_elem l) Hint).
    by apply list_elem_of_delete_inv in He.
  - replace (List.map timestamp_of (delete i l))
      with (delete i (List.map timestamp_of l)).
    + by apply increasingZ_delete.
    + clear. revert i. induction l as [|x l IH]; intros [|i]; simpl; try done.
      by rewrite IH.
Qed.

Lemma forallb_delete {A : Type} (f : A -> bool) (i : nat) (l : list A) :
  List.forallb f l = true -> List.forallb f (delete i l) = true.
Proof.
  rewrite !forallb_forall. intros Hf x Hx%list_elem_of_In. apply Hf.
  apply list_elem_of_In. by apply list_elem_of_delete_inv in Hx.
Qed.

(** C4, as stated, fails: two chained records with the same timestamp verify
    in one storage order and not in the other, because the sort keeps the
    input order of records with equal timestamps and never looks at the
    identifiers. *)
Lemma verify_hash_chain_order_dependent :
  ~ (forall (events events' : list dict) (sender_id : string),
       Permutation events events' ->
       verify_hash_chain events sender_id = verify_hash_chain events' sender_id).
Proof.
  intros Hall.
  specialize (Hall [tie_a; tie_b] [tie_b; tie_a] "alice" (perm_swap _ _ _)).
  vm_compute in Hall. discriminate Hall.
Qed.

Example verify_hash_chain_ties :
  verify_hash_chain [tie_a; tie_b] "alice" = Ok true
  /\ verify_hash_chain [tie_b; tie_a] "alice" = Ok false.
Proof. vm_compute. split; reflexivity. Qed.

(** C4, amended. When the records of the sender carry integer timestamps that
    are pairwise distinct, [verify_hash_chain] gives the same answer on every
    permutation of its input. *)
Theorem verify_hash_chain_permutation
    (events events' : list dict) (sender_id : string) :
  Permutation events events' ->
  distinct_int_timestamps (List.filter (is_sender sender_id) events) = true ->
  verify_hash_chain events sender_id = verify_hash_chain events' sender_id.
Proof.
  intros HP [Hint Hnd]%andb_true_iff.
  pose proof (filter_Permutation_list (is_sender sender_id) _ _ HP) as HPf.
  rewrite (verify_hash_chain_sorted events
             (py_sorted ts_lt (List.filter (is_sender sender_id) events)))
    by by apply py_sorted_exn_int.
  rewrite (verify_hash_chain_sorted events'
             (py_sorted ts_lt (List.filter (is_sender sender_id) events')))
    by (apply py_sorted_exn_int; by apply (all_int_timestamps_perm _ _ HPf)).
  do 2 f_equal. apply py_sorted_ts_permutation_invariant; [|done].
  by apply nodupZ_NoDup.
Qed.

Lemma verify_hash_chain_permutation_witness :
  verify_hash_chain [m1; m2; m3] "alice" = verify_hash_chain [m3; m1; m2] "alice".
Proof.
  apply verify_hash_chain_permutation.
  - change [m3; m1; m2] with ([m3] ++ [m1; m2]).
    change [m1; m2; m3] with ([m1; m2] ++ [m3]). apply Permutation_app_comm.
  - vm_compute. reflexivity.
Defined.

(** ** [sign_event] and the dictionary it is given *)

(** Running [Store.sign_event]: the result is a new dictionary that holds
    what [sign_event] computes on values, and no other dictionary changes. *)
Lemma store_sign_event_run `{CryptoLib}
    (h : gmap Store.ref dict) (r : Store.ref) (d : dict) (keypair : KeyPair) :
  h !! r = Some d ->
  Store.sign_event r keypair h
  = Some (fresh (dom h), <[fresh (dom h) := sign_event d keypair]> h).
Proof.
  intros Hr. unfold Store.sign_event, mbind, Store.M_bind, Store.copy.
  rewrite Hr. unfold Store.pop. rewrite lookup_insert_eq.
  unfold Store.dumps. rewrite insert_insert_eq, lookup_insert_eq.
  unfold Store.setitem. rewrite lookup_insert_eq, insert_insert_eq.
  reflexivity.
Qed.

Lemma store_compute_event_hash_run
    (h : gmap Store.ref dict) (r : Store.ref) (d : dict) :
  h !! r = Some d ->
  Store.compute_event_hash r h
  = Some (compute_event_hash d,
          <[fresh (dom h) := dict_pop "signature" d]> h).
Proof.
  intros Hr. unfold Store.compute_event_hash, mbind, Store.M_bind, Store.copy.
  rewrite Hr. unfold Store.pop. rewrite lookup_insert_eq.
  unfold Store.dumps. rewrite insert_insert_eq, lookup_insert_eq.
  reflexivity.
Qed.

(** C10. [sign_event] does not change the dictionary it is given: after the
    call the input holds exactly the entries it held before, an earlier
    'signature' included, and so does every other dictionary of the store; the
    result is a new dictionary made of the non-signature fields of the input,
    in their order, followed by the new 'signature'. *)
Theorem sign_event_preserves_input `{CryptoLib}
    (h : gmap Store.ref dict) (r : Store.ref) (d : dict) (keypair : KeyPair) :
  h !! r = Some d ->
  exists (r' : Store.ref) (h' : gmap Store.ref dict),
    Store.sign_event r keypair h = Some (r', h')
    /\ h' !! r = Some d
    /\ (r' ∉ dom h)
    /\ (forall q, q <> r' -> h' !! q = h !! q)
    /\ h' !! r' =
         Some (dict_pop "signature" d
               ++ [("signature",
                    JStr (KeyPair_sign keypair
                            (encode_utf8
                               (canonical_json (dict_pop "signature" d)))))]).
Proof.
  intros Hr. exists (fresh (dom h)), (<[fresh (dom h) := sign_event d keypair]> h).
  assert (Hne : fresh (dom h) <> r).
  { intros Heq. pose proof (is_fresh (dom h)) as Hf. rewrite Heq in Hf.
    apply Hf, elem_of_dom. by eexists. }
  split; [by apply store_sign_event_run|]. split; [|split; [|split]].
  - by rewrite lookup_insert_ne.
  - apply is_fresh.
  - intros q Hq. by rewrite lookup_insert_ne.
  - rewrite lookup_insert_eq. f_equal. unfold sign_event, dict_copy.
    apply dict_set_absent, dict_pop_get_same.
Qed.

Lemma sign_event_preserves_input_witness :
  let d := [("room_id", JStr "r"); ("signature", JStr "old"); ("timestamp_ms", JInt 5)] in
  let h : gmap Store.ref dict := {[ 1%positive := d ]} in
  exists (r' : Store.ref) (h' : gmap Store.ref dict),
    Store.sign_event (H := example_lib) 1%positive {| private_key := [] |} h
    = Some (r', h')
    /\ h' !! 1%positive = Some d.
Proof.
  intros d h.
  destruct (sign_event_preserves_input (H := example_lib) h 1%positive d
              {| private_key := [] |}) as (r' & h' & Hrun & Hin & _).
  - reflexivity.
  - exists r', h'. split; [exact Hrun | exact Hin].
Defined.

(** ** Signature verification *)

Lemma verify_signature_true_iff `{CryptoLib}
    (data : list byte) (signature : json) (public_key_bytes : list byte) :
  verify_signature_with_public_key data signature public_key_bytes = true <->
  List.length public_key_bytes = 32%nat
  /\ exists signature_bytes,
       b64decode signature = Ok signature_bytes
       /\ ed25519_verify public_key_bytes signature_bytes data = true.
Proof.
  unfold verify_signature_with_public_key, from_public_bytes, public_key_verify.
  destruct (Nat.eqb_spec (List.length public_key_bytes) 32) as [Hlen|Hlen];
    simpl; [|split; [done | by intros [? _]]].
  destruct (b64decode signature) as [sb|e]; simpl.
  - destruct (ed25519_verify public_key_bytes sb data) eqn:Hv; simpl.
    + split; [|done]. intros _. split; [done|]. by exists sb.
    + split; [done|]. intros (_ & sb' & [= <-] & Hv'). congruence.
  - split; [done|]. by intros (_ & sb & ? & _).
Qed.

Lemma verify_event_signature_true_iff `{CryptoLib}
    (event_dict : dict) (public_key_bytes : list byte) :
  verify_event_signature event_dict public_key_bytes = true <->
  py_truthy (py_get "signature" event_dict) = true
  /\ verify_signature_with_public_key
       (encode_utf8 (canonical_json (dict_pop "signature" event_dict)))
       (py_get "signature" event_dict) public_key_bytes = true.
Proof.
  unfold verify_event_signature, dict_copy.
  destruct (py_truthy (py_get "signature" event_dict)); simpl.
  - split; [by intros -> | by intros [_ ->]].
  - split; [done | by intros [? _]].
Qed.

(** *** The decoder of Python *)

Lemma pad_not_in_alphabet (c : ascii) : in_alphabet c = true -> is_pad c = false.
Proof.
  unfold is_pad. destruct (Ascii.eqb_spec c "="%char) as [->|]; [|done].
  vm_compute. discriminate.
Qed.

(** Text without padding whose length is not a multiple of four is
    refused. *)
Lemma a2b_base64_truncated (s : string) (quad_pos : nat) (leftchar : Z)
    (pads : nat) :
  str_forallb in_alphabet s = true -> (quad_pos < 4)%nat ->
  ((quad_pos + String.length s) mod 4 <> 0)%nat ->
  a2b_base64 s quad_pos leftchar pads = Raise BinasciiError.
Proof.
  revert quad_pos leftchar pads.
  induction s as [|c s IH]; intros quad_pos leftchar pads Hs Hq Hlen.
  - cbn [a2b_base64]. destruct quad_pos as [|q]; [|done].
    exfalso. apply Hlen. reflexivity.
  - cbn [str_forallb] in Hs. apply andb_true_iff in Hs as [Hc Hs].
    cbn [a2b_base64]. pose proof (pad_not_in_alphabet c Hc) as Hp.
    unfold is_pad in Hp. rewrite Hp. unfold in_alphabet in Hc.
    destruct (index_of c Base64.alphabet 0) as [v|]; [|done].
    cbn [String.length] in Hlen.
    destruct quad_pos as [|[|[|[|q]]]]; [| | | |lia].
    + apply IH; [done|lia|]. by replace (1 + String.length s)%nat
        with (0 + S (String.length s))%nat by lia.
    + rewrite IH; [done|done|lia|].
      by replace (2 + String.length s)%nat
        with (1 + S (String.length s))%nat by lia.
    + rewrite IH; [done|done|lia|].
      by replace (3 + String.length s)%nat
        with (2 + S (String.length s))%nat by lia.
    + rewrite IH; [done|done|lia|].
      intros H0. apply Hlen.
      replace (3 + S (String.length s))%nat
        with (0 + String.length s + 1 * 4)%nat by lia.
      by rewrite Nat.Div0.mod_add.
Qed.

(** Characters that are neither of the alphabet nor ['='] are skipped. *)
Lemma a2b_base64_skips (s : string) (quad_pos : nat) (leftchar : Z)
    (pads : nat) :
  a2b_base64 (base64_characters s) quad_pos leftchar pads
  = a2b_base64 s quad_pos leftchar pads.
Proof.
  revert quad_pos leftchar pads.
  induction s as [|c s IH]; intros quad_pos leftchar pads; [done|].
  cbn [base64_characters]. unfold in_alphabet, is_pad.
  destruct (Ascii.eqb c "="%char) eqn:Hp.
  - rewrite orb_true_r. cbn [a2b_base64]. rewrite Hp.
    destruct (_ && _); [done|]. apply IH.
  - rewrite orb_false_r.
    destruct (index_of c Base64.alphabet 0) as [v|] eqn:Hv.
    + cbn [a2b_base64]. rewrite Hp, Hv.
      destruct quad_pos as [|[|[|q]]]; by rewrite IH.
    + cbn [a2b_base64]. rewrite Hp, Hv. apply IH.
Qed.

Lemma in_alphabet_ascii (c : ascii) : in_alphabet c = true -> is_ascii c = true.
Proof.
  destruct c as [[|] [|] [|] [|] [|] [|] [|] [|]]; vm_compute; congruence.
Qed.

Lemma base64_characters_ascii (s : string) :
  str_forallb is_ascii (base64_characters s) = true.
Proof.
  induction s as [|c s IH]; [done|]. cbn [base64_characters].
  destruct (in_alphabet c) eqn:Hc; cbn [orb].
  - cbn [str_forallb]. by rewrite in_alphabet_ascii.
  - unfold is_pad. destruct (Ascii.eqb_spec c "="%char) as [->|]; [|done].
    cbn [str_forallb]. by rewrite IH.
Qed.

Lemma python_b64decode_skips (s : string) :
  str_forallb is_ascii s = true ->
  python_b64decode (JStr (base64_characters s)) = python_b64decode (JStr s).
Proof.
  intros Hs. unfold python_b64decode.
  by rewrite base64_characters_ascii, Hs, a2b_base64_skips.
Qed.

Lemma python_b64decode_raises (v : json) :
  (forall s, v <> JStr s)
  \/ (exists s, v = JStr s
        /\ (str_forallb is_ascii s = false
            \/ str_forallb in_alphabet s = true
               /\ (String.length s mod 4 <> 0)%nat)) ->
  exists e, python_b64decode v = Raise e.
Proof.
  intros [Hv|(s & -> & [Hs|[Hs Hlen]])].
  - destruct v; try by eexists. by destruct (Hv s).
  - unfold python_b64decode. rewrite Hs. by eexists.
  - unfold python_b64decode. destruct (str_forallb is_ascii s); [|by eexists].
    rewrite a2b_base64_truncated; [by eexists|done|lia|done].
Qed.

(** C5, as stated, fails: a signature with characters
    outside the base64 alphabet put before and after it is not base64 text,
    yet the decoder skips these characters and the signature verifies. *)
Lemma junk_in_signature_verifies :
  ~ (forall (lib : CryptoLib) (data : list byte) (signature : string)
            (public_key_bytes : list byte),
       (forall v, b64decode (CryptoLib := lib) v = python_b64decode v) ->
       well_formed_base64 signature = false ->
       verify_signature_with_public_key (H := lib) data (JStr signature)
         public_key_bytes = false).
Proof.
  intros Hall.
  specialize (Hall (with_python_b64decode example_lib) example_data
                junk_signature
                (public_key (H := example_lib) example_keypair)
                (fun v => eq_refl)).
  assert (Hbad : well_formed_base64 junk_signature = false)
    by (vm_compute; reflexivity).
  specialize (Hall Hbad). vm_compute in Hall. discriminate Hall.
Qed.

(** C5, amended. Verification answers true exactly when the public key is
    32 bytes long, the decoder gives bytes for the signature and these are
    the signature of the data under the key; so it answers false for a key of
    another length, for a signature the decoder refuses and for data the
    signature does not match, and nothing is raised to the caller.
    Verification of a record answers true exactly when the record has a
    'signature' that is not empty and this signature verifies for the
    canonical text of the record without it; it answers false when the
    'signature' is absent or empty.  With the decoder of Python, a signature
    is refused when it is not a string, when it has a character outside
    ASCII and when it is made of characters of the alphabet whose number is
    not a multiple of four; but characters that are neither of the alphabet
    nor ['='] are skipped, so a signature verifies exactly when the text
    without these characters does. *)
Theorem verification_never_raises `{CryptoLib}
    (data : list byte) (signature : json) (public_key_bytes : list byte)
    (event_dict : dict) :
  (verify_signature_with_public_key data signature public_key_bytes = true <->
   List.length public_key_bytes = 32%nat
   /\ exists signature_bytes,
        b64decode signature = Ok signature_bytes
        /\ ed25519_verify public_key_bytes signature_bytes data = true)
  /\ (List.length public_key_bytes <> 32%nat ->
      verify_signature_with_public_key data signature public_key_bytes = false)
  /\ (forall e, b64decode signature = Raise e ->
      verify_signature_with_public_key data signature public_key_bytes = false)
  /\ (forall signature_bytes,
        b64decode signature = Ok signature_bytes ->
        ed25519_verify public_key_bytes signature_bytes data = false ->
        verify_signature_with_public_key data signature public_key_bytes = false)
  /\ (verify_event_signature event_dict public_key_bytes = true <->
      py_truthy (py_get "signature" event_dict) = true
      /\ verify_signature_with_public_key
           (encode_utf8 (canonical_json (dict_pop "signature" event_dict)))
           (py_get "signature" event_dict) public_key_bytes = true)
  /\ (dict_get "signature" event_dict = None ->
      verify_event_signature event_dict public_key_bytes = false)
  /\ (dict_get "signature" event_dict = Some (JStr EmptyString) ->
      verify_event_signature event_dict public_key_bytes = false)
  /\ ((forall v, b64decode v = python_b64decode v) ->
      ((forall s, signature <> JStr s)
       \/ (exists s, signature = JStr s
             /\ (str_forallb is_ascii s = false
                 \/ str_forallb in_alphabet s = true
                    /\ (String.length s mod 4 <> 0)%nat)) ->
       verify_signature_with_public_key data signature public_key_bytes = false)
      /\ (forall s, str_forallb is_ascii s = true ->
            verify_signature_with_public_key data (JStr s) public_key_bytes
            = verify_signature_with_public_key data
                (JStr (base64_characters s)) public_key_bytes)).
Proof.
  assert (Hraise : forall e, b64decode signature = Raise e ->
            verify_signature_with_public_key data signature public_key_bytes
            = false).
  { intros e He. apply not_true_iff_false.
    intros (_ & sb & ? & _)%verify_signature_true_iff. congruence. }
  split; [apply verify_signature_true_iff|].
  split.
  { intros Hlen. apply not_true_iff_false.
    intros [? _]%verify_signature_true_iff. done. }
  split; [exact Hraise|]. split.
  { intros sb Hsb Hv. apply not_true_iff_false.
    intros (_ & sb' & ? & ?)%verify_signature_true_iff. congruence. }
  split; [apply verify_event_signature_true_iff|]. split.
  { intros Hg. apply not_true_iff_false.
    intros [Ht _]%verify_event_signature_true_iff.
    unfold py_get, dict_get_default in Ht. by rewrite Hg in Ht. }
  split.
  { intros Hg. apply not_true_iff_false.
    intros [Ht _]%verify_event_signature_true_iff.
    unfold py_get, dict_get_default in Ht. by rewrite Hg in Ht. }
  intros Hdec. split.
  - intros Hbad. destruct (python_b64decode_raises signature Hbad) as [e He].
    apply (Hraise e). by rewrite Hdec.
  - intros s Hs. unfold verify_signature_with_public_key.
    by rewrite !Hdec, python_b64decode_skips.
Qed.

Lemma verification_never_raises_witness :
  verify_signature_with_public_key (H := with_python_b64decode example_lib)
    example_data (JStr "c2ln") [x01] = false
  /\ verify_signature_with_public_key (H := with_python_b64decode example_lib)
       example_data (JStr "c2lnb") (List.repeat x01 32) = false
  /\ verify_signature_with_public_key (H := with_python_b64decode example_lib)
       example_data (JStr junk_signature) (List.repeat x01 32)
     = verify_signature_with_public_key (H := with_python_b64decode example_lib)
         example_data (JStr (base64_characters junk_signature))
         (List.repeat x01 32).
Proof.
  split; [|split].
  - destruct (verification_never_raises (H := with_python_b64decode example_lib)
                example_data (JStr "c2ln") [x01] []) as (_ & Hlen & _).
    apply Hlen. simpl. lia.
  - destruct (verification_never_raises (H := with_python_b64decode example_lib)
                example_data (JStr "c2lnb") (List.repeat x01 32) [])
      as (_ & _ & _ & _ & _ & _ & _ & Hpy).
    destruct Hpy as [Hrefused _]; [intros v; reflexivity|].
    apply Hrefused. right. exists "c2lnb". split; [reflexivity|]. right.
    split; [reflexivity|]. simpl. lia.
  - destruct (verification_never_raises (H := with_python_b64decode example_lib)
                example_data JNull (List.repeat x01 32) [])
      as (_ & _ & _ & _ & _ & _ & _ & Hpy).
    destruct Hpy as [_ Hskips]; [intros v; reflexivity|].
    apply Hskips. vm_compute. reflexivity.
Defined.

Example python_b64decode_skips_junk :
  well_formed_base64 junk_signature = false
  /\ verify_signature_with_public_key (H := with_python_b64decode example_lib)
       example_data (JStr junk_signature)
       (public_key (H := example_lib) example_keypair) = true.
Proof. vm_compute. split; reflexivity. Qed.

Example verify_event_signature_roundtrip :
  let keypair := {| private_key := List.repeat x01 32 |} in
  let signed := sign_event (H := example_lib) m1 keypair in
  verify_event_signature (H := example_lib) signed
    (public_key (H := example_lib) keypair) = true
  /\ verify_event_signature (H := example_lib)
       (dict_set "room_id" (JStr "elsewhere") signed)
       (public_key (H := example_lib) keypair) = false
  /\ verify_event_signature (H := example_lib) signed [x01] = false.
Proof. vm_compute. repeat split. Qed.

(** ** Validation of events *)

Lemma model_validate_Ok_inv (now_ms : Z) (data : dict) (e : Event) :
  model_validate now_ms data = Ok e ->
  dict_get "event_id" data = Some (JStr (event_id e))
  /\ List.length (str_split "::" (event_id e)) = 3%nat
  /\ dict_get "room_id" data = Some (JStr (room_id e))
  /\ dict_get "timestamp_ms" data = Some (JInt (timestamp_ms e))
  /\ 0 < timestamp_ms e <= now_ms + 3600000
  /\ dict_get "type" data = Some (JStr (type e))
  /\ In (type e) valid_types.
Proof.
  unfold model_validate, field_str, field_int.
  destruct (dict_get "event_id" data) as [[ | | |eid| | ]|]; try done. simpl.
  unfold validate_event_id.
  destruct (str_contains "::" eid); simpl; [|done].
  destruct (Nat.eqb_spec (List.length (str_split "::" eid)) 3) as [Hparts|];
    simpl; [|done].
  destruct (dict_get "room_id" data) as [[ | | |rid| | ]|]; try done. simpl.
  destruct (dict_get "timestamp_ms" data) as [[ | |ts| | | ]|]; try done. simpl.
  unfold validate_timestamp.
  destruct (Z.leb_spec ts 0); simpl; [done|].
  destruct (Z.gtb_spec ts (now_ms + 3600000)); simpl; [done|].
  destruct (dict_get "sender_id" data) as [[ | | |sid| | ]|]; try done. simpl.
  destruct (dict_get "type" data) as [[ | | |ty| | ]|]; try done. simpl.
  unfold validate_event_type.
  destruct (List.existsb (String.eqb ty) valid_types) eqn:Hty; simpl; [|done].
  destruct (field_optional_str "parent_event_id" data); simpl; [|done].
  destruct (field_optional_str "prev_event_hash" data); simpl; [|done].
  destruct (dict_get "signature" data) as [[ | | |sg| | ]|]; try done. simpl.
  destruct (field_dict "content" data); simpl; [|done].
  intros [= <-]. simpl. repeat split; try done; try lia.
  apply existsb_exists in Hty as (t & Hin & ->%String.eqb_eq). exact Hin.
Qed.


Lemma only_validation_error_bind {A B : Type} (m : result A) (f : A -> result B) :
  only_validation_error m -> (forall a, only_validation_error (f a)) ->
  only_validation_error (m ≫= f).
Proof.
  intros Hm Hf x. destruct m as [a|e]; simpl; [apply Hf|].
  intros [= <-]. by apply Hm.
Qed.

Lemma only_validation_error_Ok {A : Type} (a : A) : only_validation_error (Ok a).
Proof. by intros x. Qed.

Lemma only_validation_error_as {A : Type} (r : result A) :
  only_validation_error (as_validation_error r).
Proof. intros x. destruct r; simpl; congruence. Qed.

Lemma only_validation_error_field_str (name : string) (data : dict) :
  only_validation_error (field_str name data).
Proof.
  intros x. unfold field_str.
  destruct (dict_get name data) as [[]|]; simpl; congruence.
Qed.

Lemma only_validation_error_field_int (name : string) (data : dict) :
  only_validation_error (field_int name data).
Proof.
  intros x. unfold field_int.
  destruct (dict_get name data) as [[]|]; simpl; congruence.
Qed.

Lemma only_validation_error_field_optional_str (name : string) (data : dict) :
  only_validation_error (field_optional_str name data).
Proof.
  intros x. unfold field_optional_str.
  destruct (dict_get name data) as [[]|]; simpl; congruence.
Qed.

Lemma only_validation_error_field_dict (name : string) (data : dict) :
  only_validation_error (field_dict name data).
Proof.
  intros x. unfold field_dict.
  destruct (dict_get name data) as [[]|]; simpl; congruence.
Qed.

Lemma model_validate_Raise (now_ms : Z) (data : dict) (x : exn) :
  model_validate now_ms data = Raise x -> x = ValidationError.
Proof.
  revert x. change (only_validation_error (model_validate now_ms data)).
  unfold model_validate.
  repeat (apply only_validation_error_bind; [|intros ?]);
    auto using only_validation_error_Ok, only_validation_error_as,
      only_validation_error_field_str, only_validation_error_field_int,
      only_validation_error_field_optional_str, only_validation_error_field_dict.
Qed.

(** The checks of the validators that do reject: a timestamp that is not
    positive or lies more than an hour after the clock, an identifier that
    does not split into three parts at ['::'], a type outside the six known
    ones. *)
Lemma model_validate_rejects (now_ms : Z) (data : dict) :
  (forall ts, dict_get "timestamp_ms" data = Some (JInt ts) ->
     ts <= 0 \/ ts > now_ms + 3600000 ->
     model_validate now_ms data = Raise ValidationError)
  /\ (forall id, dict_get "event_id" data = Some (JStr id) ->
        List.length (str_split "::" id) <> 3%nat ->
        model_validate now_ms data = Raise ValidationError)
  /\ (forall ty, dict_get "type" data = Some (JStr ty) ->
        ~ In ty valid_types ->
        model_validate now_ms data = Raise ValidationError).
Proof.
  repeat split.
  - intros ts Hts Hbad.
    destruct (model_validate now_ms data) as [e|x] eqn:Hv.
    + apply model_validate_Ok_inv in Hv as (_ & _ & _ & Hts' & Hb & _).
      rewrite Hts in Hts'. simplify_eq. lia.
    + by apply model_validate_Raise in Hv as ->.
  - intros id Hid Hbad.
    destruct (model_validate now_ms data) as [e|x] eqn:Hv.
    + apply model_validate_Ok_inv in Hv as (Hid' & Hl & _).
      rewrite Hid in Hid'. by simplify_eq.
    + by apply model_validate_Raise in Hv as ->.
  - intros ty Hty Hbad.
    destruct (model_validate now_ms data) as [e|x] eqn:Hv.
    + apply model_validate_Ok_inv in Hv as (_ & _ & _ & _ & _ & Hty' & Hin).
      rewrite Hty in Hty'. by simplify_eq.
    + by apply model_validate_Raise in Hv as ->.
Qed.

Example validate_timestamp_boundary :
  let now_ms := 1700000000000 in
  validate_event_dict now_ms (dict_set "timestamp_ms" (JInt (now_ms + 1800000)) m1) = true
  /\ validate_event_dict now_ms (dict_set "timestamp_ms" (JInt (now_ms + 7200000)) m1) = false
  /\ validate_event_dict now_ms (dict_set "timestamp_ms" (JInt 0) m1) = false
  /\ validate_event_dict now_ms (dict_set "event_id" (JStr "room::onlytwo") m1) = false
  /\ validate_event_dict now_ms (dict_set "type" (JStr "m.room.topic") m1) = false.
Proof. vm_compute. repeat split. Qed.

(** C6 asks for a validation error when the first part of the identifier is
    not the [room_id] of the record.  [validate_event_id] makes the comparison
    only when [values] holds a [room_id], and [event_id] is the first field of
    the model: [values] is empty when its validator runs, so a record whose
    identifier names another room is accepted. *)
Theorem model_validate_accepts_other_room :
  dict_get "event_id" mismatched_room_record = Some (JStr "other::t0::a")
  /\ dict_get "room_id" mismatched_room_record = Some (JStr "room")
  /\ str_split "::" "other::t0::a" = ["other"; "t0"; "a"]
  /\ exists e : Event,
       model_validate 1700000000000 mismatched_room_record = Ok e
       /\ event_id e = "other::t0::a" /\ room_id e = "room".
Proof.
  repeat split. eexists. split; [vm_compute; reflexivity|]. split; reflexivity.
Qed.

(** With [room_id] among the validated fields the same validator does reject
    the identifier. *)
Example validate_event_id_with_room :
  validate_event_id "other::t0::a" [("room_id", JStr "room")] = Raise ValueError
  /\ validate_event_id "other::t0::a" [] = Ok "other::t0::a"
  /\ validate_event_id "room::t0::a" [("room_id", JStr "room")] = Ok "room::t0::a".
Proof. vm_compute. repeat split. Qed.

(** ** Paths and file names *)


Lemma string_app_cons (c : ascii) (s t : string) :
  String c s +:+ t = String c (s +:+ t).
Proof. reflexivity. Qed.

Lemma string_app_nil_l (s : string) : EmptyString +:+ s = s.
Proof. reflexivity. Qed.

Lemma str_forallb_app (f : ascii -> bool) (s t : string) :
  str_forallb f (s +:+ t) = str_forallb f s && str_forallb f t.
Proof.
  induction s as [|c s IH]; [done|].
  rewrite string_app_cons. simpl. by rewrite IH, andb_assoc.
Qed.

Lemma str_forallb_impl (f g : ascii -> bool) (s : string) :
  (forall c, f c = true -> g c = true) ->
  str_forallb f s = true -> str_forallb g s = true.
Proof.
  intros Hfg. induction s as [|c s IH]; simpl; [done|].
  intros [Hc Hs]%andb_true_iff. by rewrite (Hfg c Hc), IH.
Qed.

Lemma str_filter_forallb (f : ascii -> bool) (s : string) :
  str_forallb f (str_filter f s) = true.
Proof.
  induction s as [|c s IH]; simpl; [done|].
  destruct (f c) eqn:E; simpl; [by rewrite E|done].
Qed.

Lemma string_app_assoc (s t u : string) : (s +:+ t) +:+ u = s +:+ t +:+ u.
Proof.
  induction s as [|c s IH]; [done|]. by rewrite !string_app_cons, IH.
Qed.

Lemma string_app_nil_r (s : string) : s +:+ EmptyString = s.
Proof. induction s as [|c s IH]; [done|]. by rewrite string_app_cons, IH. Qed.

Lemma string_app_length (s t : string) :
  String.length (s +:+ t) = (String.length s + String.length t)%nat.
Proof.
  induction s as [|c s IH]; [done|]. rewrite string_app_cons. simpl. by rewrite IH.
Qed.

Lemma string_app_inj_r (s1 s2 t : string) : s1 +:+ t = s2 +:+ t -> s1 = s2.
Proof.
  revert s2. induction s1 as [|c s1 IH]; intros [|c2 s2] Heq.
  - done.
  - apply (f_equal String.length) in Heq.
    rewrite string_app_nil_l, string_app_cons in Heq. simpl in Heq.
    rewrite string_app_length in Heq. lia.
  - apply (f_equal String.length) in Heq.
    rewrite string_app_nil_l, string_app_cons in Heq. simpl in Heq.
    rewrite string_app_length in Heq. lia.
  - rewrite !string_app_cons in Heq. injection Heq as -> Heq.
    f_equal. by apply IH.
Qed.

Lemma prefix_slash_false (c : ascii) (s : string) :
  not_slash c = true -> String.prefix "/" (String c s) = false.
Proof.
  intros Hc. cbn [String.prefix].
  destruct (Ascii.ascii_dec "/" c) as [<-|]; [by vm_compute in Hc | done].
Qed.

Lemma split_from_cons (sep : string) (c : ascii) (s cur : string) :
  split_from sep (String c s) 0 cur
  = if String.prefix sep (String c s)
    then cur :: split_from sep s (String.length sep - 1) EmptyString
    else split_from sep s 0 (cur +:+ String c EmptyString).
Proof. reflexivity. Qed.

Lemma split_from_no_slash (s cur : string) :
  str_forallb not_slash s = true ->
  split_from "/" s 0 cur = [cur +:+ s].
Proof.
  revert cur. induction s as [|c s IH]; intros cur.
  - intros _. by rewrite string_app_nil_r.
  - cbn [str_forallb]. intros [Hc Hs]%andb_true_iff.
    rewrite split_from_cons, prefix_slash_false, IH by done.
    by rewrite string_app_assoc, string_app_cons.
Qed.

Lemma path_div_name (p : path) (name : string) :
  str_forallb not_slash name = true ->
  name <> EmptyString -> name <> "." ->
  p </> name = p ++ [name].
Proof.
  intros Hs Hne Hdot. unfold path_div.
  assert (Hroot : path_root name = EmptyString).
  { unfold path_root. destruct name as [|c name]; [done|].
    cbn [str_forallb] in Hs. apply andb_true_iff in Hs as [Hc _].
    assert (Hp : forall t, String.prefix (String "/" t) (String c name) = false).
    { intros t. cbn [String.prefix].
      destruct (Ascii.ascii_dec "/" c) as [<-|]; [by vm_compute in Hc | done]. }
    by rewrite !Hp. }
  rewrite Hroot, String.eqb_refl. f_equal. unfold path_parts, str_split.
  rewrite split_from_no_slash, string_app_nil_l by done.
  cbn [List.filter]. unfold is_path_part.
  destruct (String.eqb_spec name EmptyString); [done|].
  by destruct (String.eqb_spec name ".").
Qed.

Lemma uint_chars_not_slash (d : Decimal.uint) :
  str_forallb not_slash (DecimalString.NilEmpty.string_of_uint d) = true.
Proof. induction d; simpl; auto. Qed.

Lemma py_int_repr_not_slash (n : Z) :
  str_forallb not_slash (py_int_repr n) = true.
Proof.
  unfold py_int_repr, DecimalString.NilZero.string_of_int,
    DecimalString.NilZero.string_of_uint.
  destruct (Z.to_int n) as [d|d]; destruct d; simpl;
    auto using uint_chars_not_slash.
Qed.

Lemma client_id_chars (user_id : string) :
  str_forallb not_slash (generate_client_id user_id) = true.
Proof.
  unfold generate_client_id.
  eapply str_forallb_impl; [|apply str_filter_forallb].
  intros c Hc. unfold not_slash.
  destruct (Ascii.eqb_spec c "/") as [->|]; [by vm_compute in Hc | done].
Qed.


Lemma log_file_name_not_slash (start_ts end_ts : Z) (client_id : string) :
  str_forallb not_slash client_id = true ->
  str_forallb not_slash (log_file_name start_ts end_ts client_id) = true.
Proof.
  intros Hc. unfold log_file_name.
  rewrite !str_forallb_app, !py_int_repr_not_slash, Hc. reflexivity.
Qed.

Lemma get_daily_log_path_name (self : UnifiedStorage) (room_id date_str : string)
    (start_ts end_ts : Z) (client_id : string) :
  str_forallb not_slash client_id = true ->
  get_daily_log_path self room_id date_str start_ts end_ts client_id
  = (base_path self </> "rooms" </> room_id </> "logs" </> date_str)
      ++ [log_file_name start_ts end_ts client_id].
Proof.
  intros Hc.
  change (get_daily_log_path self room_id date_str start_ts end_ts client_id)
    with (base_path self </> "rooms" </> room_id </> "logs" </> date_str
            </> log_file_name start_ts end_ts client_id).
  apply path_div_name.
  - by apply log_file_name_not_slash.
  - done.
  - done.
Qed.

Lemma log_file_name_inj (start_ts end_ts : Z) (c1 c2 : string) :
  log_file_name start_ts end_ts c1 = log_file_name start_ts end_ts c2 -> c1 = c2.
Proof.
  unfold log_file_name. intros Heq.
  repeat apply (inj (String.app _)) in Heq. by apply string_app_inj_r in Heq.
Qed.

(** C8, as stated, fails: two writers whose identities differ only after the
    ['@'] are given the same client identifier and so the same file. *)
Lemma writer_log_path_collision :
  ~ (forall (self : UnifiedStorage) (room_id date_str : string)
            (start_ts end_ts : Z) (user1 user2 : string),
       user1 <> user2 ->
       writer_log_path self user1 room_id date_str start_ts end_ts
       <> writer_log_path self user2 room_id date_str start_ts end_ts).
Proof.
  intros Hall.
  apply (Hall {| base_path := Path "data"; is_cloud := false |}
              "room" "2025-09-14" 1000 2000
              "alice@example.com" "alice@example.org"); [done|].
  vm_compute. reflexivity.
Qed.

Example generate_client_id_examples :
  generate_client_id "alice@example.com" = "alice"
  /\ generate_client_id "alice@example.org" = "alice"
  /\ generate_client_id "a.b" = "ab"
  /\ generate_client_id "ab" = "ab".
Proof. vm_compute. repeat split. Qed.

(** C8, amended. The path of a segment is a function of the storage, the
    room, the day, the two timestamps and the client identifier derived from
    the writer, and for the same coordinates two writers get the same path
    exactly when their identities derive the same client identifier. *)
Theorem writer_log_path_inj (self : UnifiedStorage) (room_id date_str : string)
    (start_ts end_ts : Z) (user1 user2 : string) :
  writer_log_path self user1 room_id date_str start_ts end_ts
  = writer_log_path self user2 room_id date_str start_ts end_ts
  <-> generate_client_id user1 = generate_client_id user2.
Proof.
  unfold writer_log_path. split; [|by intros ->].
  rewrite !get_daily_log_path_name by apply client_id_chars.
  intros Heq%app_inv_head.
  assert (Hname : log_file_name start_ts end_ts (generate_client_id user1)
                  = log_file_name start_ts end_ts (generate_client_id user2))
    by congruence.
  by apply log_file_name_inj in Hname.
Qed.

(** ** Creating a room *)

Lemma existsb_false {A : Type} (f : A -> bool) (l : list A) :
  List.existsb f l = false <-> forall x, x ∈ l -> f x = false.
Proof.
  rewrite <- not_true_iff_false, existsb_exists. split.
  - intros Hn x Hx. apply not_true_iff_false. intros Hf. apply Hn.
    exists x. by rewrite <- list_elem_of_In.
  - intros Hall (x & Hx%list_elem_of_In & Hf). by rewrite (Hall x Hx) in Hf.
Qed.

Lemma ancestors_from_spec (above p a : path) :
  a ∈ ancestors_from above p ->
  exists q r, q <> [] /\ p = q ++ r /\ a = above ++ q.
Proof.
  revert above. induction p as [|c p IH]; intros above; simpl.
  - by intros ?%elem_of_nil.
  - intros [->|Hin]%elem_of_cons.
    + by exists [c], p.
    + destruct (IH _ Hin) as (q & r & Hq & -> & ->).
      exists (c :: q), r. split; [done|]. split; [done|].
      by rewrite <- app_assoc.
Qed.

Lemma ancestors_prefix (p a : path) : a ∈ ancestors p -> a `prefix_of` p.
Proof.
  intros (q & r & _ & -> & ->)%ancestors_from_spec. by exists r.
Qed.

(** A file directly inside [p] is neither [p], nor above it, nor a
    sibling. *)
Lemma child_not_ancestor (p : path) (name other : string) :
  name <> other ->
  (p ++ [name] ∉ ancestors p) /\ (p ++ [name] ∉ ancestors (p ++ [other])).
Proof.
  intros Hne. split; intros [r Hr]%ancestors_prefix.
  - apply (f_equal List.length) in Hr. rewrite !length_app in Hr. simpl in Hr. lia.
  - destruct r as [|x r].
    + rewrite app_nil_r in Hr. by apply app_inj_tail in Hr as [_ ?].
    + apply (f_equal List.length) in Hr. rewrite !length_app in Hr.
      simpl in Hr. lia.
Qed.

Lemma filesystem_eq (fs fs' : filesystem) :
  fs_files fs = fs_files fs' -> fs_dirs fs = fs_dirs fs' -> fs = fs'.
Proof. destruct fs, fs'; simpl; by intros -> ->. Qed.

Lemma is_file_true (fs : filesystem) (p : path) :
  is_file fs p = true <-> is_Some (fs_files fs !! p).
Proof. unfold is_file. apply bool_decide_eq_true. Qed.

Lemma is_file_insert_ne (fs fs' : filesystem) (p q : path) (text : string) :
  fs_files fs' = <[p := text]> (fs_files fs) -> q <> p ->
  is_file fs' q = is_file fs q.
Proof.
  intros Hf Hne. unfold is_file. by rewrite Hf, lookup_insert_ne.
Qed.

Lemma mkdir_parents_inv (p : path) (fs fs' : filesystem) :
  mkdir_parents p fs = Ok fs' ->
  List.existsb (is_file fs) (ancestors p) = false
  /\ fs_files fs' = fs_files fs
  /\ fs_dirs fs' = fs_dirs fs ∪ list_to_set (ancestors p).
Proof.
  unfold mkdir_parents. destruct (List.existsb _ _); [done|].
  by intros [= <-].
Qed.

Lemma mkdir_parents_again (p : path) (fs : filesystem) :
  (forall a, a ∈ ancestors p -> is_file fs a = false) ->
  list_to_set (ancestors p) ⊆ fs_dirs fs ->
  mkdir_parents p fs = Ok fs.
Proof.
  intros Hfiles Hdirs. unfold mkdir_parents.
  rewrite (proj2 (existsb_false _ _) Hfiles). f_equal.
  apply filesystem_eq; simpl; [done|]. set_solver.
Qed.


Lemma result_bind_Ok {A B : Type} (a : A) (f : A -> result B) :
  (Ok a ≫= f) = f a.
Proof. reflexivity. Qed.

Lemma write_json_cloud (self : UnifiedStorage) (p : path) (data : json)
    (fs : filesystem) :
  is_cloud self = true ->
  write_json self p data fs
  = (true, {| fs_files := <[p := dumps_indent 0 data]> (fs_files fs);
              fs_dirs := fs_dirs fs |}).
Proof. intros Hc. unfold write_json, write_text. by rewrite Hc. Qed.

Lemma write_json_local (self : UnifiedStorage) (p : path) (data : json)
    (fs : filesystem) :
  is_cloud self = false ->
  List.existsb (is_file fs) (ancestors (path_parent p)) = false ->
  is_dir fs p = false ->
  p ∉ ancestors (path_parent p) ->
  write_json self p data fs
  = (true, {| fs_files := <[p := dumps_indent 0 data]> (fs_files fs);
              fs_dirs := fs_dirs fs ∪ list_to_set (ancestors (path_parent p)) |}).
Proof.
  intros Hc Hnf Hnd Hna. unfold write_json, write_text, mkdir_parents.
  rewrite Hc, Hnf. cbn [negb andb].
  assert (Hd : is_dir {| fs_files := fs_files fs;
                         fs_dirs := fs_dirs fs ∪ list_to_set (ancestors (path_parent p)) |}
                 p = false).
  { unfold is_dir in *. apply bool_decide_eq_false.
    apply bool_decide_eq_false in Hnd. cbn [fs_dirs]. set_solver. }
  by rewrite Hd.
Qed.

(** What a successful call leaves: the directories of the room on a file
    system, and the metadata file, written only when nothing was at its
    path. *)
Lemma ensure_room_structure_inv (self : UnifiedStorage) (room_id now_iso : string)
    (fs fs1 : filesystem) :
  let room_path := base_path self </> "rooms" </> room_id in
  let metadata_path := get_room_metadata_path self room_id in
  ensure_room_structure self room_id now_iso fs = Ok fs1 ->
  file_exists self fs1 metadata_path = true
  /\ (file_exists self fs metadata_path = true /\ fs_files fs1 = fs_files fs
      \/ file_exists self fs metadata_path = false
         /\ fs_files fs !! metadata_path = None
         /\ fs_files fs1
            = <[metadata_path := dumps_indent 0 (room_metadata room_id now_iso)]>
                (fs_files fs))
  /\ (is_cloud self = true -> fs_dirs fs1 = fs_dirs fs)
  /\ (is_cloud self = false ->
      (forall a, a ∈ ancestors room_path ++ ancestors (room_path ++ ["logs"]) ->
                 is_file fs1 a = false)
      /\ list_to_set (ancestors room_path ++ ancestors (room_path ++ ["logs"]))
           ⊆ fs_dirs fs1).
Proof.
  intros room_path metadata_path. unfold ensure_room_structure.
  fold room_path. fold (room_metadata room_id now_iso).
  change (room_path </> "metadata.json") with metadata_path.
  assert (Hmp : metadata_path = room_path ++ ["metadata.json"]).
  { by apply path_div_name. }
  assert (Hlp : room_path </> "logs" = room_path ++ ["logs"]).
  { by apply path_div_name. }
  destruct (child_not_ancestor room_path "metadata.json" "logs") as [Hna1 Hna2];
    [done|]. rewrite <- Hmp in Hna1, Hna2.
  rewrite Hlp. generalize (room_metadata room_id now_iso). intros data.
  destruct (is_cloud self) eqn:Hcloud.
  - rewrite result_bind_Ok. cbv zeta.
    destruct (file_exists self fs metadata_path) eqn:Hex; cbn [negb].
    + intros [= <-]. by repeat split; auto.
    + rewrite write_json_cloud by done. cbn [snd]. intros [= <-].
      unfold file_exists in *. rewrite Hcloud in *.
      split; [|split; [|split]]; [| |done|done].
      * unfold is_object_prefix. cbn [fs_files]. apply bool_decide_eq_true.
        exists metadata_path. split; [|done].
        apply elem_of_dom. rewrite lookup_insert_eq. by eexists.
      * right. split; [done|]. split; [|done].
        destruct (fs_files fs !! metadata_path) eqn:Hl; [|done].
        exfalso. apply not_true_iff_false in Hex. apply Hex.
        apply bool_decide_eq_true. exists metadata_path. split; [|done].
        apply elem_of_dom. by eexists.
  - destruct (mkdir_parents room_path fs) as [f1|] eqn:Hm1; [|done].
    rewrite result_bind_Ok.
    destruct (mkdir_parents (room_path ++ ["logs"]) f1) as [f2|] eqn:Hm2;
      [|done].
    rewrite result_bind_Ok. cbv zeta.
    apply mkdir_parents_inv in Hm1 as (Hn1 & Hf1 & Hd1).
    apply mkdir_parents_inv in Hm2 as (Hn2 & Hf2 & Hd2).
    rewrite existsb_false in Hn1, Hn2.
    assert (Hnf : forall a,
               a ∈ ancestors room_path ++ ancestors (room_path ++ ["logs"]) ->
               is_file f2 a = false).
    { intros a [Ha|Ha]%elem_of_app; unfold is_file; rewrite Hf2;
        [rewrite Hf1; by apply Hn1 | by apply Hn2]. }
    destruct (file_exists self f2 metadata_path) eqn:Hex; cbn [negb].
    + intros [= <-]. split; [done|]. split; [left; split; [|congruence]|].
      { unfold file_exists in *. rewrite Hcloud in *.
        apply orb_true_iff in Hex as [Hex|Hex]; apply orb_true_iff.
        - left. unfold is_file in *. by rewrite <- Hf1, <- Hf2.
        - right. unfold is_dir in *. apply bool_decide_eq_true.
          apply bool_decide_eq_true in Hex. rewrite Hd2, Hd1 in Hex.
          set_solver. }
      split; [done|]. intros _. split; [done|].
      rewrite Hd2, Hd1. set_solver.
    + unfold file_exists in Hex. rewrite Hcloud in Hex.
      apply orb_false_iff in Hex as [Hexf Hexd].
      assert (Hpar : path_parent metadata_path = room_path).
      { rewrite Hmp. unfold path_parent. by rewrite removelast_last. }
      rewrite write_json_local; [|done|rewrite Hpar|done|by rewrite Hpar].
      2:{ apply existsb_false. intros a Ha. apply Hnf, elem_of_app. by left. }
      cbn [snd]. intros [= <-]. unfold file_exists. rewrite Hcloud.
      split; [|split; [|split]]; [| |done|].
      * apply orb_true_iff. left. apply is_file_true. cbn [fs_files].
        rewrite lookup_insert_eq. by eexists.
      * right. cbn [fs_files]. rewrite Hf2, Hf1. split; [|split; [|done]].
        -- apply orb_false_iff. split.
           ++ unfold is_file in *. by rewrite <- Hf1, <- Hf2.
           ++ unfold is_dir in *. apply bool_decide_eq_false.
              apply bool_decide_eq_false in Hexd. rewrite Hd2, Hd1 in Hexd.
              set_solver.
        -- apply not_true_iff_false in Hexf. rewrite is_file_true in Hexf.
           rewrite Hf2, Hf1 in Hexf. by apply eq_None_not_Some.
      * intros _. split.
        -- intros a Ha. unfold is_file. cbn [fs_files]. rewrite lookup_insert_ne.
           ++ by apply Hnf.
           ++ intros <-. apply elem_of_app in Ha as [?|?]; done.
        -- cbn [fs_dirs]. rewrite Hd2, Hd1. set_solver.
Qed.

(** A second call after a successful one changes nothing. *)
Lemma ensure_room_structure_again (self : UnifiedStorage)
    (room_id now1 now2 : string) (fs fs1 : filesystem) :
  ensure_room_structure self room_id now1 fs = Ok fs1 ->
  ensure_room_structure self room_id now2 fs1 = Ok fs1.
Proof.
  intros Hrun.
  destruct (ensure_room_structure_inv _ _ _ _ _ Hrun)
    as (Hex & Hfiles & Hcloud & Hlocal).
  unfold ensure_room_structure.
  assert (Hlp : base_path self </> "rooms" </> room_id </> "logs"
                = (base_path self </> "rooms" </> room_id) ++ ["logs"]).
  { by apply path_div_name. }
  rewrite Hlp.
  change (base_path self </> "rooms" </> room_id </> "metadata.json")
    with (get_room_metadata_path self room_id).
  destruct (is_cloud self) eqn:Hc; simpl.
  - unfold file_exists in *. rewrite Hc in *. by rewrite Hex.
  - destruct (Hlocal eq_refl) as [Hnf Hsub].
    rewrite mkdir_parents_again; [simpl| |].
    + rewrite mkdir_parents_again; [simpl| |].
      * by rewrite Hex.
      * intros a Ha. apply Hnf, elem_of_app. by right.
      * set_solver.
    + intros a Ha. apply Hnf, elem_of_app. by left.
    + set_solver.
Qed.

(** On a store without files the call succeeds. *)
Lemma ensure_room_structure_no_files (self : UnifiedStorage)
    (room_id now_iso : string) (fs : filesystem) :
  fs_files fs = ∅ ->
  exists fs1, ensure_room_structure self room_id now_iso fs = Ok fs1.
Proof.
  intros Hempty.
  assert (Hmk : forall p dirs,
             mkdir_parents p {| fs_files := fs_files fs; fs_dirs := dirs |}
             = Ok {| fs_files := fs_files fs;
                     fs_dirs := dirs ∪ list_to_set (ancestors p) |}).
  { intros p dirs. unfold mkdir_parents.
    rewrite (proj2 (existsb_false _ _)); [done|].
    intros a _. unfold is_file. cbn [fs_files]. rewrite Hempty, lookup_empty.
    apply bool_decide_eq_false. by intros [? ?]. }
  unfold ensure_room_structure. destruct fs as [files dirs]. cbn [fs_files] in *.
  destruct (is_cloud self).
  - rewrite result_bind_Ok. cbv zeta. destruct (negb _); eauto.
  - rewrite Hmk. rewrite !result_bind_Ok. rewrite Hmk. rewrite result_bind_Ok.
    cbv zeta. destruct (negb _); eauto.
Qed.

(** C9, as stated, fails: where the metadata path is
    taken by something that is not a file, a directory on a file system or
    the keys below it in a bucket, the path exists, so nothing is written,
    and both calls succeed without leaving a metadata file. *)
Lemma ensure_room_structure_without_metadata :
  ~ (forall (self : UnifiedStorage) (room_id now1 now2 : string)
            (fs fs1 fs2 : filesystem),
       ensure_room_structure self room_id now1 fs = Ok fs1 ->
       ensure_room_structure self room_id now2 fs1 = Ok fs2 ->
       is_file fs2 (get_room_metadata_path self room_id) = true).
Proof.
  intros Hall.
  pose (self := {| base_path := ["test-storage"]; is_cloud := false |}).
  pose (fs := {| fs_files := ∅;
                 fs_dirs := {[ get_room_metadata_path self "lobby" ]} |}).
  destruct (ensure_room_structure_no_files self "lobby" "2025-09-14T10:00:00" fs)
    as [fs1 Hrun]; [done|].
  pose proof (ensure_room_structure_again self "lobby" "2025-09-14T10:00:00"
                "2025-09-15T11:30:00" fs fs1 Hrun) as Hrun2.
  specialize (Hall _ _ _ _ _ _ _ Hrun Hrun2).
  destruct (ensure_room_structure_inv _ _ _ _ _ Hrun)
    as (_ & [[_ Hf]|[Hno _]] & _).
  - apply is_file_true in Hall. rewrite Hf in Hall. cbn [fs_files fs] in Hall.
    rewrite lookup_empty in Hall. exact (is_Some_None Hall).
  - unfold file_exists in Hno. cbn [is_cloud self] in Hno.
    apply orb_false_iff in Hno as [_ Hno]. apply bool_decide_eq_false in Hno.
    apply Hno. cbn [fs_dirs fs]. set_solver.
Qed.

Example ensure_room_structure_key_below_metadata :
  let self := {| base_path := ["s3://bucket"]; is_cloud := true |} in
  let fs := {| fs_files := {[ get_room_metadata_path self "lobby" ++ ["old"] := "{}" ]};
               fs_dirs := ∅ |} in
  ensure_room_structure self "lobby" "2025-09-14T10:00:00" fs = Ok fs
  /\ is_file fs (get_room_metadata_path self "lobby") = false.
Proof.
  intros self fs. split.
  - unfold ensure_room_structure. cbn [is_cloud self]. rewrite result_bind_Ok.
    cbv zeta.
    change (base_path self </> "rooms" </> "lobby" </> "metadata.json")
      with (get_room_metadata_path self "lobby").
    assert (Hex : file_exists self fs (get_room_metadata_path self "lobby") = true);
      [|by rewrite Hex].
    unfold file_exists, is_object_prefix. cbn [is_cloud self fs_files fs].
    apply bool_decide_eq_true.
    exists (get_room_metadata_path self "lobby" ++ ["old"]).
    split; [set_solver | by exists ["old"]].
  - unfold is_file. cbn [fs_files fs]. apply bool_decide_eq_false.
    rewrite lookup_singleton_ne; [exact is_Some_None|].
    intros Heq. apply (f_equal List.length) in Heq.
    rewrite length_app in Heq. simpl in Heq. lia.
Qed.

(** C9, amended. Let whatever exists at the metadata path of the room be a
    file.  When the first call succeeds there is a metadata file: the one
    that was there, with its text, or else a new one holding the metadata of
    the room with the time of the first call; no other file is touched.  The
    second call succeeds and leaves everything as the first left it, whatever
    the clock says by then.  For a room name of one path part the file is
    [rooms/<room_id>/metadata.json] under the base path. *)
Theorem ensure_room_structure_idempotent
    (self : UnifiedStorage) (room_id now1 now2 : string) (fs fs1 : filesystem) :
  (file_exists self fs (get_room_metadata_path self room_id) = true ->
   is_file fs (get_room_metadata_path self room_id) = true) ->
  ensure_room_structure self room_id now1 fs = Ok fs1 ->
  ensure_room_structure self room_id now2 fs1 = Ok fs1
  /\ is_file fs1 (get_room_metadata_path self room_id) = true
  /\ fs_files fs1 !! get_room_metadata_path self room_id
     = Some (match fs_files fs !! get_room_metadata_path self room_id with
             | Some text => text
             | None =>
                 dumps_indent 0
                   (JDict [("room_id", JStr room_id); ("created_at", JStr now1);
                           ("version", JStr "1.0");
                           ("protocol", JStr "bucket-chat-v1")])
             end)
  /\ (forall p, p <> get_room_metadata_path self room_id ->
        fs_files fs1 !! p = fs_files fs !! p)
  /\ (str_forallb not_slash room_id = true -> room_id <> EmptyString ->
      room_id <> "." ->
      get_room_metadata_path self room_id
      = base_path self ++ ["rooms"; room_id; "metadata.json"]).
Proof.
  intros Hfile Hrun.
  destruct (ensure_room_structure_inv _ _ _ _ _ Hrun)
    as (Hex & Hfiles & Hcloud & Hlocal).
  assert (Hcontent :
            fs_files fs1 !! get_room_metadata_path self room_id
            = Some (match fs_files fs !! get_room_metadata_path self room_id with
                    | Some text => text
                    | None => dumps_indent 0 (room_metadata room_id now1)
                    end)).
  { destruct Hfiles as [[Hwas ->]|(_ & Hnone & ->)].
    - apply Hfile in Hwas. apply is_file_true in Hwas as [text Ht].
      by rewrite Ht.
    - by rewrite Hnone, lookup_insert_eq. }
  split; [exact (ensure_room_structure_again _ _ _ _ _ _ Hrun)|].
  split; [apply is_file_true; by rewrite Hcontent|].
  split; [exact Hcontent|]. split.
  - intros p Hp. destruct Hfiles as [[_ ->]|(_ & _ & ->)]; [done|].
    by rewrite lookup_insert_ne.
  - intros Hroom Hne Hdot. unfold get_room_metadata_path.
    rewrite (path_div_name _ "rooms") by done.
    rewrite (path_div_name _ room_id) by done.
    rewrite (path_div_name _ "metadata.json") by done.
    by rewrite <- !app_assoc.
Qed.

Lemma ensure_room_structure_idempotent_witness :
  let self := UnifiedStorage_init false "./test-storage" in
  let fs := {| fs_files := ∅; fs_dirs := ∅ |} in
  exists fs1,
    ensure_room_structure self "lobby" "2025-09-14T10:00:00" fs = Ok fs1
    /\ ensure_room_structure self "lobby" "2025-09-15T11:30:00" fs1 = Ok fs1
    /\ is_file fs1 ["test-storage"; "rooms"; "lobby"; "metadata.json"] = true.
Proof.
  intros self fs.
  destruct (ensure_room_structure self "lobby" "2025-09-14T10:00:00" fs)
    as [fs1|e] eqn:Hrun.
  - exists fs1. split; [reflexivity|].
    destruct (ensure_room_structure_idempotent self "lobby"
                "2025-09-14T10:00:00" "2025-09-15T11:30:00" fs fs1)
      as (Hagain & Hfile & _).
    + intros Hex. vm_compute in Hex. discriminate Hex.
    + exact Hrun.
    + split; [exact Hagain | exact Hfile].
  - vm_compute in Hrun. discriminate Hrun.
Defined.

(** The metadata a first call writes is read back as it was written. *)
Example ensure_room_structure_metadata_read_back :
  let self := UnifiedStorage_init false "./test-storage" in
  exists fs1,
    ensure_room_structure self "lobby" "2025-09-14T10:00:00" empty_fs = Ok fs1
    /\ get_room_metadata self "lobby" fs1
       = JDict [("room_id", JStr "lobby");
                ("created_at", JStr "2025-09-14T10:00:00");
                ("version", JStr "1.0"); ("protocol", JStr "bucket-chat-v1")].
Proof.
  intros self.
  destruct (ensure_room_structure self "lobby" "2025-09-14T10:00:00" empty_fs)
    as [fs1|e] eqn:Hrun; [|vm_compute in Hrun; discriminate Hrun].
  exists fs1. split; [reflexivity|].
  destruct (ensure_room_structure_inv _ _ _ _ _ Hrun)
    as (Hex & [[Hwas _]|(_ & _ & Hf)] & _).
  - vm_compute in Hwas. discriminate Hwas.
  - unfold get_room_metadata, read_json, read_text. rewrite Hex, Hf.
    cbn [negb]. rewrite lookup_insert_eq. vm_compute. reflexivity.
Qed.

(** ** Reading back the JSON text of a value *)

(** *** Strings *)


Lemma escape_cons (c : ascii) (s : string) :
  escape (String c s) = escape_char c +:+ escape s.
Proof. reflexivity. Qed.


(** *** Integers *)

Lemma uint_chars_digits (d : Decimal.uint) :
  str_forallb is_digit (DecimalString.NilEmpty.string_of_uint d) = true.
Proof. induction d; simpl; auto. Qed.

Lemma span_all (f : ascii -> bool) (s rest : string) :
  str_forallb f s = true ->
  match rest with
  | EmptyString => true
  | String c _ => negb (f c)
  end = true ->
  span f (s +:+ rest) = (s, rest).
Proof.
  intros Hs Hrest. induction s as [|c s IH].
  - rewrite string_app_nil_l. destruct rest as [|c rest]; [done|].
    cbn [span]. by apply negb_true_iff in Hrest as ->.
  - cbn [str_forallb] in Hs. apply andb_true_iff in Hs as [Hc Hs].
    rewrite string_app_cons. cbn [span]. by rewrite Hc, IH.
Qed.

Lemma pos_to_uint_normal (p : positive) (d : Decimal.uint) :
  Pos.to_uint p <> Decimal.D0 d.
Proof.
  intros Heq.
  pose proof (DecimalPos.Unsigned.to_of (Pos.to_uint p)) as Hn.
  rewrite DecimalPos.Unsigned.of_to in Hn. cbn [N.to_uint] in Hn.
  assert (Hnz : Decimal.nzhead (Pos.to_uint p) <> Decimal.Nil).
  { intros Hz%DecimalFacts.unorm_0. rewrite <- Hn in Hz.
    by apply DecimalPos.Unsigned.to_uint_nonzero in Hz. }
  rewrite (DecimalFacts.unorm_nzhead _ Hnz) in Hn.
  rewrite Heq in Hn at 1. symmetry in Hn.
  by apply DecimalFacts.nzhead_nonzero in Hn.
Qed.

(** The text of a positive number: digits, the first of which is not zero. *)
Lemma pos_repr (p : positive) :
  exists c s,
    DecimalString.NilZero.string_of_uint (Pos.to_uint p) = String c s
    /\ DecimalString.NilEmpty.string_of_uint (Pos.to_uint p) = String c s
    /\ is_digit c = true /\ Ascii.eqb c "0" = false
    /\ str_forallb is_digit s = true.
Proof.
  pose proof (pos_to_uint_normal p) as Hn0.
  pose proof (DecimalPos.Unsigned.to_uint_nonnil p) as Hnil.
  pose proof (uint_chars_digits (Pos.to_uint p)) as Hd.
  unfold DecimalString.NilZero.string_of_uint.
  destruct (Pos.to_uint p) as [|d|d|d|d|d|d|d|d|d|d]; [done|by destruct (Hn0 d)|..];
    cbn [DecimalString.NilEmpty.string_of_uint] in *;
    (eexists _, _; split; [reflexivity|]; split; [reflexivity|];
     split; [reflexivity|]; split; [reflexivity|]; exact Hd).
Qed.


Lemma delimited_not_number (rest : string) :
  delimited rest = true ->
  match rest with
  | EmptyString => true
  | String c _ => negb (number_char c)
  end = true
  /\ starts_fraction rest = false.
Proof.
  destruct rest as [|c rest]; [done|]. cbn [delimited starts_fraction].
  intros [[H|H]%orb_true_iff|H]%orb_true_iff; apply Ascii.eqb_eq in H as ->; done.
Qed.

Lemma is_digit_number_char (s : string) :
  str_forallb is_digit s = true -> str_forallb number_char s = true.
Proof.
  apply str_forallb_impl. intros c Hc. unfold number_char. by rewrite Hc.
Qed.

Lemma is_digit_not_minus (c : ascii) : is_digit c = true -> Ascii.eqb c "-" = false.
Proof.
  intros Hc. destruct (Ascii.eqb_spec c "-") as [->|]; [by vm_compute in Hc|done].
Qed.

Lemma parse_number_repr (n : Z) (rest : string) :
  delimited rest = true ->
  parse_number (py_int_repr n +:+ rest) = Some (JInt n, rest).
Proof.
  intros [Hnn Hnf]%delimited_not_number.
  assert (Hgoal : forall text digits,
    str_forallb number_char text = true ->
    (match text with
     | String c d => if Ascii.eqb c "-" then d else text
     | EmptyString => EmptyString
     end) = digits ->
    no_leading_zero digits = true ->
    DecimalString.NilZero.int_of_string text = Some (Z.to_int n) ->
    parse_number (text +:+ rest) = Some (JInt n, rest)).
  { intros text digits Hchars Hdigits Hzero Hint. unfold parse_number.
    rewrite (span_all number_char text rest Hchars Hnn). cbn [fst snd].
    rewrite Hdigits, Hzero, Hnf, Hint. cbn [negb orb].
    by rewrite DecimalZ.of_to. }
  unfold py_int_repr. destruct n as [|p|p]; cbn [Z.to_int].
  - by apply (Hgoal "0" "0").
  - destruct (pos_repr p) as (c & s & Hs & Hs' & Hc & Hc0 & Hds).
    cbn [DecimalString.NilZero.string_of_int]. rewrite Hs.
    apply (Hgoal _ (String c s)).
    + cbn [str_forallb]. unfold number_char at 1.
      by rewrite Hc, is_digit_number_char.
    + by rewrite is_digit_not_minus.
    + cbn [no_leading_zero]. destruct s; [done|]. by rewrite Hc0.
    + rewrite <- Hs. apply (DecimalString.NilZero.isi (Decimal.Pos (Pos.to_uint p))).
      * intros [= Hp]. by apply DecimalPos.Unsigned.to_uint_nonnil in Hp.
      * done.
  - destruct (pos_repr p) as (c & s & Hs & Hs' & Hc & Hc0 & Hds).
    cbn [DecimalString.NilZero.string_of_int]. rewrite Hs.
    apply (Hgoal _ (String c s)).
    + cbn [str_forallb]. unfold number_char at 1 2.
      rewrite Hc, is_digit_number_char by done. reflexivity.
    + reflexivity.
    + cbn [no_leading_zero]. destruct s; [done|]. by rewrite Hc0.
    + rewrite <- Hs. apply (DecimalString.NilZero.isi (Decimal.Neg (Pos.to_uint p))).
      * done.
      * intros [= Hp]. by apply DecimalPos.Unsigned.to_uint_nonnil in Hp.
Qed.

(** *** Values *)



Lemma value_start_next_is (c d : ascii) (t : string) :
  value_start c = true ->
  Ascii.eqb d "]" || Ascii.eqb d "}" = true ->
  next_is d (String c t) = None.
Proof.
  intros Hc [Hd|Hd]%orb_true_iff; apply Ascii.eqb_eq in Hd as ->;
    revert Hc; destruct c as [[|] [|] [|] [|] [|] [|] [|] [|]];
    intros Hc; try reflexivity; vm_compute in Hc; discriminate Hc.
Qed.

Lemma parse_value_S (fuel : nat) (s : string) :
  parse_value (S fuel) s
  = match skip_ws s with
    | EmptyString => None
    | String c s1 =>
        if Ascii.eqb c "n" then expect "null" JNull (String c s1)
        else if Ascii.eqb c "t" then expect "true" (JBool true) (String c s1)
        else if Ascii.eqb c "f" then expect "false" (JBool false) (String c s1)
        else if Ascii.eqb c dquote then
          match parse_chars s1 with
          | Some (str, rest) => Some (JStr str, rest)
          | None => None
          end
        else if Ascii.eqb c "[" then
          match next_is "]" s1 with
          | Some rest => Some (JList [], rest)
          | None =>
              match parse_elements fuel s1 with
              | Some (l, rest) => Some (JList l, rest)
              | None => None
              end
          end
        else if Ascii.eqb c "{" then
          match next_is "}" s1 with
          | Some rest => Some (JDict [], rest)
          | None =>
              match parse_members fuel s1 with
              | Some (items, rest) => Some (JDict (dict_of_items items), rest)
              | None => None
              end
          end
        else if number_char c then parse_number (String c s1)
        else None
    end.
Proof. reflexivity. Qed.

Lemma parse_value_number (fuel : nat) (c : ascii) (t : string) :
  number_char c = true ->
  parse_value (S fuel) (String c t) = parse_number (String c t).
Proof.
  rewrite parse_value_S.
  destruct c as [[|] [|] [|] [|] [|] [|] [|] [|]]; intros Hc;
    try reflexivity; vm_compute in Hc; discriminate Hc.
Qed.

Lemma parse_elements_S (fuel : nat) (s : string) :
  parse_elements (S fuel) s
  = match parse_value fuel s with
    | Some (v, s1) =>
        match next_is "," s1 with
        | Some s2 =>
            match parse_elements fuel s2 with
            | Some (l, rest) => Some (v :: l, rest)
            | None => None
            end
        | None =>
            match next_is "]" s1 with
            | Some rest => Some ([v], rest)
            | None => None
            end
        end
    | None => None
    end.
Proof. reflexivity. Qed.

Lemma parse_members_S (fuel : nat) (s : string) :
  parse_members (S fuel) s
  = match next_is dquote s with
    | Some s0 =>
        match parse_chars s0 with
        | Some (k, s1) =>
            match next_is ":" s1 with
            | Some s2 =>
                match parse_value fuel s2 with
                | Some (v, s3) =>
                    match next_is "," s3 with
                    | Some s4 =>
                        match parse_members fuel s4 with
                        | Some (items, rest) => Some ((k, v) :: items, rest)
                        | None => None
                        end
                    | None =>
                        match next_is "}" s3 with
                        | Some rest => Some ([(k, v)], rest)
                        | None => None
                        end
                    end
                | None => None
                end
            | None => None
            end
        | None => None
        end
    | None => None
    end.
Proof. reflexivity. Qed.

Lemma join_cons2 (sep p q : string) (ps : list string) :
  join sep (p :: q :: ps) = p +:+ sep +:+ join sep (q :: ps).
Proof. reflexivity. Qed.

Lemma dict_get_absent (k : string) (d : dict) :
  k ∉ List.map fst d -> dict_get k d = None.
Proof.
  induction d as [|[k' v] d IH]; [done|]. cbn [List.map fst dict_get].
  intros [Hne Hd]%not_elem_of_cons.
  destruct (String.eqb_spec k k'); [done|]. by apply IH.
Qed.

Lemma dict_of_items_from (items acc : dict) :
  NoDup (List.map fst (acc ++ items)) ->
  List.fold_left (fun d kv => dict_set (fst kv) (snd kv) d) items acc
  = acc ++ items.
Proof.
  revert acc. induction items as [|[k v] items IH]; intros acc Hnd.
  - by rewrite app_nil_r.
  - cbn [List.fold_left fst snd]. rewrite dict_set_absent.
    + rewrite IH; rewrite <- app_assoc; done.
    + apply dict_get_absent. rewrite List.map_app in Hnd.
      apply NoDup_app in Hnd as (_ & Hdisj & _).
      intros Hin. apply (Hdisj k Hin). left.
Qed.

Lemma dict_of_items_NoDup (d : dict) :
  NoDup (List.map fst d) -> dict_of_items d = d.
Proof. intros Hnd. unfold dict_of_items. by rewrite dict_of_items_from. Qed.

(** *** The text is long enough to pay for its own reading *)

Lemma join_length_ge (parts : list string) (sizes : list nat) :
  Forall2 (fun p n => (n <= String.length p)%nat) parts sizes ->
  (list_sum (List.map S sizes) <= String.length (join "," parts) + 1)%nat.
Proof.
  induction 1 as [|p n parts sizes Hp Hrest IH]; [cbn; lia|].
  destruct parts as [|q parts].
  - inversion Hrest; subst. cbn [List.map list_sum fold_right join]. lia.
  - rewrite join_cons2, !string_app_length.
    change (String.length ",") with 1%nat.
    change (list_sum (List.map S (n :: sizes)))
      with (S n + list_sum (List.map S sizes))%nat. lia.
Qed.

(** *** Reading back what [dumps_with] writes

    [esc] is an escaping of strings that [parse_chars] reads back. *)
Section ReadBack.
Variable esc : string -> string.
Hypothesis esc_reads :
  forall s r : string, parse_chars (esc s +:+ String dquote r) = Some (s, r).

Lemma enc_app (s r : string) :
  quoted esc s +:+ r = String dquote (esc s +:+ String dquote r).
Proof.
  unfold quoted, quote.
  rewrite !string_app_cons, !string_app_nil_l, string_app_assoc.
  by rewrite string_app_cons, string_app_nil_l.
Qed.

Lemma dumps_with_start (j : json) :
  exists c t, dumps_with esc j = String c t /\ value_start c = true.
Proof.
  destruct j as [ | [|] | n | s | l | d]; try (by eexists _, _).
  - cbn [dumps_with]. unfold py_int_repr. destruct n as [|p|p]; cbn [Z.to_int].
    + by eexists _, _.
    + destruct (pos_repr p) as (c & s & Hs & _ & Hc & _).
      cbn [DecimalString.NilZero.string_of_int]. rewrite Hs.
      eexists _, _. split; [reflexivity|]. unfold value_start, number_char.
      by rewrite Hc.
    + by eexists _, _.
Qed.


Lemma parse_elements_join (l : list json) :
  Forall (reads_back esc) l -> l <> [] ->
  forall (fuel : nat) (rest : string),
    (list_sum (List.map (fun x => S (json_size x)) l) <= fuel)%nat ->
    List.forallb wf_json l = true ->
    parse_elements fuel (join "," (List.map (dumps_with esc) l) +:+ String "]" rest)
    = Some (l, rest).
Proof.
  induction 1 as [|x l Hx Hl IH]; [done|]. intros _ fuel rest Hfuel Hwf.
  cbn [List.map list_sum fold_right] in Hfuel. cbn [List.forallb] in Hwf.
  apply andb_true_iff in Hwf as [Hwx Hwl].
  destruct fuel as [|fuel]; [lia|]. rewrite parse_elements_S.
  destruct l as [|y l].
  - cbn [List.map join]. rewrite Hx by (done || lia).
    by replace (next_is "," (String "]" rest)) with (@None string).
  - cbn [List.map]. rewrite join_cons2, !string_app_assoc, string_app_cons,
      string_app_nil_l.
    rewrite Hx by (done || lia).
    replace (next_is "," (String "," (join "," (dumps_with esc y :: List.map (dumps_with esc) l)
                                     +:+ String "]" rest)))
      with (Some (join "," (dumps_with esc y :: List.map (dumps_with esc) l)
                  +:+ String "]" rest)) by reflexivity.
    change (dumps_with esc y :: List.map (dumps_with esc) l)
      with (List.map (dumps_with esc) (y :: l)).
    rewrite IH; [done|done| |done]. cbn [List.map list_sum fold_right] in *. lia.
Qed.


Lemma parse_members_join (d : dict) :
  Forall (fun kv => (reads_back esc) (snd kv)) d -> d <> [] ->
  forall (fuel : nat) (rest : string),
    (list_sum (List.map (fun kv => S (json_size (snd kv))) d) <= fuel)%nat ->
    List.forallb (fun kv => wf_json (snd kv)) d = true ->
    parse_members fuel (join "," (List.map (render_entry esc) d) +:+ String "}" rest)
    = Some (d, rest).
Proof.
  induction 1 as [|[k v] d Hv Hd IH]; [done|]. intros _ fuel rest Hfuel Hwf.
  cbn [List.map list_sum fold_right snd] in Hfuel. cbn [List.forallb snd] in Hwf.
  apply andb_true_iff in Hwf as [Hwv Hwd].
  destruct fuel as [|fuel]; [lia|]. rewrite parse_members_S.
  assert (Hentry : forall tail,
    (render_entry esc) (k, v) +:+ tail
    = String dquote (esc k +:+ String dquote (String ":" (dumps_with esc v +:+ tail)))).
  { intros tail. unfold render_entry. cbn [fst snd].
    rewrite string_app_assoc, enc_app.
    by rewrite string_app_assoc, string_app_cons, string_app_nil_l. }
  destruct d as [|e d].
  - cbn [List.map join]. rewrite Hentry.
    replace (next_is dquote (String dquote (esc k +:+ String dquote
               (String ":" (dumps_with esc v +:+ String "}" rest)))))
      with (Some (esc k +:+ String dquote
               (String ":" (dumps_with esc v +:+ String "}" rest)))) by reflexivity.
    rewrite esc_reads.
    replace (next_is ":" (String ":" (dumps_with esc v +:+ String "}" rest)))
      with (Some (dumps_with esc v +:+ String "}" rest)) by reflexivity.
    cbn [snd] in Hv. rewrite Hv by (done || lia).
    by replace (next_is "," (String "}" rest)) with (@None string).
  - cbn [List.map]. rewrite join_cons2, string_app_assoc, Hentry.
    set (tail := join "," ((render_entry esc) e :: List.map (render_entry esc) d)
                 +:+ String "}" rest).
    replace (("," +:+ join "," ((render_entry esc) e :: List.map (render_entry esc) d))
             +:+ String "}" rest) with (String "," tail)
      by (unfold tail; by rewrite string_app_assoc, string_app_cons, string_app_nil_l).
    replace (next_is dquote (String dquote (esc k +:+ String dquote
               (String ":" (dumps_with esc v +:+ String "," tail)))))
      with (Some (esc k +:+ String dquote
               (String ":" (dumps_with esc v +:+ String "," tail)))) by reflexivity.
    rewrite esc_reads.
    replace (next_is ":" (String ":" (dumps_with esc v +:+ String "," tail)))
      with (Some (dumps_with esc v +:+ String "," tail)) by reflexivity.
    cbn [snd] in Hv. rewrite Hv by (done || lia).
    replace (next_is "," (String "," tail)) with (Some tail) by reflexivity.
    unfold tail.
    change ((render_entry esc) e :: List.map (render_entry esc) d)
      with (List.map (render_entry esc) (e :: d)).
    rewrite IH; [done|done| |done]. cbn [List.map list_sum fold_right] in *. lia.
Qed.

Lemma dumps_with_dict (d : dict) :
  dumps_with esc (JDict d) = "{" +:+ join "," (List.map (render_entry esc) d) +:+ "}".
Proof. reflexivity. Qed.

Lemma dumps_with_list (l : list json) :
  dumps_with esc (JList l) = "[" +:+ join "," (List.map (dumps_with esc) l) +:+ "]".
Proof. reflexivity. Qed.

Theorem dumps_with_reads_back (j : json) : (reads_back esc) j.
Proof.
  induction j as [ | b | n | s | l IH | d IH] using json_ind';
    intros fuel rest Hfuel Hrest Hwf;
    (destruct fuel as [|fuel]; [cbn [json_size] in Hfuel; lia|]).
  - reflexivity.
  - by destruct b.
  - destruct (dumps_with_start (JInt n)) as (c & t & Hct & Hc).
    assert (Hnum : number_char c = true).
    { cbn [dumps_with] in Hct. unfold py_int_repr in Hct.
      destruct n as [|p|p]; cbn [Z.to_int DecimalString.NilZero.string_of_int] in Hct.
      - by injection Hct as <- _.
      - destruct (pos_repr p) as (c' & s' & Hs & _ & Hc' & _).
        rewrite Hs in Hct. injection Hct as <- _. unfold number_char.
        by rewrite Hc'.
      - by injection Hct as <- _. }
    rewrite Hct, string_app_cons, parse_value_number by done.
    rewrite <- string_app_cons, <- Hct. by apply parse_number_repr.
  - cbn [dumps_with]. rewrite enc_app, parse_value_S.
    cbn [skip_ws]. replace (json_ws dquote) with false by reflexivity.
    replace (Ascii.eqb dquote "n") with false by reflexivity.
    replace (Ascii.eqb dquote "t") with false by reflexivity.
    replace (Ascii.eqb dquote "f") with false by reflexivity.
    rewrite Ascii.eqb_refl. by rewrite esc_reads.
  - destruct l as [|x l]; [reflexivity|].
    rewrite dumps_with_list, !string_app_assoc, string_app_cons,
      string_app_nil_l, parse_value_S.
    cbn [skip_ws]. replace (json_ws "[") with false by reflexivity.
    replace (Ascii.eqb "[" "n") with false by reflexivity.
    replace (Ascii.eqb "[" "t") with false by reflexivity.
    replace (Ascii.eqb "[" "f") with false by reflexivity.
    replace (Ascii.eqb "[" dquote) with false by reflexivity.
    rewrite Ascii.eqb_refl.
    assert (Hnext : next_is "]" (join "," (List.map (dumps_with esc) (x :: l))
                                 +:+ "]" +:+ rest) = None).
    { destruct (dumps_with_start x) as (c & t & Hct & Hc).
      destruct l as [|y l]; cbn [List.map].
      - cbn [join]. rewrite Hct, string_app_cons.
        by apply value_start_next_is.
      - rewrite join_cons2, Hct, !string_app_cons.
        by apply value_start_next_is. }
    rewrite Hnext. rewrite string_app_cons, string_app_nil_l.
    rewrite parse_elements_join; [done|done|done| |].
    + cbn [json_size] in Hfuel. lia.
    + exact Hwf.
  - destruct d as [|kv d]; [reflexivity|].
    rewrite dumps_with_dict, !string_app_assoc, string_app_cons,
      string_app_nil_l, parse_value_S.
    cbn [skip_ws]. replace (json_ws "{") with false by reflexivity.
    replace (Ascii.eqb "{" "n") with false by reflexivity.
    replace (Ascii.eqb "{" "t") with false by reflexivity.
    replace (Ascii.eqb "{" "f") with false by reflexivity.
    replace (Ascii.eqb "{" dquote) with false by reflexivity.
    replace (Ascii.eqb "{" "[") with false by reflexivity.
    rewrite Ascii.eqb_refl.
    assert (Hnext : next_is "}" (join "," (List.map (render_entry esc) (kv :: d))
                                 +:+ "}" +:+ rest) = None).
    { destruct d as [|e d]; cbn [List.map].
      - cbn [join]. unfold render_entry.
        by rewrite string_app_assoc, enc_app.
      - rewrite join_cons2. unfold render_entry at 1.
        by rewrite !string_app_assoc, enc_app. }
    rewrite Hnext. rewrite string_app_cons, string_app_nil_l.
    cbn [wf_json] in Hwf. apply andb_true_iff in Hwf as [Hnd Hwf].
    rewrite parse_members_join; [|done|done| |done].
    + rewrite dict_of_items_NoDup; [done|]. by apply nodupb_NoDup.
    + cbn [json_size] in Hfuel. lia.
Qed.

Lemma dumps_with_length (j : json) :
  (json_size j <= String.length (dumps_with esc j))%nat.
Proof.
  induction j as [ | b | n | s | l IH | d IH] using json_ind'.
  - cbn. lia.
  - destruct b; cbn; lia.
  - destruct (dumps_with_start (JInt n)) as (c & t & -> & _).
    cbn [json_size String.length]. lia.
  - destruct (dumps_with_start (JStr s)) as (c & t & -> & _).
    cbn [json_size String.length]. lia.
  - rewrite dumps_with_list, string_app_cons, string_app_nil_l.
    cbn [json_size String.length]. rewrite string_app_length.
    change (String.length "]") with 1%nat.
    pose proof (join_length_ge (List.map (dumps_with esc) l) (List.map json_size l))
      as Hj.
    rewrite List.map_map in Hj.
    assert (Hf : Forall2 (fun p n => (n <= String.length p)%nat)
                   (List.map (dumps_with esc) l) (List.map json_size l)).
    { clear Hj. induction IH as [|x l Hx Hl IHl]; constructor; done. }
    specialize (Hj Hf). lia.
  - rewrite dumps_with_dict, string_app_cons, string_app_nil_l.
    cbn [json_size String.length]. rewrite string_app_length.
    change (String.length "}") with 1%nat.
    pose proof (join_length_ge (List.map (render_entry esc) d)
                  (List.map (fun kv => json_size (snd kv)) d)) as Hj.
    rewrite List.map_map in Hj.
    assert (Hf : Forall2 (fun p n => (n <= String.length p)%nat)
                   (List.map (render_entry esc) d)
                   (List.map (fun kv => json_size (snd kv)) d)).
    { clear Hj. induction IH as [|x l Hx Hl IHl]; constructor; [|done].
      unfold render_entry. rewrite !string_app_length. lia. }
    specialize (Hj Hf). lia.
Qed.

(** Reading the text written for a value gives the value back. *)
Theorem json_loads_dumps_with (j : json) :
  wf_json j = true -> json_loads (dumps_with esc j) = Ok j.
Proof.
  intros Hwf. unfold json_loads.
  pose proof (dumps_with_reads_back j (S (String.length (dumps_with esc j)))
                EmptyString) as Hr.
  rewrite string_app_nil_r in Hr. rewrite Hr; [done| |done|done].
  pose proof (dumps_with_length j). lia.
Qed.

End ReadBack.

Lemma dumps_compact_dict (d : dict) :
  dumps_compact (JDict d)
  = "{" +:+ join "," (List.map (render_entry escape) d) +:+ "}".
Proof. reflexivity. Qed.


(** ** Writing an event as a line and reading it back *)

Lemma rstrip_snoc (s : string) (c : ascii) :
  isspace c = false ->
  rstrip (s +:+ String c EmptyString) = s +:+ String c EmptyString.
Proof.
  intros Hc. induction s as [|a s IH].
  - rewrite string_app_nil_l. cbn [rstrip]. by rewrite Hc.
  - rewrite string_app_cons. cbn [rstrip]. rewrite IH.
    destruct s; by rewrite ?string_app_nil_l, ?string_app_cons.
Qed.




Lemma validate_event_id_first (v : string) :
  str_contains "::" v = true ->
  List.length (str_split "::" v) = 3%nat ->
  validate_event_id v [] = Ok v.
Proof. intros Hc Hp. unfold validate_event_id. by rewrite Hc, Hp. Qed.

Lemma validate_timestamp_Ok (now_ms v : Z) :
  0 < v <= now_ms + 3600000 -> validate_timestamp now_ms v = Ok v.
Proof.
  intros Hv. unfold validate_timestamp.
  destruct (Z.leb_spec v 0); [lia|].
  by destruct (Z.gtb_spec v (now_ms + 3600000)); [lia|].
Qed.

Lemma validate_event_type_Ok (v : string) :
  In v valid_types -> validate_event_type v = Ok v.
Proof.
  intros Hin. unfold validate_event_type.
  assert (He : List.existsb (String.eqb v) valid_types = true).
  { apply existsb_exists. exists v. split; [done | apply String.eqb_refl]. }
  by rewrite He.
Qed.


Lemma model_validate_Ok_content (now_ms : Z) (data : dict) (e : Event) :
  model_validate now_ms data = Ok e ->
  str_contains "::" (event_id e) = true
  /\ dict_get "content" data = Some (JDict (content e)).
Proof.
  unfold model_validate, field_str, field_int.
  destruct (dict_get "event_id" data) as [[ | | |eid| | ]|]; try done.
  rewrite result_bind_Ok. unfold validate_event_id.
  destruct (str_contains "::" eid) eqn:Hc; cbn [negb]; [|done].
  destruct (negb (List.length (str_split "::" eid) =? 3)%nat); [done|].
  cbn [dict_contains dict_get andb as_validation_error]. rewrite result_bind_Ok.
  destruct (dict_get "room_id" data) as [[ | | |rid| | ]|]; try done.
  rewrite result_bind_Ok.
  destruct (dict_get "timestamp_ms" data) as [[ | |ts| | | ]|]; try done.
  rewrite result_bind_Ok.
  destruct (validate_timestamp now_ms ts); [|done].
  cbn [as_validation_error]. rewrite result_bind_Ok.
  destruct (dict_get "sender_id" data) as [[ | | |sid| | ]|]; try done.
  rewrite result_bind_Ok.
  destruct (dict_get "type" data) as [[ | | |ty| | ]|]; try done.
  rewrite result_bind_Ok.
  destruct (validate_event_type ty); [|done].
  cbn [as_validation_error]. rewrite result_bind_Ok.
  destruct (field_optional_str "parent_event_id" data); [|done].
  rewrite result_bind_Ok.
  destruct (field_optional_str "prev_event_hash" data); [|done].
  rewrite result_bind_Ok.
  destruct (dict_get "signature" data) as [[ | | |sg| | ]|]; try done.
  rewrite result_bind_Ok. unfold field_dict.
  destruct (dict_get "content" data) as [[ | | | | |ct]|]; try done.
  rewrite result_bind_Ok. by intros [= <-].
Qed.






Example jsonl_line_of_m1 :
  (e ← model_validate 1700000000000 m1; Ok (to_jsonl_line e))
  = Ok ("{" +:+ encode_basestring "event_id" +:+ ":" +:+ encode_basestring "room::t0::a"
        +:+ "," +:+ encode_basestring "room_id" +:+ ":" +:+ encode_basestring "room"
        +:+ "," +:+ encode_basestring "timestamp_ms" +:+ ":1000"
        +:+ "," +:+ encode_basestring "sender_id" +:+ ":" +:+ encode_basestring "alice"
        +:+ "," +:+ encode_basestring "type" +:+ ":" +:+ encode_basestring "m.room.message"
        +:+ "," +:+ encode_basestring "parent_event_id" +:+ ":null"
        +:+ "," +:+ encode_basestring "prev_event_hash" +:+ ":null"
        +:+ "," +:+ encode_basestring "signature" +:+ ":" +:+ encode_basestring EmptyString
        +:+ "," +:+ encode_basestring "content" +:+ ":{"
        +:+ encode_basestring "body" +:+ ":" +:+ encode_basestring "m1"
        +:+ "," +:+ encode_basestring "msgtype" +:+ ":" +:+ encode_basestring "m.text"
        +:+ "}}" +:+ String (chr 10) EmptyString).
Proof. vm_compute. reflexivity. Qed.

(** ** The canonical encoding tells records apart *)

Lemma parse_chars_escape_char_ascii (c : ascii) (r : string) :
  parse_chars (escape_char_ascii c +:+ r) = cons_char c (parse_chars r).
Proof. destruct c as [[|] [|] [|] [|] [|] [|] [|] [|]]; reflexivity. Qed.

Lemma parse_chars_escape_ascii (s r : string) :
  parse_chars (escape_ascii s +:+ String dquote r) = Some (s, r).
Proof.
  induction s as [|c s IH]; [reflexivity|].
  change (escape_ascii (String c s)) with (escape_char_ascii c +:+ escape_ascii s).
  by rewrite string_app_assoc, parse_chars_escape_char_ascii, IH.
Qed.


Lemma sorted_entries_perm (d : dict) :
  Permutation (sorted_entries d)
    (List.map (fun kv => (fst kv, sort_keys (snd kv))) d).
Proof. apply py_sorted_perm. Qed.

Lemma sorted_entries_keys (d : dict) :
  Permutation (List.map fst (sorted_entries d)) (List.map fst d).
Proof.
  rewrite sorted_entries_perm, List.map_map. cbn [fst]. reflexivity.
Qed.

(** The canonical text is the plain text of the value with sorted keys. *)
Lemma dumps_canonical_sort_keys (j : json) :
  dumps_canonical j = dumps_with escape_ascii (sort_keys j).
Proof.
  induction j as [ | b | n | s | l IH | d IH] using json_ind'; try reflexivity.
  - assert (Hm : List.map dumps_canonical l
                 = List.map (dumps_with escape_ascii) (List.map sort_keys l)).
    { rewrite List.map_map. apply List.map_ext_in. intros x Hx%list_elem_of_In.
      rewrite Forall_forall in IH. by apply IH. }
    cbn [dumps_canonical sort_keys dumps_with]. by rewrite Hm.
  - assert (Hm : List.map render_item
                   (py_sorted item_lt
                      (List.map (fun kv => (fst kv, dumps_canonical (snd kv))) d))
                 = List.map (fun kv => quoted escape_ascii (fst kv) +:+ ":"
                                       +:+ dumps_with escape_ascii (snd kv))
                     (sorted_entries d)).
    { unfold sorted_entries.
      rewrite !(py_sorted_map_snd _ d), !List.map_map. cbn [fst snd].
      apply List.map_ext_in. intros kv Hkv%list_elem_of_In.
      rewrite py_sorted_perm in Hkv.
      rewrite Forall_forall in IH. unfold render_item. cbn [fst snd].
      by rewrite (IH kv Hkv). }
    cbn [dumps_canonical sort_keys dumps_with]. fold (sorted_entries d).
    by rewrite Hm.
Qed.

Lemma wf_json_sort_keys (j : json) :
  wf_json j = true -> wf_json (sort_keys j) = true.
Proof.
  induction j as [ | b | n | s | l IH | d IH] using json_ind'; try done.
  - cbn [wf_json sort_keys]. rewrite !forallb_forall. intros Hwf y Hy.
    apply in_map_iff in Hy as (x & <- & Hx). rewrite Forall_forall in IH.
    apply IH; [by apply list_elem_of_In | by apply Hwf].
  - cbn [wf_json sort_keys]. fold (sorted_entries d).
    intros [Hnd Hwf]%andb_true_iff. apply andb_true_iff. split.
    + apply nodupb_NoDup. rewrite sorted_entries_keys. by apply nodupb_NoDup.
    + rewrite forallb_forall in *. intros kv Hkv%list_elem_of_In.
      rewrite sorted_entries_perm in Hkv.
      apply list_elem_of_In, in_map_iff in Hkv as (kv' & <- & Hin).
      cbn [snd]. rewrite Forall_forall in IH.
      apply IH; [by apply list_elem_of_In | by apply Hwf].
Qed.

Lemma json_loads_dumps_canonical (j : json) :
  wf_json j = true -> json_loads (dumps_canonical j) = Ok (sort_keys j).
Proof.
  intros Hwf. rewrite dumps_canonical_sort_keys.
  apply json_loads_dumps_with; [apply parse_chars_escape_ascii|].
  by apply wf_json_sort_keys.
Qed.

(** Values with the same canonical text are the same up to the order of
    their keys. *)
Theorem dumps_canonical_inj (a b : json) :
  wf_json a = true -> wf_json b = true ->
  dumps_canonical a = dumps_canonical b -> sort_keys a = sort_keys b.
Proof.
  intros Ha Hb Heq.
  pose proof (json_loads_dumps_canonical a Ha) as Hla.
  rewrite Heq, (json_loads_dumps_canonical b Hb) in Hla. congruence.
Qed.

Lemma dict_get_perm (k : string) (d1 d2 : dict) :
  NoDup (List.map fst d1) -> Permutation d1 d2 ->
  dict_get k d1 = dict_get k d2.
Proof.
  intros Hnd HP.
  assert (Hnd2 : NoDup (List.map fst d2)) by by rewrite <- HP.
  destruct (dict_get k d1) as [v|] eqn:H1.
  - symmetry. apply dict_get_elem; [done|].
    rewrite <- HP. by apply dict_get_Some_elem.
  - destruct (dict_get k d2) as [v|] eqn:H2; [|done].
    apply dict_get_Some_elem in H2. rewrite <- HP in H2.
    apply (dict_get_elem _ _ _ Hnd) in H2. congruence.
Qed.

Lemma dict_get_map_values (f : json -> json) (k : string) (d : dict) :
  dict_get k (List.map (fun kv => (fst kv, f (snd kv))) d) = f <$> dict_get k d.
Proof.
  induction d as [|[k' v] d IH]; [done|]. cbn [List.map fst snd dict_get].
  by destruct (String.eqb k k').
Qed.

Lemma dict_get_sorted_entries (k : string) (d : dict) :
  NoDup (List.map fst d) ->
  dict_get k (sorted_entries d) = sort_keys <$> dict_get k d.
Proof.
  intros Hnd. rewrite <- dict_get_map_values. apply dict_get_perm.
  - rewrite sorted_entries_keys. exact Hnd.
  - apply sorted_entries_perm.
Qed.

(** Two records with the same canonical encoding carry the same integer
    timestamp. *)
Lemma canonical_json_timestamp (a b : dict) (x y : Z) :
  wf_dict a = true -> wf_dict b = true ->
  canonical_json (dict_pop "signature" a) = canonical_json (dict_pop "signature" b) ->
  int_timestamp a = Some x -> int_timestamp b = Some y -> x = y.
Proof.
  intros Hwa Hwb Hcanon Hx Hy.
  apply (wf_dict_pop "signature") in Hwa, Hwb.
  apply dumps_canonical_inj in Hcanon; [|done..].
  cbn [sort_keys] in Hcanon. injection Hcanon as Hsorted.
  assert (Hget : sort_keys <$> dict_get "timestamp_ms" a
                 = sort_keys <$> dict_get "timestamp_ms" b).
  { rewrite <- (dict_pop_get_other "signature" "timestamp_ms" a) by done.
    rewrite <- (dict_pop_get_other "signature" "timestamp_ms" b) by done.
    rewrite <- !dict_get_sorted_entries by by apply wf_dict_NoDup.
    unfold sorted_entries. by rewrite Hsorted. }
  unfold int_timestamp, timestamp_key, dict_get_default in Hx, Hy.
  destruct (dict_get "timestamp_ms" a) as [[ | |n| | | ]|],
           (dict_get "timestamp_ms" b) as [[ | |m| | | ]|];
    cbn in Hget; simplify_eq; done.
Qed.

(** ** Deleting a record from a chain *)

Lemma increasing_timestamps_lookup (chain : list dict) (i j : nat) (a b : dict) :
  increasing_int_timestamps chain = true ->
  chain !! i = Some a -> chain !! j = Some b -> (i < j)%nat ->
  exists x y, int_timestamp a = Some x /\ int_timestamp b = Some y /\ x < y.
Proof.
  intros [Hint Hinc]%andb_true_iff Ha Hb Hij.
  rewrite all_int_timestamps_elem in Hint.
  destruct (Hint a) as [x Hx]; [by eapply list_elem_of_lookup_2|].
  destruct (Hint b) as [y Hy]; [by eapply list_elem_of_lookup_2|].
  exists x, y. split; [done|]. split; [done|].
  apply increasingZ_sorted in Hinc.
  assert (Hta : List.map timestamp_of chain !! i = Some x).
  { change (List.map timestamp_of chain) with (timestamp_of <$> chain).
    rewrite list_lookup_fmap, Ha. cbn [fmap option_fmap option_map].
    unfold timestamp_of. by rewrite Hx. }
  assert (Htb : List.map timestamp_of chain !! j = Some y).
  { change (List.map timestamp_of chain) with (timestamp_of <$> chain).
    rewrite list_lookup_fmap, Hb. cbn [fmap option_fmap option_map].
    unfold timestamp_of. by rewrite Hy. }
  clear Ha Hb Hx Hy Hint.
  revert Hinc i j Hta Htb Hij. generalize (List.map timestamp_of chain).
  induction 1 as [|z l Hs IH Hz]; intros [|i] [|j] Hi Hj Hij;
    simpl in *; simplify_eq; try lia.
  - rewrite Forall_forall in Hz. apply Hz. by eapply list_elem_of_lookup_2.
  - apply (IH i j); [done|done|lia].
Qed.

Lemma hashes_collision_free_elem (chain : list dict) (a b : dict) :
  hashes_collision_free chain = true -> a ∈ chain -> b ∈ chain ->
  compute_event_hash a = compute_event_hash b ->
  canonical_json (dict_pop "signature" a) = canonical_json (dict_pop "signature" b).
Proof.
  unfold hashes_collision_free. rewrite forallb_forall.
  intros Hall Ha%list_elem_of_In Hb%list_elem_of_In Heq.
  specialize (Hall a Ha). rewrite forallb_forall in Hall.
  specialize (Hall b Hb). rewrite Heq, String.eqb_refl in Hall.
  by apply String.eqb_eq.
Qed.

(** C3. A chain of at least three records of one sender with strictly
    increasing timestamps, whose first record has no previous hash and whose
    later records carry the hash of their predecessor, verifies; once a middle
    record is removed it no longer does.  SHA-256 is taken not to collide on
    the records of the chain: two of them with the same record hash have the
    same canonical encoding. *)
Theorem deletion_detected (sender_id : string) (chain : list dict) :
  (3 <= List.length chain)%nat ->
  List.forallb wf_dict chain = true ->
  List.forallb (is_sender sender_id) chain = true ->
  increasing_int_timestamps chain = true ->
  chain_valid chain ->
  hashes_collision_free chain = true ->
  verify_hash_chain chain sender_id = Ok true
  /\ forall i : nat, (0 < i < List.length chain - 1)%nat ->
       verify_hash_chain (delete i chain) sender_id = Ok false.
Proof.
  intros Hlen Hwf Hsender Hinc Hvalid Hfree. split.
  - rewrite verify_hash_chain_increasing by done.
    f_equal. by apply verify_loop_None.
  - intros i Hi.
    rewrite verify_hash_chain_increasing
      by auto using forallb_delete, increasing_int_timestamps_delete.
    f_equal.
    destruct (lookup_lt_is_Some_2 chain (i - 1)) as [a Ha]; [lia|].
    destruct (lookup_lt_is_Some_2 chain i) as [x Hx]; [lia|].
    destruct (lookup_lt_is_Some_2 chain (S i)) as [b Hb]; [lia|].
    assert (Hxb : py_get "prev_event_hash" b = JStr (compute_event_hash x)).
    { by apply (proj2 Hvalid i). }
    assert (Hne : compute_event_hash x <> compute_event_hash a).
    { intros Heq.
      destruct (increasing_timestamps_lookup chain (i - 1) i a x)
        as (ta & tx & Hta & Htx & Hlt); [done|done|done|lia|].
      assert (Hax : a ∈ chain /\ x ∈ chain).
      { split; by eapply list_elem_of_lookup_2. }
      destruct Hax as [Hina Hinx].
      rewrite forallb_forall in Hwf.
      pose proof (hashes_collision_free_elem chain x a Hfree Hinx Hina Heq) as Hc.
      pose proof (canonical_json_timestamp x a tx ta
                    (Hwf x (proj1 (list_elem_of_In _ _) Hinx))
                    (Hwf a (proj1 (list_elem_of_In _ _) Hina)) Hc Htx Hta).
      lia. }
    rewrite delete_take_drop.
    rewrite verify_loop_app.
    assert (Hlast : last (take i chain) = Some a).
    { rewrite last_lookup, length_take, Nat.min_l by lia.
      rewrite lookup_take_lt by lia.
      by replace (Nat.pred i) with (i - 1)%nat by lia. }
    rewrite Hlast.
    assert (Hdrop : exists rest, drop (S i) chain = b :: rest).
    { exists (drop (S (S i)) chain). by apply drop_S in Hb. }
    destruct Hdrop as [rest ->]. simpl. rewrite Hxb. simpl.
    destruct (String.eqb_spec (compute_event_hash x) (compute_event_hash a));
      [done|]. simpl. apply andb_false_r.
Qed.

Lemma deletion_detected_witness :
  verify_hash_chain [m1; m2; m3] "alice" = Ok true
  /\ verify_hash_chain [m1; m3] "alice" = Ok false.
Proof.
  assert (Hv : chain_valid [m1; m2; m3]).
  { apply verify_loop_None. vm_compute. reflexivity. }
  destruct (deletion_detected "alice" [m1; m2; m3]) as [Hfull Hdel].
  - simpl. lia.
  - vm_compute. reflexivity.
  - vm_compute. reflexivity.
  - vm_compute. reflexivity.
  - exact Hv.
  - vm_compute. reflexivity.
  - split; [exact Hfull|]. apply (Hdel 1%nat). simpl. lia.
Defined.

(** * Further properties of the code *)

(** ** Signing and verifying *)

Lemma dict_pop_set_same (k : string) (v : json) (d : dict) :
  dict_pop k (dict_set k v d) = dict_pop k d.
Proof.
  induction d as [|[k' v'] d IH]; cbn [dict_set dict_pop].
  - by rewrite String.eqb_refl.
  - destruct (String.eqb k k') eqn:E; cbn [dict_pop]; rewrite E; [done|].
    by rewrite IH.
Qed.

Lemma dict_pop_idem (k : string) (d : dict) :
  dict_pop k (dict_pop k d) = dict_pop k d.
Proof.
  induction d as [|[k' v'] d IH]; cbn [dict_pop]; [done|].
  destruct (String.eqb k k') eqn:E; [done|]. cbn [dict_pop]. by rewrite E, IH.
Qed.

Lemma dict_set_get_other (k k' : string) (v : json) (d : dict) :
  k' <> k -> dict_get k' (dict_set k v d) = dict_get k' d.
Proof.
  intros Hne. induction d as [|[k0 v0] d IH]; cbn [dict_set dict_get].
  - by destruct (String.eqb_spec k' k).
  - destruct (String.eqb_spec k k0) as [->|Hk]; cbn [dict_get].
    + by destruct (String.eqb_spec k' k0).
    + by rewrite IH.
Qed.

Lemma sign_event_unfold `{CryptoLib} (d : dict) (kp : KeyPair) :
  sign_event d kp
  = dict_set "signature"
      (JStr (KeyPair_sign kp (encode_utf8 (canonical_json (dict_pop "signature" d)))))
      (dict_pop "signature" d).
Proof. reflexivity. Qed.

Lemma dict_pop_sign_event `{CryptoLib} (d : dict) (kp : KeyPair) :
  dict_pop "signature" (sign_event d kp) = dict_pop "signature" d.
Proof. by rewrite sign_event_unfold, dict_pop_set_same, dict_pop_idem. Qed.

Lemma py_get_sign_event `{CryptoLib} (k : string) (d : dict) (kp : KeyPair) :
  k <> "signature" -> py_get k (sign_event d kp) = py_get k d.
Proof.
  intros Hk. unfold py_get, dict_get_default.
  by rewrite sign_event_unfold, dict_set_get_other, dict_pop_get_other.
Qed.

Lemma compute_event_hash_sign_event `{CryptoLib} (d : dict) (kp : KeyPair) :
  compute_event_hash (sign_event d kp) = compute_event_hash d.
Proof.
  unfold compute_event_hash, dict_copy. by rewrite dict_pop_sign_event.
Qed.

Lemma b64_enc_nonempty (bs : list Z) : bs <> [] -> Base64.enc bs <> [].
Proof. destruct bs as [|a [|b [|c r]]]; done. Qed.

Lemma decode_ascii_nonempty (bs : list byte) :
  bs <> [] -> decode_ascii bs <> EmptyString.
Proof. destruct bs; done. Qed.

(** X1. An event signed by [sign_event] passes [verify_event_signature] under
    the public key of the signing key pair, and the signature that
    [KeyPair.sign] returns for the encoded event passes [KeyPair.verify],
    provided the library behaves on this signature: the key is 32 bytes long,
    the signature is not empty, [b64decode] undoes [b64encode] on it and
    Ed25519 accepts it. *)
Theorem signed_event_verifies `{CryptoLib} (event_dict : dict) (kp : KeyPair) :
  let data := encode_utf8 (canonical_json (dict_pop "signature" event_dict)) in
  let sig := ed25519_sign (private_key kp) data in
  List.length (public_key kp) = 32%nat ->
  sig <> [] ->
  b64decode (JStr (decode_ascii (Base64.b64encode sig))) = Ok sig ->
  ed25519_verify (public_key kp) sig data = true ->
  verify_event_signature (sign_event event_dict kp) (public_key_bytes kp) = true
  /\ KeyPair_verify kp data (JStr (KeyPair_sign kp data)) = true.
Proof.
  intros data sig Hlen Hne Hdec Hver.
  assert (Hsig : KeyPair_sign kp data = decode_ascii (Base64.b64encode sig))
    by reflexivity.
  split.
  - unfold verify_event_signature, dict_copy.
    rewrite dict_pop_sign_event. fold data.
    assert (Hget : py_get "signature" (sign_event event_dict kp)
                   = JStr (KeyPair_sign kp data)).
    { unfold py_get, dict_get_default.
      by rewrite sign_event_unfold, dict_set_get_same. }
    rewrite Hget, Hsig. cbn [py_truthy].
    destruct (String.eqb_spec (decode_ascii (Base64.b64encode sig)) EmptyString)
      as [He|_].
    + exfalso. revert He. apply decode_ascii_nonempty, b64_enc_nonempty.
      by destruct sig.
    + cbn [negb try_except_false]. unfold verify_signature_with_public_key,
        from_public_bytes, public_key_bytes, public_key_verify.
      rewrite Hlen, Nat.eqb_refl. cbn [mbind result_bind].
      rewrite Hdec. cbn [mbind result_bind]. by rewrite Hver.
  - unfold KeyPair_verify, public_key_verify. rewrite Hsig, Hdec.
    cbn [mbind result_bind]. by rewrite Hver.
Qed.

Lemma signed_event_verifies_witness :
  verify_event_signature (H := example_lib)
    (sign_event (H := example_lib) m1 {| private_key := List.repeat x01 32 |})
    (public_key_bytes (H := example_lib) {| private_key := List.repeat x01 32 |})
  = true.
Proof.
  apply (signed_event_verifies (H := example_lib) m1
           {| private_key := List.repeat x01 32 |});
    vm_compute; (reflexivity || discriminate).
Defined.

(** X2. Signing replaces whatever signature the event carried: signing an
    event that was signed before, with any key, gives what signing the
    original gives; and signing leaves the event hash as it was. *)
Theorem sign_event_replaces_signature `{CryptoLib}
    (event_dict : dict) (kp kp' : KeyPair) :
  sign_event (sign_event event_dict kp) kp' = sign_event event_dict kp'
  /\ compute_event_hash (sign_event event_dict kp) = compute_event_hash event_dict.
Proof.
  split; [|apply compute_event_hash_sign_event].
  rewrite (sign_event_unfold (sign_event event_dict kp)).
  by rewrite dict_pop_sign_event.
Qed.

(** ** The hash chain and the other functions *)

Lemma insert_sorted_exn_map {A : Type} (lt : A -> A -> result bool)
    (f : A -> A) (x : A) (l : list A) :
  (forall a b, lt (f a) (f b) = lt a b) ->
  insert_sorted_exn lt (f x) (List.map f l)
  = (r ← insert_sorted_exn lt x l; Ok (List.map f r)).
Proof.
  intros Hf. induction l as [|y l IH]; [done|].
  cbn [List.map insert_sorted_exn]. rewrite Hf.
  destruct (lt y x) as [[|]|]; cbn [mbind result_bind]; [|done..].
  rewrite IH. by destruct (insert_sorted_exn lt x l).
Qed.

Lemma py_sorted_exn_map {A : Type} (lt : A -> A -> result bool)
    (f : A -> A) (l : list A) :
  (forall a b, lt (f a) (f b) = lt a b) ->
  py_sorted_exn lt (List.map f l)
  = (r ← py_sorted_exn lt l; Ok (List.map f r)).
Proof.
  intros Hf. induction l as [|x l IH]; [done|].
  cbn [List.map py_sorted_exn]. rewrite IH.
  destruct (py_sorted_exn lt l) as [r|]; cbn [mbind result_bind]; [|done].
  by apply insert_sorted_exn_map.
Qed.

Lemma filter_map_commute {A : Type} (p : A -> bool) (f : A -> A) (l : list A) :
  (forall a, p (f a) = p a) ->
  List.filter p (List.map f l) = List.map f (List.filter p l).
Proof.
  intros Hp. induction l as [|x l IH]; [done|].
  cbn [List.map List.filter]. rewrite Hp.
  destruct (p x); cbn [List.map]; by rewrite IH.
Qed.

Lemma verify_loop_map (f : dict -> dict) (p : option string) (l : list dict) :
  (forall e, py_get "prev_event_hash" (f e) = py_get "prev_event_hash" e) ->
  (forall e, compute_event_hash (f e) = compute_event_hash e) ->
  verify_loop p (List.map f l) = verify_loop p l.
Proof.
  intros Hprev Hhash. revert p.
  induction l as [|e l IH]; intros p; [done|].
  cbn [List.map verify_loop]. by rewrite Hprev, Hhash, IH.
Qed.

(** X3. The hash chain does not look at signatures: signing the records, with
    any key, changes neither the answer of [verify_hash_chain] nor the hashes
    [build_hash_chain] returns. *)
Theorem hash_chain_ignores_signing `{CryptoLib}
    (events : list dict) (sender_id : string) (kp : KeyPair) :
  let signed := List.map (fun e => sign_event e kp) events in
  verify_hash_chain signed sender_id = verify_hash_chain events sender_id
  /\ build_hash_chain signed sender_id = build_hash_chain events sender_id.
Proof.
  intros signed. unfold signed, verify_hash_chain, build_hash_chain.
  rewrite filter_map_commute
    by (intros e; unfold is_sender; by rewrite py_get_sign_event).
  rewrite py_sorted_exn_map
    by (intros a b; unfold timestamp_lt, timestamp_key;
        change (dict_get_default "timestamp_ms" (JInt 0)) with
          (fun d => dict_get_default "timestamp_ms" (JInt 0) d);
        unfold dict_get_default;
        by rewrite !sign_event_unfold, !dict_set_get_other, !dict_pop_get_other).
  destruct (py_sorted_exn timestamp_lt (List.filter (is_sender sender_id) events))
    as [sorted|]; cbn [mbind result_bind]; [|done].
  split.
  - rewrite verify_loop_map.
    + by destruct sorted.
    + intros e. by apply py_get_sign_event.
    + intros e. apply compute_event_hash_sign_event.
  - f_equal. rewrite List.map_map. apply List.map_ext.
    intros e. apply compute_event_hash_sign_event.
Qed.

Lemma increasingZ_app (l1 l2 : list Z) :
  increasingZ (l1 ++ l2) = true -> increasingZ l1 = true /\ increasingZ l2 = true.
Proof.
  induction l1 as [|x [|y l1] IH]; cbn [app]; [done| |].
  - intros Hi. split; [done|]. destruct l2 as [|z l2]; [done|].
    cbn [increasingZ] in Hi. by apply andb_true_iff in Hi as [_ Hi].
  - cbn [increasingZ]. intros [Hxy Hi]%andb_true_iff.
    destruct (IH Hi) as [H1 H2]. split; [|done].
    apply andb_true_iff. by split.
Qed.

Lemma increasing_int_timestamps_app (l1 l2 : list dict) :
  increasing_int_timestamps (l1 ++ l2) = true ->
  increasing_int_timestamps l1 = true /\ increasing_int_timestamps l2 = true.
Proof.
  unfold increasing_int_timestamps, all_int_timestamps.
  rewrite List.map_app, List.forallb_app.
  intros [[H1 H2]%andb_true_iff [H3 H4]%increasingZ_app]%andb_true_iff.
  by rewrite H1, H2, H3, H4.
Qed.

(** X4. Appending a record to a chain of one sender that verifies, with a
    timestamp after all others: the longer chain verifies exactly when the new
    record carries the hash of the last record, or no previous hash when it is
    the first. *)
Theorem verify_hash_chain_extend
    (sender_id : string) (chain : list dict) (e : dict) :
  List.forallb (is_sender sender_id) (chain ++ [e]) = true ->
  increasing_int_timestamps (chain ++ [e]) = true ->
  verify_hash_chain chain sender_id = Ok true ->
  verify_hash_chain (chain ++ [e]) sender_id
  = Ok (match last chain with
        | Some l => py_eq_str (py_get "prev_event_hash" e) (compute_event_hash l)
        | None => is_None (py_get "prev_event_hash" e)
        end).
Proof.
  intros Hs Hinc Hv.
  pose proof Hs as Hs'. rewrite List.forallb_app in Hs'.
  apply andb_true_iff in Hs' as [Hsc _].
  destruct (increasing_int_timestamps_app _ _ Hinc) as [Hic _].
  rewrite verify_hash_chain_increasing in Hv by done.
  rewrite verify_hash_chain_increasing by done.
  rewrite verify_loop_app. injection Hv as ->. cbn [andb verify_loop].
  f_equal. destruct (last chain) as [l|].
  - by destruct (py_eq_str _ _).
  - by destruct (is_None _).
Qed.

Lemma verify_hash_chain_extend_witness :
  verify_hash_chain ([m1; m2] ++ [m3]) "alice" = Ok true.
Proof.
  rewrite (verify_hash_chain_extend "alice" [m1; m2] m3);
    vm_compute; reflexivity.
Defined.

(** X5. Cutting the end off a chain that verifies is not noticed, cutting the
    beginning off is: every prefix of the chain verifies, and what is left
    after dropping one or more records from the front, but not all, does
    not. *)
Theorem verify_hash_chain_truncation
    (sender_id : string) (chain : list dict) (n : nat) :
  List.forallb (is_sender sender_id) chain = true ->
  increasing_int_timestamps chain = true ->
  verify_hash_chain chain sender_id = Ok true ->
  verify_hash_chain (take n chain) sender_id = Ok true
  /\ ((0 < n < List.length chain)%nat ->
      verify_hash_chain (drop n chain) sender_id = Ok false).
Proof.
  intros Hs Hinc Hv.
  rewrite verify_hash_chain_increasing in Hv by done. injection Hv as Hv.
  rewrite <- (take_drop n chain) in Hs, Hinc, Hv.
  rewrite List.forallb_app in Hs. apply andb_true_iff in Hs as [Hs1 Hs2].
  destruct (increasing_int_timestamps_app _ _ Hinc) as [Hi1 Hi2].
  rewrite verify_loop_app in Hv. apply andb_true_iff in Hv as [Hv1 Hv2].
  split.
  - rewrite verify_hash_chain_increasing by done. by rewrite Hv1.
  - intros [Hn0 Hn]. rewrite verify_hash_chain_increasing by done. f_equal.
    destruct (last (take n chain)) as [l|] eqn:El.
    + destruct (drop n chain) as [|e rest] eqn:Ed.
      * apply (f_equal List.length) in Ed. rewrite length_drop in Ed.
        cbn in Ed. lia.
      * cbn [verify_loop] in Hv2 |- *.
        destruct (py_eq_str (py_get "prev_event_hash" e) (compute_event_hash l))
          eqn:Ee; [|done].
        apply py_eq_str_true in Ee. by rewrite Ee.
    + apply last_None in El. apply (f_equal List.length) in El.
      rewrite length_take in El. cbn in El. lia.
Qed.

Lemma verify_hash_chain_truncation_witness :
  verify_hash_chain (take 2 [m1; m2; m3]) "alice" = Ok true
  /\ verify_hash_chain (drop 1 [m1; m2; m3]) "alice" = Ok false.
Proof.
  split.
  - apply (verify_hash_chain_truncation "alice" [m1; m2; m3] 2);
      vm_compute; reflexivity.
  - apply (verify_hash_chain_truncation "alice" [m1; m2; m3] 1);
      [vm_compute; reflexivity..|cbn; lia].
Defined.

(** *** Timestamps that cannot be compared *)

Lemma py_lt_TypeError (a b : json) (x : exn) :
  py_lt a b = Raise x -> x = TypeError.
Proof.
  revert b. induction a as [ | | | |l IH| ] using json_ind'; intros b';
    destruct b' as [ |c|m|t|l0|d0]; cbn [py_lt py_num]; try congruence;
    try (destruct c; congruence).
  revert l0. induction IH as [|y l Hy Hl IHl]; intros [|z m]; try congruence.
  destruct (py_eq y z); [apply IHl | apply Hy].
Qed.

Lemma py_lt_Ok_kind (a b : json) (r : bool) :
  py_lt a b = Ok r -> kind_of a = kind_of b.
Proof. destruct a, b; cbn [py_lt py_num kind_of]; congruence. Qed.

Lemma timestamp_lt_TypeError (a b : dict) (x : exn) :
  timestamp_lt a b = Raise x -> x = TypeError.
Proof. apply py_lt_TypeError. Qed.

Lemma insert_sorted_exn_TypeError (e : dict) (l : list dict) (x : exn) :
  insert_sorted_exn timestamp_lt e l = Raise x -> x = TypeError.
Proof.
  induction l as [|y l IH]; cbn [insert_sorted_exn]; [done|].
  destruct (timestamp_lt y e) as [[|]|x'] eqn:E; cbn [mbind result_bind].
  - destruct (insert_sorted_exn timestamp_lt e l); [done|].
    intros [= <-]. by apply IH.
  - done.
  - intros [= <-]. by apply timestamp_lt_TypeError in E.
Qed.

Lemma py_sorted_exn_TypeError (l : list dict) (x : exn) :
  py_sorted_exn timestamp_lt l = Raise x -> x = TypeError.
Proof.
  induction l as [|e l IH]; cbn [py_sorted_exn]; [done|].
  destruct (py_sorted_exn timestamp_lt l) as [r|x']; cbn [mbind result_bind].
  - apply insert_sorted_exn_TypeError.
  - intros [= <-]. by apply IH.
Qed.

(** A sort that succeeds has compared keys of one kind only. *)
Lemma py_sorted_exn_one_kind (l r : list dict) :
  py_sorted_exn timestamp_lt l = Ok r ->
  forall a b, a ∈ l -> b ∈ l ->
    kind_of (timestamp_key a) = kind_of (timestamp_key b).
Proof.
  revert r. induction l as [|e l IH]; intros r; [by intros _ a b ?%elem_of_nil|].
  cbn [py_sorted_exn].
  destruct (py_sorted_exn timestamp_lt l) as [r'|] eqn:Hr';
    cbn [mbind result_bind]; [|done].
  intros Hins.
  assert (He : forall c, c ∈ l ->
            kind_of (timestamp_key c) = kind_of (timestamp_key e)).
  { intros c Hc. destruct r' as [|y r''].
    - apply py_sorted_exn_perm in Hr'. apply Permutation_nil in Hr'.
      subst l. by apply elem_of_nil in Hc.
    - cbn [insert_sorted_exn] in Hins.
      destruct (timestamp_lt y e) as [b|] eqn:Hye; [|done].
      apply py_lt_Ok_kind in Hye.
      assert (Hy : y ∈ l).
      { apply py_sorted_exn_perm in Hr'. rewrite <- Hr'. left. }
      rewrite <- Hye. by apply (IH _ eq_refl). }
  intros a b [->|Ha]%elem_of_cons [->|Hb]%elem_of_cons.
  - done.
  - symmetry. by apply He.
  - by apply He.
  - by apply (IH _ eq_refl).
Qed.

(** X6. Unlike the verification of signatures, the verification of the chain
    lets the errors of the sort escape: when one record of the sender carries
    an integer timestamp, or none, and another carries a text, both
    [verify_hash_chain] and [build_hash_chain] raise a [TypeError]. *)
Theorem hash_chain_mixed_timestamps
    (events : list dict) (sender_id : string) (a b : dict) (n : Z) (s : string) :
  a ∈ events -> b ∈ events ->
  is_sender sender_id a = true -> is_sender sender_id b = true ->
  timestamp_key a = JInt n -> timestamp_key b = JStr s ->
  verify_hash_chain events sender_id = Raise TypeError
  /\ build_hash_chain events sender_id = Raise TypeError.
Proof.
  intros Ha Hb Hsa Hsb Hta Htb.
  unfold verify_hash_chain, build_hash_chain.
  destruct (py_sorted_exn timestamp_lt (List.filter (is_sender sender_id) events))
    as [r|x] eqn:Hsort.
  - exfalso.
    assert (Hk : kind_of (timestamp_key a) = kind_of (timestamp_key b)).
    { apply (py_sorted_exn_one_kind _ _ Hsort);
        apply list_elem_of_In, filter_In; split;
        (by apply list_elem_of_In) || done. }
    by rewrite Hta, Htb in Hk.
  - apply py_sorted_exn_TypeError in Hsort as ->. done.
Qed.

Lemma hash_chain_mixed_timestamps_witness :
  verify_hash_chain
    [m1; dict_set "timestamp_ms" (JStr "1001") m2] "alice" = Raise TypeError.
Proof.
  apply (hash_chain_mixed_timestamps
           [m1; dict_set "timestamp_ms" (JStr "1001") m2] "alice"
           m1 (dict_set "timestamp_ms" (JStr "1001") m2) 1000 "1001");
    try (vm_compute; reflexivity).
  - left.
  - right. left.
Defined.



(** *** Changing a record of a chain *)

Lemma dict_set_keys (k : string) (v : json) (d : dict) :
  List.map fst (dict_set k v d)
  = if dict_contains k d then List.map fst d else List.map fst d ++ [k].
Proof.
  unfold dict_contains. induction d as [|[k' v'] d IH]; [done|].
  cbn [dict_set dict_get]. destruct (String.eqb_spec k k') as [->|Hne]; [done|].
  cbn [List.map fst]. rewrite IH. by destruct (dict_get k d).
Qed.

Lemma dict_set_elem (k : string) (v : json) (d : dict) (kv : string * json) :
  kv ∈ dict_set k v d -> kv = (k, v) \/ kv ∈ d.
Proof.
  induction d as [|[k' v'] d IH]; cbn [dict_set].
  - intros ->%list_elem_of_singleton. by left.
  - destruct (String.eqb_spec k k') as [->|Hne].
    + intros [->|Hin]%elem_of_cons; [by left | right; by right].
    + intros [->|Hin]%elem_of_cons; [right; left|].
      destruct (IH Hin); [by left | right; by right].
Qed.

Lemma wf_dict_set (k : string) (v : json) (d : dict) :
  wf_dict d = true -> wf_json v = true -> wf_dict (dict_set k v d) = true.
Proof.
  intros Hwf Hv. unfold wf_dict. cbn [wf_json]. apply andb_true_iff. split.
  - apply nodupb_NoDup. rewrite dict_set_keys. unfold dict_contains.
    destruct (dict_get k d) as [w|] eqn:Hg; [by apply wf_dict_NoDup|].
    apply NoDup_app. split; [by apply wf_dict_NoDup|]. split.
    + intros x Hx ->%list_elem_of_singleton.
      apply list_elem_of_In, in_map_iff in Hx as ([k' w] & Hk & Hin).
      cbn in Hk. subst k'.
      apply list_elem_of_In, (dict_get_elem _ _ _ (wf_dict_NoDup d Hwf)) in Hin.
      congruence.
    + apply NoDup_singleton.
  - apply forallb_forall. intros kv Hin%list_elem_of_In.
    apply dict_set_elem in Hin as [->|Hin]; [done|].
    by apply (wf_dict_value d).
Qed.

(** A field that takes another value changes the canonical encoding. *)
Lemma canonical_json_dict_set (k : string) (v' : json) (e : dict) :
  wf_dict e = true -> wf_json v' = true -> k <> "signature" ->
  sort_keys <$> dict_get k e <> Some (sort_keys v') ->
  canonical_json (dict_pop "signature" (dict_set k v' e))
  <> canonical_json (dict_pop "signature" e).
Proof.
  intros Hwf Hv Hk Hdiff Hcanon.
  pose proof (wf_dict_set k v' e Hwf Hv) as Hwf'.
  apply (wf_dict_pop "signature") in Hwf, Hwf'.
  apply dumps_canonical_inj in Hcanon; [|done..].
  cbn [sort_keys] in Hcanon. injection Hcanon as Hsorted.
  apply Hdiff.
  rewrite <- (dict_pop_get_other "signature" k e) by done.
  rewrite <- dict_get_sorted_entries by by apply wf_dict_NoDup.
  unfold sorted_entries. rewrite <- Hsorted.
  fold (sorted_entries (dict_pop "signature" (dict_set k v' e))).
  rewrite dict_get_sorted_entries by by apply wf_dict_NoDup.
  by rewrite dict_pop_get_other, dict_set_get_same.
Qed.

Lemma list_map_insert_same {A B : Type} (f : A -> B) (l : list A) (i : nat)
    (x y : A) :
  l !! i = Some x -> f y = f x -> List.map f (<[i := y]> l) = List.map f l.
Proof.
  revert i. induction l as [|z l IH]; intros [|i] Hi Hf; try done.
  - cbn in Hi. injection Hi as ->. cbn. by rewrite Hf.
  - cbn in Hi. change (<[S i := y]> (z :: l)) with (z :: <[i := y]> l).
    cbn [List.map]. by rewrite (IH i).
Qed.

Lemma forallb_insert_same {A : Type} (f : A -> bool) (l : list A) (i : nat)
    (y : A) :
  List.forallb f l = true -> f y = true -> List.forallb f (<[i := y]> l) = true.
Proof.
  revert i. induction l as [|z l IH]; intros [|i] Hl Hy; try done.
  - cbn in Hl |- *. apply andb_true_iff in Hl as [_ Hl]. by rewrite Hy.
  - change (<[S i := y]> (z :: l)) with (z :: <[i := y]> l).
    cbn [List.forallb] in Hl |- *. apply andb_true_iff in Hl as [-> Hl].
    by apply IH.
Qed.

(** X8. Changing a field of a record that is not the last of its chain is
    noticed.  In a chain of one sender that verifies, give a field other than
    the signature, the sender and the timestamp of such a record another
    value: the chain no longer verifies, as long as SHA-256 does not take the
    record and its changed version to the same hash. *)
Theorem tampering_detected
    (sender_id : string) (chain : list dict) (i : nat) (e : dict)
    (k : string) (v' : json) :
  List.forallb (is_sender sender_id) chain = true ->
  increasing_int_timestamps chain = true ->
  verify_hash_chain chain sender_id = Ok true ->
  chain !! i = Some e -> (S i < List.length chain)%nat ->
  wf_dict e = true -> wf_json v' = true ->
  k <> "signature" -> k <> "sender_id" -> k <> "timestamp_ms" ->
  sort_keys <$> dict_get k e <> Some (sort_keys v') ->
  hashes_collision_free [e; dict_set k v' e] = true ->
  verify_hash_chain (<[i := dict_set k v' e]> chain) sender_id = Ok false.
Proof.
  intros Hs Hinc Hv He Hi Hwf Hwv Hk1 Hk2 Hk3 Hdiff Hfree.
  set (e' := dict_set k v' e).
  assert (Hts : timestamp_key e' = timestamp_key e).
  { unfold timestamp_key, dict_get_default, e'. by rewrite dict_set_get_other. }
  assert (Hse : is_sender sender_id e' = true).
  { unfold is_sender, py_get, dict_get_default, e'.
    rewrite dict_set_get_other by done.
    rewrite forallb_forall in Hs. apply (Hs e).
    apply list_elem_of_In. by eapply list_elem_of_lookup_2. }
  assert (Hne : compute_event_hash e <> compute_event_hash e').
  { intros Heq.
    apply (canonical_json_dict_set k v' e Hwf Hwv Hk1 Hdiff). symmetry.
    apply (hashes_collision_free_elem [e; e'] e e' Hfree); [left|right; left|done]. }
  rewrite verify_hash_chain_increasing in Hv by done. injection Hv as Hv.
  apply verify_loop_None in Hv as [_ Hlinks].
  destruct (lookup_lt_is_Some_2 chain (S i)) as [b Hb]; [lia|].
  pose proof (Hlinks i e b He Hb) as Hprev.
  rewrite verify_hash_chain_increasing.
  - f_equal. apply not_true_iff_false. intros Hv'.
    apply verify_loop_None in Hv' as [_ Hlinks'].
    specialize (Hlinks' i e' b).
    rewrite list_lookup_insert_eq in Hlinks' by lia.
    rewrite list_lookup_insert_ne in Hlinks' by lia.
    specialize (Hlinks' eq_refl Hb). congruence.
  - by apply forallb_insert_same.
  - unfold increasing_int_timestamps, all_int_timestamps in *.
    apply andb_true_iff in Hinc as [Hint Hincr]. apply andb_true_iff. split.
    + apply forallb_insert_same; [done|].
      unfold int_timestamp. rewrite Hts.
      rewrite forallb_forall in Hint. apply (Hint e).
      apply list_elem_of_In. by eapply list_elem_of_lookup_2.
    + rewrite (list_map_insert_same timestamp_of chain i e e'); [done|done|].
      unfold timestamp_of, int_timestamp. by rewrite Hts.
Qed.

Lemma tampering_detected_witness :
  verify_hash_chain
    (<[1%nat := dict_set "room_id" (JStr "elsewhere") m2]> [m1; m2; m3]) "alice"
  = Ok false.
Proof.
  apply (tampering_detected "alice" [m1; m2; m3] 1 m2 "room_id" (JStr "elsewhere"));
    try (vm_compute; reflexivity); discriminate.
Defined.

(** ** Event identifiers and the factory functions *)

Lemma prefix2_cons (c : ascii) (s : string) :
  String.prefix "::" (String c s)
  = Ascii.eqb c ":" && String.prefix ":" s.
Proof.
  cbn [String.prefix]. destruct (Ascii.ascii_dec ":" c) as [<-|Hne].
  - by destruct s.
  - destruct (Ascii.eqb_spec c ":"); [congruence | done].
Qed.

Lemma prefix1_cons (c : ascii) (s : string) :
  String.prefix ":" (String c s) = Ascii.eqb c ":".
Proof.
  cbn [String.prefix]. destruct (Ascii.ascii_dec ":" c) as [<-|Hne];
    [by destruct s|].
  destruct (Ascii.eqb_spec c ":"); [congruence | done].
Qed.

Lemma str_contains_cons (sub : string) (c : ascii) (s : string) :
  str_contains sub (String c s)
  = String.prefix sub (String c s) || str_contains sub s.
Proof. reflexivity. Qed.

Lemma split_from_length_cur (sep s : string) (k : nat) (cur cur' : string) :
  List.length (split_from sep s k cur) = List.length (split_from sep s k cur').
Proof.
  revert k cur cur'. induction s as [|c s IH]; intros k cur cur'; [done|].
  destruct k as [|k]; [|apply IH].
  rewrite !split_from_cons. destruct (String.prefix sep (String c s)).
  - done.
  - apply IH.
Qed.

Lemma count_parts_cur (s : string) (k : nat) (cur : string) :
  List.length (split_from "::" s k cur) = count_parts s k.
Proof. apply split_from_length_cur. Qed.

Lemma count_parts_skip (c : ascii) (s : string) (k : nat) :
  count_parts (String c s) (S k) = count_parts s k.
Proof. reflexivity. Qed.

Lemma count_parts_cons (c : ascii) (s : string) :
  count_parts (String c s) 0
  = if String.prefix "::" (String c s) then S (count_parts s 1)
    else count_parts s 0.
Proof.
  unfold count_parts at 1. rewrite split_from_cons.
  destruct (String.prefix "::" (String c s)).
  - cbn [List.length]. f_equal.
  - apply count_parts_cur.
Qed.

Lemma prefix1_app (s t : string) :
  String.prefix ":" (s +:+ String ":" t)
  = match s with
    | EmptyString => true
    | String c _ => Ascii.eqb c ":"
    end.
Proof.
  destruct s as [|c s].
  - by rewrite string_app_nil_l, prefix1_cons.
  - by rewrite string_app_cons, prefix1_cons.
Qed.

(** After a separator, in a text whose continuation does not start with a
    colon, the parts of the continuation are counted on their own. *)
Lemma count_parts_app (room rest : string) (k : nat) :
  (k <= 1)%nat -> String.prefix ":" rest = false ->
  (count_parts (room +:+ String ":" (String ":" rest)) k + 1
   = count_parts (room +:+ "::") k + count_parts rest 0)%nat.
Proof.
  intros Hk Hrest. revert k Hk. induction room as [|c room IH]; intros k Hk.
  - rewrite !string_app_nil_l. destruct k as [|[|k]]; [| |lia].
    + rewrite count_parts_cons, prefix2_cons, prefix1_cons, count_parts_skip.
      change (count_parts "::" 0) with 2%nat. cbn [Ascii.eqb Bool.eqb andb].
      lia.
    + rewrite count_parts_skip.
      rewrite count_parts_cons, prefix2_cons, Hrest, andb_false_r.
      change (count_parts "::" 1) with 1%nat. lia.
  - rewrite !string_app_cons. destruct k as [|[|k]]; [| |lia].
    + rewrite !count_parts_cons, !prefix2_cons, !prefix1_app.
      destruct (Ascii.eqb c ":" && match room with
                                   | EmptyString => true
                                   | String c0 _ => Ascii.eqb c0 ":"
                                   end).
      * specialize (IH 1%nat). lia.
      * apply IH. lia.
    + rewrite !count_parts_skip. apply IH. lia.
Qed.

Lemma count_parts_sep_ge (s : string) :
  (2 <= count_parts (s +:+ "::") 0)%nat /\ (1 <= count_parts (s +:+ "::") 1)%nat.
Proof.
  induction s as [|c s [IH0 IH1]]; [split; vm_compute; lia|].
  rewrite string_app_cons, count_parts_cons, count_parts_skip.
  destruct (String.prefix "::" (String c (s +:+ "::"))); lia.
Qed.

Lemma prefix2_app_any (s t : string) :
  String.prefix "::" s = true -> String.prefix "::" (s +:+ t) = true.
Proof.
  destruct s as [|c [|c' s]]; [done| |].
  - by rewrite prefix2_cons, andb_false_r.
  - rewrite !string_app_cons, !prefix2_cons, !prefix1_cons. done.
Qed.

(** A text followed by a separator splits in two exactly when it holds no
    separator itself. *)
Lemma count_parts_sep (room : string) :
  count_parts (room +:+ "::") 0 = 2%nat <-> str_contains "::" room = false.
Proof.
  induction room as [|c room IH]; [done|].
  rewrite string_app_cons, count_parts_cons, str_contains_cons.
  destruct (String.prefix "::" (String c (room +:+ "::"))) eqn:Hp.
  - rewrite prefix2_cons in Hp. apply andb_true_iff in Hp as [Hc Hp].
    destruct room as [|c' room].
    + rewrite prefix2_cons. cbn [String.prefix]. rewrite andb_false_r.
      split; done.
    + rewrite string_app_cons, prefix1_cons in Hp.
      rewrite string_app_cons, count_parts_skip.
      rewrite prefix2_cons, prefix1_cons, Hc, Hp. cbn [andb orb].
      pose proof (count_parts_sep_ge room) as [H2 _]. split; [lia | done].
  - destruct (String.prefix "::" (String c room)) eqn:Hp'.
    + apply (prefix2_app_any _ "::") in Hp'.
      rewrite string_app_cons in Hp'. congruence.
    + cbn [orb]. exact IH.
Qed.

Lemma count_parts_none (s : string) :
  str_contains "::" s = false -> count_parts s 0 = 1%nat.
Proof.
  induction s as [|c s IH]; [done|].
  rewrite str_contains_cons. intros [Hp Hs]%orb_false_iff.
  rewrite count_parts_cons, Hp. by apply IH.
Qed.

Lemma str_contains_sep_colon (s : string) :
  str_contains ":" s = false ->
  String.prefix ":" s = false /\ str_contains "::" s = false.
Proof.
  induction s as [|c s IH]; [done|].
  rewrite !str_contains_cons. intros [Hp Hs]%orb_false_iff.
  split; [done|]. rewrite prefix2_cons.
  rewrite prefix1_cons in Hp. rewrite Hp. by apply IH.
Qed.

Lemma str_contains_app_Z (s : string) :
  str_contains "::" (s +:+ "Z") = str_contains "::" s.
Proof.
  induction s as [|c s IH]; [done|].
  rewrite string_app_cons, !str_contains_cons, IH. f_equal.
  rewrite !prefix2_cons. destruct s as [|c' s].
  - change (String.prefix ":" (EmptyString +:+ "Z")) with false.
    by change (String.prefix ":" EmptyString) with false.
  - by rewrite string_app_cons, !prefix1_cons.
Qed.

Lemma str_contains_app_sep (s t : string) :
  str_contains "::" (s +:+ String ":" (String ":" t)) = true.
Proof.
  induction s as [|c s IH];
    [by rewrite string_app_nil_l, str_contains_cons, prefix2_cons, prefix1_cons|].
  by rewrite string_app_cons, str_contains_cons, IH, orb_true_r.
Qed.

Lemma count_parts_event_id (room_id iso unique_id : string) :
  String.prefix ":" iso = false ->
  str_contains "::" iso = false ->
  str_contains ":" unique_id = false ->
  count_parts (room_id +:+ "::" +:+ (iso +:+ "Z") +:+ "::" +:+ unique_id) 0
  = S (count_parts (room_id +:+ "::") 0).
Proof.
  intros Hiso1 Hiso2 [Hu1 Hu2]%str_contains_sep_colon.
  set (stamp := iso +:+ "Z").
  assert (Hrest : count_parts (stamp +:+ "::" +:+ unique_id) 0 = 2%nat).
  { pose proof (count_parts_app stamp unique_id 0 (Nat.le_0_l _) Hu1) as Hc.
    change (stamp +:+ "::" +:+ unique_id)
      with (stamp +:+ String ":" (String ":" unique_id)).
    assert (Hs : count_parts (stamp +:+ "::") 0 = 2%nat).
    { apply count_parts_sep. unfold stamp. by rewrite str_contains_app_Z. }
    rewrite Hs, (count_parts_none unique_id Hu2) in Hc. lia. }
  assert (Hstart : String.prefix ":" (stamp +:+ "::" +:+ unique_id) = false).
  { unfold stamp. destruct iso as [|c iso]; [done|].
    rewrite !string_app_cons, prefix1_cons. by rewrite prefix1_cons in Hiso1. }
  pose proof (count_parts_app room_id _ 0 (Nat.le_0_l _) Hstart) as Hc.
  change (room_id +:+ "::" +:+ stamp +:+ "::" +:+ unique_id)
    with (room_id +:+ String ":" (String ":" (stamp +:+ "::" +:+ unique_id))).
  rewrite Hrest in Hc. lia.
Qed.

Lemma generate_event_id_parts
    (isoformat : Z -> string) (unique_id room_id : string) (ts : Z) :
  String.prefix ":" (isoformat ts) = false ->
  str_contains "::" (isoformat ts) = false ->
  str_contains ":" unique_id = false ->
  let v := generate_event_id isoformat unique_id room_id ts in
  str_contains "::" v = true
  /\ (List.length (str_split "::" v) = 3%nat <-> str_contains "::" room_id = false).
Proof.
  intros Hiso1 Hiso2 Hu v. split.
  - unfold v, generate_event_id.
    change (room_id +:+ "::" +:+ (isoformat ts +:+ "Z") +:+ "::" +:+ unique_id)
      with (room_id +:+ String ":" (String ":"
              ((isoformat ts +:+ "Z") +:+ "::" +:+ unique_id))).
    apply str_contains_app_sep.
  - unfold str_split. rewrite count_parts_cur.
    unfold v, generate_event_id. rewrite count_parts_event_id by done.
    rewrite <- count_parts_sep. lia.
Qed.

(** X9. The identifiers [generate_event_id] makes pass [validate_event_id]
    exactly for the rooms whose name holds no ['::']: for every other room
    each identifier made is refused.  The time is taken to be written without
    two colons in a row and not to start with one, the UUID without colon. *)
Theorem generate_event_id_valid
    (isoformat : Z -> string) (unique_id room_id : string) (ts : Z) :
  String.prefix ":" (isoformat ts) = false ->
  str_contains "::" (isoformat ts) = false ->
  str_contains ":" unique_id = false ->
  validate_event_id (generate_event_id isoformat unique_id room_id ts) []
  = if str_contains "::" room_id then Raise ValueError
    else Ok (generate_event_id isoformat unique_id room_id ts).
Proof.
  intros Hiso1 Hiso2 Hu.
  destruct (generate_event_id_parts isoformat unique_id room_id ts Hiso1 Hiso2 Hu)
    as [Hc Hn].
  unfold validate_event_id. rewrite Hc. cbn [negb].
  destruct (str_contains "::" room_id) eqn:Hroom.
  - destruct (Nat.eqb_spec
                (List.length
                   (str_split "::"
                      (generate_event_id isoformat unique_id room_id ts))) 3)
      as [He|]; [|done].
    apply Hn in He. congruence.
  - by rewrite (proj2 Hn eq_refl).
Qed.

Lemma generate_event_id_valid_witness :
  validate_event_id
    (generate_event_id (fun _ => "2025-09-14T12:30:45.123000")
       "123e4567-e89b-12d3-a456-426614174000" "general" 1757853045123) []
  = Ok "general::2025-09-14T12:30:45.123000Z::123e4567-e89b-12d3-a456-426614174000"
  /\ validate_event_id
       (generate_event_id (fun _ => "2025-09-14T12:30:45.123000")
          "123e4567-e89b-12d3-a456-426614174000" "dept::team" 1757853045123) []
     = Raise ValueError.
Proof.
  split.
  - by rewrite (generate_event_id_valid (fun _ => "2025-09-14T12:30:45.123000")
                  "123e4567-e89b-12d3-a456-426614174000" "general").
  - by rewrite (generate_event_id_valid (fun _ => "2025-09-14T12:30:45.123000")
                  "123e4567-e89b-12d3-a456-426614174000" "dept::team").
Defined.

(** ** What validation looks at *)

Lemma field_str_Some (name : string) (data : dict) (s : string) :
  dict_get name data = Some (JStr s) <-> field_str name data = Ok s.
Proof.
  unfold field_str.
  destruct (dict_get name data) as [[ | | |t| | ]|]; split; congruence.
Qed.

Lemma field_int_Some (name : string) (data : dict) (n : Z) :
  dict_get name data = Some (JInt n) <-> field_int name data = Ok n.
Proof.
  unfold field_int.
  destruct (dict_get name data) as [[ | |m| | | ]|]; split; congruence.
Qed.

Lemma field_dict_Some (name : string) (data : dict) (c : dict) :
  dict_get name data = Some (JDict c) <-> field_dict name data = Ok c.
Proof.
  unfold field_dict.
  destruct (dict_get name data) as [[ | | | | |c']|]; split; congruence.
Qed.

Lemma model_validate_Ok_iff (now_ms : Z) (data : dict) (e : Event) :
  model_validate now_ms data = Ok e <-> validates_as now_ms data e.
Proof.
  unfold validates_as. split.
  - intros Hv.
    pose proof (model_validate_Ok_inv _ _ _ Hv)
      as (Hid & Hparts & Hroom & Hts & Hrange & Hty & Hin).
    pose proof (model_validate_Ok_content _ _ _ Hv) as [Hc Hcontent].
    repeat (split; [done|]).
    revert Hv. unfold model_validate.
    rewrite (proj1 (field_str_Some _ _ _) Hid), (proj1 (field_str_Some _ _ _) Hroom),
      (proj1 (field_int_Some _ _ _) Hts), (proj1 (field_str_Some _ _ _) Hty),
      (proj1 (field_dict_Some _ _ _) Hcontent).
    cbn [mbind result_bind]. rewrite validate_event_id_first by done.
    cbn [mbind result_bind as_validation_error].
    rewrite validate_timestamp_Ok by done.
    cbn [mbind result_bind as_validation_error].
    destruct (field_str "sender_id" data) as [sid|] eqn:Hsid;
      cbn [mbind result_bind]; [|done].
    rewrite validate_event_type_Ok by done.
    cbn [mbind result_bind as_validation_error].
    destruct (field_optional_str "parent_event_id" data) as [par|];
      cbn [mbind result_bind]; [|done].
    destruct (field_optional_str "prev_event_hash" data) as [prev|];
      cbn [mbind result_bind]; [|done].
    destruct (field_str "signature" data) as [sg|] eqn:Hsg;
      cbn [mbind result_bind]; [|done].
    intros [= <-]. apply field_str_Some in Hsid, Hsg. done.
  - intros (Hid & Hc & Hparts & Hroom & Hts & Hrange & Hsid & Hty & Hin
            & Hpar & Hprev & Hsig & Hcontent).
    unfold model_validate.
    rewrite (proj1 (field_str_Some _ _ _) Hid), (proj1 (field_str_Some _ _ _) Hroom),
      (proj1 (field_int_Some _ _ _) Hts), (proj1 (field_str_Some _ _ _) Hty),
      (proj1 (field_str_Some _ _ _) Hsid), (proj1 (field_str_Some _ _ _) Hsig),
      (proj1 (field_dict_Some _ _ _) Hcontent), Hpar, Hprev.
    cbn [mbind result_bind]. rewrite validate_event_id_first by done.
    cbn [mbind result_bind as_validation_error].
    rewrite validate_timestamp_Ok by done.
    cbn [mbind result_bind as_validation_error].
    rewrite validate_event_type_Ok by done.
    cbn [mbind result_bind as_validation_error].
    by destruct e.
Qed.

Lemma field_optional_str_set_other (k name : string) (v : json) (d : dict) :
  name <> k ->
  field_optional_str name (dict_set k v d) = field_optional_str name d.
Proof.
  intros Hne. unfold field_optional_str. by rewrite dict_set_get_other.
Qed.

(** X10. Validation of an event looks neither into the content nor at the
    signature: a dictionary that validates still validates, to the same event
    but for that field, when its content is replaced by any dictionary, the
    empty one included, or its signature by any text. *)
Theorem model_validate_ignores_content_and_signature
    (now_ms : Z) (data : dict) (e : Event) (c : dict) (s : string) :
  model_validate now_ms data = Ok e ->
  model_validate now_ms (dict_set "content" (JDict c) data)
    = Ok (with_content e c)
  /\ model_validate now_ms (dict_set "signature" (JStr s) data)
     = Ok (with_signature e s).
Proof.
  intros (Hid & Hc & Hparts & Hroom & Hts & Hrange & Hsid & Hty & Hin
          & Hpar & Hprev & Hsig & Hcontent)%model_validate_Ok_iff.
  split; apply model_validate_Ok_iff; unfold validates_as;
    cbn [with_content with_signature event_id room_id timestamp_ms sender_id
         type parent_event_id prev_event_hash signature content];
    rewrite ?field_optional_str_set_other by done;
    rewrite ?dict_set_get_same;
    rewrite ?dict_set_get_other by done;
    repeat (split; [done|]); done.
Qed.

Lemma model_validate_ignores_content_and_signature_witness :
  exists e : Event,
    model_validate 1700000000000 (dict_set "content" (JDict []) m1) = Ok e
    /\ content e = [].
Proof.
  destruct (model_validate 1700000000000 m1) as [e|x] eqn:Hv.
  - exists (with_content e []). split; [|reflexivity].
    by apply (model_validate_ignores_content_and_signature
                1700000000000 m1 e [] EmptyString).
  - vm_compute in Hv. discriminate Hv.
Defined.

(** ** From the factory to a validated event *)

Lemma dict_get_sign_event `{CryptoLib} (k : string) (d : dict) (kp : KeyPair) :
  k <> "signature" -> dict_get k (sign_event d kp) = dict_get k d.
Proof.
  intros Hk. by rewrite sign_event_unfold, dict_set_get_other, dict_pop_get_other.
Qed.

Lemma dict_get_signature_sign_event `{CryptoLib} (d : dict) (kp : KeyPair) :
  dict_get "signature" (sign_event d kp)
  = Some (JStr (KeyPair_sign kp
                  (encode_utf8 (canonical_json (dict_pop "signature" d))))).
Proof. by rewrite sign_event_unfold, dict_set_get_same. Qed.

(** X11. What [send_message] does to build its event: a message event made by
    [create_message_event] and signed by [sign_event] is accepted by the
    constructor of [Event] exactly when the name of the room holds no ['::'],
    for a timestamp that is positive and at most an hour ahead of the clock.
    The event then carries the room, the sender, the timestamp, the links
    and the signature it was given, and its body is the message without the
    white space around it. *)
Theorem create_message_event_validates `{CryptoLib}
    (now_ms clock : Z) (isoformat : Z -> string) (unique_id : string)
    (room sender message : string) (ts : option Z)
    (parent prev : option string) (kp : KeyPair) :
  let t := match ts with Some t => t | None => now_ms end in
  let event_data :=
    create_message_event now_ms isoformat unique_id room sender message ts
      parent prev in
  let e :=
    {| event_id := generate_event_id isoformat unique_id room t;
       room_id := room; timestamp_ms := t; sender_id := sender;
       type := EventTypes.MESSAGE; parent_event_id := parent;
       prev_event_hash := prev;
       signature :=
         KeyPair_sign kp
           (encode_utf8 (canonical_json (dict_pop "signature" event_data)));
       content := [("body", JStr (strip message)); ("msgtype", JStr "m.text")]
    |} in
  String.prefix ":" (isoformat t) = false ->
  str_contains "::" (isoformat t) = false ->
  str_contains ":" unique_id = false ->
  0 < t <= clock + 3600000 ->
  model_validate clock (sign_event event_data kp)
  = (if str_contains "::" room then Raise ValidationError else Ok e)
  /\ get_message_body e = JStr (strip message).
Proof.
  intros t event_data e Hiso1 Hiso2 Hu Hrange. split; [|reflexivity].
  destruct (generate_event_id_parts isoformat unique_id room t Hiso1 Hiso2 Hu)
    as [Hc Hn].
  assert (Hid : dict_get "event_id" (sign_event event_data kp)
                = Some (JStr (generate_event_id isoformat unique_id room t))).
  { by rewrite dict_get_sign_event. }
  destruct (str_contains "::" room) eqn:Hroom.
  - apply (proj1 (proj2 (model_validate_rejects clock _)) _ Hid).
    intros He. apply Hn in He. congruence.
  - apply model_validate_Ok_iff. unfold validates_as.
    cbn [event_id room_id timestamp_ms sender_id type parent_event_id
         prev_event_hash signature content e].
    unfold field_optional_str.
    rewrite dict_get_signature_sign_event, !dict_get_sign_event by done.
    repeat split;
      first [ reflexivity | lia | exact Hc | by apply Hn | by left
            | by destruct parent | by destruct prev ].
Qed.

Lemma create_message_event_validates_witness :
  exists e : Event,
    model_validate 1757853045500
      (sign_event (H := example_lib)
         (create_message_event 1757853045123
            (fun _ => "2025-09-14T12:30:45.123000")
            "123e4567-e89b-12d3-a456-426614174000"
            "general" "alice@example.com" "  Hello, World!  " None None None)
         {| private_key := List.repeat x01 32 |}) = Ok e
    /\ get_message_body e = JStr "Hello, World!".
Proof.
  destruct (create_message_event_validates (H := example_lib)
              1757853045123 1757853045500
              (fun _ => "2025-09-14T12:30:45.123000")
              "123e4567-e89b-12d3-a456-426614174000"
              "general" "alice@example.com" "  Hello, World!  " None None None
              {| private_key := List.repeat x01 32 |})
    as [Hv Hbody]; [reflexivity..|lia|].
  eexists. split; [exact Hv | exact Hbody].
Defined.

(** ** Lists of events as JSONL text *)

Lemma escape_char_no_control (c : ascii) :
  str_forallb no_control (escape_char c) = true.
Proof. destruct c as [[|] [|] [|] [|] [|] [|] [|] [|]]; reflexivity. Qed.

Lemma escape_no_control (s : string) :
  str_forallb no_control (escape s) = true.
Proof.
  induction s as [|c s IH]; [done|].
  by rewrite escape_cons, str_forallb_app, escape_char_no_control, IH.
Qed.

Lemma uint_chars_no_control (d : Decimal.uint) :
  str_forallb no_control (DecimalString.NilEmpty.string_of_uint d) = true.
Proof. induction d; simpl; auto. Qed.

Lemma py_int_repr_no_control (n : Z) :
  str_forallb no_control (py_int_repr n) = true.
Proof.
  unfold py_int_repr, DecimalString.NilZero.string_of_int,
    DecimalString.NilZero.string_of_uint.
  destruct (Z.to_int n) as [d|d]; destruct d; simpl;
    auto using uint_chars_no_control.
Qed.

Lemma join_forallb (f : ascii -> bool) (sep : string) (parts : list string) :
  str_forallb f sep = true ->
  Forall (fun p => str_forallb f p = true) parts ->
  str_forallb f (join sep parts) = true.
Proof.
  intros Hsep. induction 1 as [|p parts Hp Hparts IH]; [done|].
  destruct parts as [|q parts]; [done|].
  by rewrite join_cons2, !str_forallb_app, Hp, Hsep, IH.
Qed.

Lemma quoted_no_control (s : string) :
  str_forallb no_control (quoted escape s) = true.
Proof.
  unfold quoted. by rewrite !str_forallb_app, escape_no_control.
Qed.

(** The text of a value holds no control character. *)
Lemma dumps_compact_no_control (j : json) :
  str_forallb no_control (dumps_compact j) = true.
Proof.
  unfold dumps_compact.
  induction j as [ | b | n | s | l IH | d IH] using json_ind'.
  - reflexivity.
  - by destruct b.
  - apply py_int_repr_no_control.
  - apply quoted_no_control.
  - cbn [dumps_with]. rewrite !str_forallb_app, join_forallb; [done|done|].
    induction IH as [|x l Hx Hl IHl]; constructor; done.
  - cbn [dumps_with]. rewrite !str_forallb_app, join_forallb; [done|done|].
    induction IH as [|[k v] l Hx Hl IHl]; constructor; [|done].
    cbn [fst snd] in *. by rewrite !str_forallb_app, quoted_no_control, Hx.
Qed.

Lemma no_control_not_newline (s : string) :
  str_forallb no_control s = true -> str_forallb not_newline s = true.
Proof.
  apply str_forallb_impl. intros c Hc. unfold not_newline.
  destruct (Ascii.eqb_spec c (chr 10)) as [->|]; [by vm_compute in Hc | done].
Qed.

(** The text of a value is written on one line. *)
Lemma dumps_compact_not_newline (j : json) :
  str_forallb not_newline (dumps_compact j) = true.
Proof. apply no_control_not_newline, dumps_compact_no_control. Qed.

Lemma prefix_newline_cons (c : ascii) (s : string) :
  String.prefix newline (String c s) = Ascii.eqb c (chr 10).
Proof.
  unfold newline. cbn [String.prefix].
  destruct (Ascii.ascii_dec (chr 10) c) as [<-|Hne]; [by destruct s|].
  destruct (Ascii.eqb_spec c (chr 10)); [congruence | done].
Qed.


Lemma split_from_newline_app (s t cur : string) :
  str_forallb not_newline s = true ->
  split_from newline (s +:+ newline +:+ t) 0 cur
  = (cur +:+ s) :: split_from newline t 0 EmptyString.
Proof.
  revert cur. induction s as [|c s IH]; intros cur.
  - intros _. rewrite string_app_nil_l, string_app_nil_r.
    change (newline +:+ t) with (String (chr 10) t).
    rewrite split_from_cons, prefix_newline_cons, Ascii.eqb_refl. done.
  - cbn [str_forallb]. intros [Hc Hs]%andb_true_iff.
    rewrite string_app_cons, split_from_cons, prefix_newline_cons.
    apply negb_true_iff in Hc. rewrite Hc, IH by done.
    by rewrite string_app_assoc, string_app_cons.
Qed.


Lemma events_to_jsonl_lines (e : Event) (es : list Event) :
  events_to_jsonl (e :: es)
  = join newline (List.map model_dump_json (e :: es)) +:+ newline.
Proof.
  unfold events_to_jsonl. revert e. induction es as [|e' es IH]; intros e.
  - reflexivity.
  - cbn [List.map]. rewrite !join_cons2, string_app_nil_l.
    cbn [List.map] in IH. rewrite IH. unfold to_jsonl_line.
    by rewrite !string_app_assoc.
Qed.

(** The text of an event starts and ends with a brace. *)
Lemma model_dump_json_shape (e : Event) :
  exists body, model_dump_json e = String "{" body +:+ "}".
Proof.
  unfold model_dump_json. rewrite dumps_compact_dict.
  eexists. by rewrite string_app_cons, string_app_nil_l.
Qed.


Lemma strip_braces (body : string) :
  strip (String "{" body +:+ "}") = String "{" body +:+ "}".
Proof.
  unfold strip. rewrite string_app_cons. cbn [lstrip].
  replace (isspace "{") with false by reflexivity.
  rewrite <- string_app_cons. by apply rstrip_snoc.
Qed.







(** ** The validators of message and reaction texts *)

Lemma rstrip_idem (s : string) : rstrip (rstrip s) = rstrip s.
Proof.
  induction s as [|c s IH]; [done|]. cbn [rstrip].
  destruct (rstrip s) as [|a r] eqn:Hr.
  - destruct (isspace c) eqn:Hc; [done|]. cbn [rstrip]. by rewrite Hc.
  - cbn [rstrip]. cbn [rstrip] in IH. rewrite IH. by destruct (rstrip r).
Qed.

Lemma lstrip_shape (s : string) :
  lstrip s = EmptyString
  \/ exists c t, lstrip s = String c t /\ isspace c = false.
Proof.
  induction s as [|c s IH]; [by left|]. cbn [lstrip].
  destruct (isspace c) eqn:Hc; [exact IH|]. right. by exists c, s.
Qed.

Lemma rstrip_head (c : ascii) (t : string) :
  isspace c = false -> exists r, rstrip (String c t) = String c r.
Proof.
  intros Hc. cbn [rstrip]. destruct (rstrip t) as [|a r].
  - rewrite Hc. by eexists.
  - by eexists.
Qed.

Lemma strip_shape (s : string) :
  strip s = EmptyString
  \/ exists c t, strip s = String c t /\ isspace c = false.
Proof.
  unfold strip. destruct (lstrip_shape s) as [->|(c & t & -> & Hc)]; [by left|].
  right. destruct (rstrip_head c t Hc) as [r Hr]. by exists c, r.
Qed.

Lemma strip_idem (s : string) : strip (strip s) = strip s.
Proof.
  destruct (strip_shape s) as [->|(c & t & Hs & Hc)]; [done|].
  unfold strip at 1. rewrite Hs. cbn [lstrip]. rewrite Hc, <- Hs.
  unfold strip. apply rstrip_idem.
Qed.

Lemma strip_nil_inv (v : string) :
  v = EmptyString -> strip v = EmptyString.
Proof. by intros ->. Qed.

(** X13. What [MessageContent.validate_body] and
    [ReactionContent.validate_reaction] accept is never blank and carries no
    white space at its ends: the validator refuses exactly the texts that are
    empty once stripped, answers the stripped text otherwise, and accepts its
    own answer unchanged. *)
Theorem validate_body_normalises (v : string) :
  (validate_body v = Raise ValueError <-> strip v = EmptyString)
  /\ (forall b, validate_body v = Ok b ->
        b = strip v /\ b <> EmptyString /\ validate_body b = Ok b)
  /\ validate_reaction v = validate_body v.
Proof.
  assert (Hspec : validate_body v
                  = if String.eqb (strip v) EmptyString then Raise ValueError
                    else Ok (strip v)).
  { unfold validate_body. cbn [py_truthy]. rewrite !negb_involutive.
    destruct (String.eqb_spec v EmptyString) as [->|_]; [done|].
    by destruct (String.eqb (strip v) EmptyString). }
  split; [|split; [|reflexivity]].
  - rewrite Hspec. destruct (String.eqb_spec (strip v) EmptyString); split;
      congruence.
  - intros b. rewrite Hspec.
    destruct (String.eqb_spec (strip v) EmptyString) as [|Hne]; [done|].
    intros [= <-]. split; [done|]. split; [done|].
    unfold validate_body. cbn [py_truthy]. rewrite !negb_involutive.
    rewrite strip_idem.
    destruct (String.eqb_spec (strip v) EmptyString); [done|]. done.
Qed.

Lemma validate_body_normalises_witness :
  validate_body "  hello  " = Ok "hello" /\ validate_body "hello" = Ok "hello".
Proof.
  destruct (validate_body_normalises "  hello  ") as (_ & H & _).
  destruct (H "hello" eq_refl) as (_ & _ & Hb). split; [reflexivity | exact Hb].
Defined.

(** ** Segment files *)

Lemma universal_newlines_id (s : string) :
  str_forallb not_cr s = true -> universal_newlines s = s.
Proof.
  induction s as [|c s IH]; [done|]. cbn [str_forallb universal_newlines].
  intros [Hc Hs]%andb_true_iff. apply negb_true_iff in Hc.
  by rewrite Hc, IH.
Qed.

Lemma no_control_not_cr (s : string) :
  str_forallb no_control s = true -> str_forallb not_cr s = true.
Proof.
  apply str_forallb_impl. intros c Hc. unfold not_cr.
  destruct (Ascii.eqb_spec c (chr 13)) as [->|]; [by vm_compute in Hc | done].
Qed.

Lemma events_to_jsonl_not_cr (events : list Event) :
  str_forallb not_cr (events_to_jsonl events) = true.
Proof.
  unfold events_to_jsonl. apply join_forallb; [done|].
  apply Forall_forall. intros l Hl.
  apply list_elem_of_In, in_map_iff in Hl as (e & <- & _).
  unfold to_jsonl_line, model_dump_json.
  by rewrite str_forallb_app, no_control_not_cr by apply dumps_compact_no_control.
Qed.

Lemma str_split_lines_newline (lines : list string) :
  Forall (fun l => str_forallb not_newline l = true) lines -> lines <> [] ->
  str_split newline (join newline lines +:+ newline) = lines ++ [EmptyString].
Proof.
  unfold str_split. induction 1 as [|l lines Hl Hlines IH]; [done|]. intros _.
  destruct lines as [|l' lines].
  - cbn [join].
    replace (l +:+ newline) with (l +:+ newline +:+ EmptyString)
      by by rewrite string_app_nil_r.
    by rewrite split_from_newline_app, string_app_nil_l.
  - rewrite join_cons2, !string_app_assoc.
    rewrite split_from_newline_app, string_app_nil_l by done.
    by rewrite IH.
Qed.

Lemma filter_event_lines (events : list Event) :
  List.filter (fun line => py_truthy (JStr (strip line)))
    (List.map model_dump_json events ++ [EmptyString])
  = List.map model_dump_json events.
Proof.
  induction events as [|e es IH]; [done|].
  cbn [List.map app].
  set (f := fun line => py_truthy (JStr (strip line))) in *.
  change (List.filter f (model_dump_json e
                           :: (List.map model_dump_json es ++ [EmptyString])))
    with (if f (model_dump_json e)
          then model_dump_json e
                 :: List.filter f (List.map model_dump_json es ++ [EmptyString])
          else List.filter f (List.map model_dump_json es ++ [EmptyString])).
  assert (Hf : f (model_dump_json e) = true).
  { unfold f. destruct (model_dump_json_shape e) as [body ->].
    by rewrite strip_braces, string_app_cons. }
  by rewrite Hf, IH.
Qed.

Lemma read_jsonl_file_events (self : UnifiedStorage) (p : path)
    (events : list Event) (fs : filesystem) :
  fs_files fs !! p = Some (events_to_jsonl events) ->
  read_jsonl_file self p fs = List.map model_dump_json events.
Proof.
  intros Hp. unfold read_jsonl_file, read_text.
  rewrite Hp, universal_newlines_id by apply events_to_jsonl_not_cr.
  destruct events as [|e es]; [reflexivity|].
  rewrite events_to_jsonl_lines, str_split_lines_newline.
  - apply filter_event_lines.
  - apply Forall_forall. intros l Hl.
    apply list_elem_of_In, in_map_iff in Hl as (e' & <- & _).
    apply dumps_compact_not_newline.
  - done.
Qed.

Lemma write_jsonl_file_true (self : UnifiedStorage) (p : path)
    (lines : list string) (fs fs' : filesystem) :
  write_jsonl_file self p lines fs = (true, fs') ->
  fs_files fs' = <[p := join EmptyString lines]> (fs_files fs).
Proof.
  unfold write_jsonl_file, write_text, mkdir_parents.
  destruct (is_cloud self); cbn [negb andb].
  - by intros [= <-].
  - destruct (List.existsb _ _); [done|].
    destruct (is_dir _ p); [done|]. by intros [= <-].
Qed.

(** X14. A segment is read back as it was written: after
    [write_jsonl_file] has stored the lines of a list of events at a path and
    answered true, [read_jsonl_file] gives, for that path, the JSON text of
    each event, in the order of the list and without the line ends; every
    other file is as it was. *)
Theorem write_jsonl_file_read_back (self : UnifiedStorage) (p : path)
    (events : list Event) (fs fs' : filesystem) :
  write_jsonl_file self p (List.map to_jsonl_line events) fs = (true, fs') ->
  read_jsonl_file self p fs' = List.map model_dump_json events
  /\ forall q, q <> p -> fs_files fs' !! q = fs_files fs !! q.
Proof.
  intros Hw%write_jsonl_file_true. split.
  - apply read_jsonl_file_events. by rewrite Hw, lookup_insert_eq.
  - intros q Hq. by rewrite Hw, lookup_insert_ne.
Qed.

Lemma write_jsonl_file_read_back_witness :
  let self := UnifiedStorage_init false "./test-storage" in
  let p := get_daily_log_path self "room" "2025-09-14" 1000 2000 "alice" in
  let events := [example_event "t0::a" "one"; example_event "t1::b" "two"] in
  exists fs',
    write_jsonl_file self p (List.map to_jsonl_line events) empty_fs
    = (true, fs')
    /\ read_jsonl_file self p fs' = List.map model_dump_json events.
Proof.
  intros self p events.
  destruct (write_jsonl_file self p (List.map to_jsonl_line events) empty_fs)
    as [[|] fs'] eqn:Hw.
  - exists fs'. split; [reflexivity|].
    by apply (write_jsonl_file_read_back self p events empty_fs fs').
  - vm_compute in Hw. discriminate Hw.
Defined.




(** ** Deleting a file *)

Lemma is_file_exists (self : UnifiedStorage) (fs : filesystem) (p : path) :
  is_file fs p = true -> file_exists self fs p = true.
Proof.
  intros Hf. unfold file_exists. destruct (is_cloud self).
  - unfold is_object_prefix. apply bool_decide_eq_true. exists p.
    split; [|done]. apply elem_of_dom. by apply is_file_true.
  - by rewrite Hf.
Qed.

Lemma read_text_missing (p : path) (fs : filesystem) :
  is_file fs p = false -> read_text p fs = Raise OSError.
Proof.
  intros Hf. unfold read_text.
  destruct (fs_files fs !! p) as [text|] eqn:Hp; [|done].
  assert (Ht : is_file fs p = true) by (apply is_file_true; by rewrite Hp).
  congruence.
Qed.

(** X16. [delete_file] answers true exactly when there is a file at the path,
    and removes that file and nothing else.  Afterwards the path reads as
    missing, [read_jsonl_file] giving the empty list and [read_json] giving
    [None], and deleting it again answers false and changes nothing. *)
Theorem delete_file_removes (self : UnifiedStorage) (p : path) (fs : filesystem) :
  let fs' := snd (delete_file self p fs) in
  fst (delete_file self p fs) = is_file fs p
  /\ is_file fs' p = false
  /\ (forall q, q <> p -> fs_files fs' !! q = fs_files fs !! q)
  /\ fs_dirs fs' = fs_dirs fs
  /\ read_jsonl_file self p fs' = []
  /\ read_json self p fs' = JNull
  /\ delete_file self p fs' = (false, fs').
Proof.
  intros fs'.
  assert (Hrun : delete_file self p fs
                 = (is_file fs p,
                    {| fs_files := delete p (fs_files fs);
                       fs_dirs := fs_dirs fs |})).
  { unfold delete_file, unlink. destruct (is_file fs p) eqn:Hf.
    - by rewrite is_file_exists.
    - assert (Hd : delete p (fs_files fs) = fs_files fs).
      { apply delete_id. destruct (fs_files fs !! p) eqn:Hp; [|done].
        assert (Ht : is_file fs p = true) by (apply is_file_true; by rewrite Hp).
        congruence. }
      rewrite Hd. destruct (file_exists self fs p); by destruct fs. }
  assert (Hgone : is_file fs' p = false).
  { unfold fs'. rewrite Hrun. cbn [snd]. unfold is_file. cbn [fs_files].
    apply bool_decide_eq_false. rewrite lookup_delete_eq. by intros [? ?]. }
  split; [by rewrite Hrun|]. split; [done|]. split; [|split; [|split; [|split]]].
  - intros q Hq. unfold fs'. rewrite Hrun. cbn [snd fs_files].
    by rewrite lookup_delete_ne.
  - unfold fs'. by rewrite Hrun.
  - unfold read_jsonl_file. by rewrite read_text_missing.
  - unfold read_json. rewrite read_text_missing by done.
    by destruct (file_exists self fs' p).
  - unfold delete_file, unlink. rewrite Hgone.
    by destruct (file_exists self fs' p).
Qed.

(** ** Client identifiers and paths *)

Lemma str_filter_idem (f : ascii -> bool) (s : string) :
  str_filter f (str_filter f s) = str_filter f s.
Proof.
  induction s as [|c s IH]; [done|]. cbn [str_filter].
  destruct (f c) eqn:Hc; [|done]. cbn [str_filter]. by rewrite Hc, IH.
Qed.

Lemma str_contains_at_false (f : ascii -> bool) (s : string) :
  f "@"%char = false -> str_forallb f s = true -> str_contains "@" s = false.
Proof.
  intros Hat. induction s as [|c s IH]; [done|]. cbn [str_forallb].
  intros [Hc Hs]%andb_true_iff. rewrite str_contains_cons, IH by done.
  cbn [String.prefix]. destruct (Ascii.ascii_dec "@" c) as [<-|]; [|done].
  congruence.
Qed.

(** X17. A client identifier is made of letters, digits and underscores only,
    so it holds neither ['/'] nor ['@'] nor ['.'], and deriving a client
    identifier from a client identifier gives it back. *)
Theorem generate_client_id_idempotent (user_id : string) :
  str_forallb (fun c => isalnum c || Ascii.eqb c "_"%char)
    (generate_client_id user_id) = true
  /\ generate_client_id (generate_client_id user_id) = generate_client_id user_id.
Proof.
  assert (Hchars : str_forallb (fun c => isalnum c || Ascii.eqb c "_"%char)
                     (generate_client_id user_id) = true).
  { unfold generate_client_id. apply str_filter_forallb. }
  split; [done|].
  unfold generate_client_id at 1.
  rewrite (str_contains_at_false _ _ eq_refl Hchars).
  unfold generate_client_id. apply str_filter_idem.
Qed.

Lemma path_div_absolute (p : path) (s : string) :
  String.prefix "/" s = true -> p </> s = Path s.
Proof.
  intros Hs. unfold Path, path_div.
  assert (Hroot : String.eqb (path_root s) EmptyString = false).
  { unfold path_root. rewrite Hs.
    by destruct (String.prefix "///" s), (String.prefix "//" s). }
  by rewrite Hroot.
Qed.

(** X18. Where the files of a room go.  For a room whose name is one plain
    path component, the metadata file and the segment files lie below
    [rooms/<room>] under the base path.  A room name that starts with ['/']
    replaces the base path instead: on a file system the files of such a
    room are addressed from the root, whatever the storage was opened on. *)
Theorem room_paths (self : UnifiedStorage) (room date_str : string)
    (start_ts end_ts : Z) (client_id : string) :
  (str_forallb not_slash room = true -> room <> EmptyString -> room <> "." ->
   get_room_metadata_path self room
   = base_path self ++ ["rooms"; room; "metadata.json"]
   /\ (str_forallb not_slash date_str = true -> date_str <> EmptyString ->
       date_str <> "." -> str_forallb not_slash client_id = true ->
       get_daily_log_path self room date_str start_ts end_ts client_id
       = base_path self
           ++ ["rooms"; room; "logs"; date_str;
               log_file_name start_ts end_ts client_id]))
  /\ (is_cloud self = false -> String.prefix "/" room = true ->
      get_room_metadata_path self room = Path room </> "metadata.json"
      /\ get_daily_log_path self room date_str start_ts end_ts client_id
         = Path room </> "logs" </> date_str
             </> log_file_name start_ts end_ts client_id).
Proof.
  split.
  - intros Hroom Hne Hdot.
    assert (Hr : base_path self </> "rooms" </> room
                 = base_path self ++ ["rooms"; room]).
    { rewrite (path_div_name _ "rooms") by done.
      rewrite (path_div_name _ room) by done. by rewrite <- app_assoc. }
    split.
    + unfold get_room_metadata_path. rewrite Hr.
      rewrite (path_div_name _ "metadata.json") by done.
      by rewrite <- app_assoc.
    + intros Hdate Hdne Hddot Hclient.
      rewrite get_daily_log_path_name by done. rewrite Hr.
      rewrite (path_div_name _ "logs") by done.
      rewrite (path_div_name _ date_str) by done.
      by rewrite <- !app_assoc.
  - intros _ Habs. unfold get_room_metadata_path, get_daily_log_path.
    fold (log_file_name start_ts end_ts client_id).
    by rewrite (path_div_absolute _ room Habs).
Qed.

Lemma room_paths_witness :
  get_room_metadata_path (UnifiedStorage_init false "./chat-data") "lobby"
  = ["chat-data"; "rooms"; "lobby"; "metadata.json"]
  /\ get_room_metadata_path (UnifiedStorage_init false "./chat-data") "/etc/cron.d"
     = ["/"; "etc"; "cron.d"; "metadata.json"].
Proof.
  split.
  - apply (room_paths (UnifiedStorage_init false "./chat-data") "lobby"
             "2025-09-14" 1 2 "alice"); done.
  - apply (room_paths (UnifiedStorage_init false "./chat-data") "/etc/cron.d"
             "2025-09-14" 1 2 "alice"); done.
Defined.

(** ** Storage URIs *)

Lemma prefix_head (a c : ascii) (p s : string) :
  String.prefix (String a p) (String c s) = true -> c = a.
Proof.
  cbn [String.prefix]. by destruct (Ascii.ascii_dec a c) as [->|].
Qed.

Lemma prefix_tail (a c : ascii) (p s : string) :
  String.prefix (String a p) (String c s) = true -> String.prefix p s = true.
Proof.
  cbn [String.prefix]. by destruct (Ascii.ascii_dec a c).
Qed.

Lemma prefix_app_inv (pre s : string) :
  String.prefix pre s = true -> exists rest, s = pre +:+ rest.
Proof.
  revert s. induction pre as [|a pre IH]; intros s Hp.
  - by exists s.
  - destruct s as [|c s]; [done|].
    pose proof (prefix_head _ _ _ _ Hp) as ->.
    destruct (IH s (prefix_tail _ _ _ _ Hp)) as [rest ->].
    by exists rest.
Qed.

Lemma substring_all (s : string) : String.substring 0 (String.length s) s = s.
Proof. induction s as [|c s IH]; [done|]. cbn. by rewrite IH. Qed.

Lemma str_from_app (pre rest : string) :
  str_from (String.length pre) (pre +:+ rest) = rest.
Proof.
  unfold str_from. rewrite string_app_length.
  replace (String.length pre + String.length rest - String.length pre)%nat
    with (String.length rest) by lia.
  induction pre as [|a pre IH].
  - rewrite string_app_nil_l. apply substring_all.
  - rewrite string_app_cons. exact IH.
Qed.

Lemma split_max_from_cons (sep : string) (c : ascii) (s : string)
    (m : nat) (cur : string) :
  split_max_from sep (String c s) (S m) 0 cur
  = if String.prefix sep (String c s)
    then cur :: split_max_from sep s m (String.length sep - 1) EmptyString
    else split_max_from sep s (S m) 0 (cur +:+ String c EmptyString).
Proof. reflexivity. Qed.

(** [s.split('/', 1)]: the text itself when it holds no slash, else what
    stands before the first slash and what stands after it. *)
Lemma split_max_slash (s cur : string) :
  (str_forallb not_slash s = true
   /\ split_max_from "/" s 1 0 cur = [cur +:+ s])
  \/ (exists a b, s = a +:+ "/" +:+ b /\ str_forallb not_slash a = true
                  /\ split_max_from "/" s 1 0 cur = [cur +:+ a; b]).
Proof.
  revert cur. induction s as [|c s IH]; intros cur.
  - left. by rewrite string_app_nil_r.
  - rewrite split_max_from_cons. destruct (not_slash c) eqn:Hc.
    + rewrite prefix_slash_false by done.
      destruct (IH (cur +:+ String c EmptyString))
        as [[Hs ->]|(a & b & -> & Ha & ->)].
      * left. cbn [str_forallb]. rewrite Hc, Hs.
        by rewrite string_app_assoc, string_app_cons.
      * right. exists (String c a), b. cbn [str_forallb]. rewrite Hc, Ha.
        by rewrite string_app_assoc, !string_app_cons.
    + unfold not_slash in Hc. apply negb_false_iff, Ascii.eqb_eq in Hc as ->.
      right. exists EmptyString, s. split; [done|]. split; [done|].
      rewrite string_app_nil_r. cbn [String.prefix String.length Nat.sub].
      destruct (Ascii.ascii_dec "/" "/") as [_|Hne]; [|done].
      replace (String.prefix EmptyString s) with true by by destruct s.
      by destruct s.
Qed.

Lemma bucket_info_spec (type key uri scheme : string) :
  String.length scheme = 5%nat -> String.prefix scheme uri = true ->
  exists bucket prefix,
    bucket_info type key uri
    = [("type", JStr type); (key, JStr bucket); ("prefix", JStr prefix);
       ("uri", JStr uri)]
    /\ str_forallb not_slash bucket = true
    /\ (uri = scheme +:+ bucket /\ prefix = EmptyString
        \/ uri = scheme +:+ bucket +:+ "/" +:+ prefix).
Proof.
  intros Hlen [rest ->]%prefix_app_inv. unfold bucket_info, str_split_max.
  rewrite <- Hlen, str_from_app.
  destruct (split_max_slash rest EmptyString) as [[Hs ->]|(a & b & -> & Ha & ->)].
  - exists rest, EmptyString. rewrite string_app_nil_l.
    split; [done|]. split; [done|]. by left.
  - exists a, b. rewrite string_app_nil_l.
    split; [done|]. split; [done|]. by right.
Qed.

Lemma prefix_exclusive (a b : ascii) (p q s : string) :
  a <> b -> String.prefix (String a p) s = true ->
  String.prefix (String b q) s = false.
Proof.
  intros Hab Hp. destruct s as [|c s]; [done|].
  pose proof (prefix_head _ _ _ _ Hp) as ->.
  cbn [String.prefix]. by destruct (Ascii.ascii_dec b a) as [->|].
Qed.

(** X19. [parse_storage_uri] and the constructor of [UnifiedStorage] read a
    URI the same way.  The storage is a cloud storage exactly when the cloud
    libraries are there and the type found is not ['local']; for a local
    type the path found is the one the storage is opened on; and for a bucket
    the name found holds no ['/'] and, with the prefix found, makes up the
    URI again. *)
Theorem parse_storage_uri_agrees (uri : string) (CLOUD_AVAILABLE : bool) :
  let info := parse_storage_uri uri in
  let storage := UnifiedStorage_init CLOUD_AVAILABLE uri in
  (is_cloud storage = true
   <-> CLOUD_AVAILABLE = true /\ py_get "type" info <> JStr "local")
  /\ (forall path, dict_get "path" info = Some (JStr path) ->
        py_get "type" info = JStr "local" /\ base_path storage = Path path)
  /\ (py_get "type" info <> JStr "local" ->
      exists key bucket prefix,
        (key = "bucket" \/ key = "container")
        /\ dict_get key info = Some (JStr bucket)
        /\ dict_get "prefix" info = Some (JStr prefix)
        /\ str_forallb not_slash bucket = true
        /\ (str_from 5 uri = bucket /\ prefix = EmptyString
            \/ str_from 5 uri = bucket +:+ "/" +:+ prefix)).
Proof.
  intros info storage. unfold info, storage, parse_storage_uri,
    UnifiedStorage_init.
  assert (Hbucket : forall type key scheme,
    String.length scheme = 5%nat -> String.prefix scheme uri = true ->
    type <> "local" -> key = "bucket" \/ key = "container" ->
    let info := bucket_info type key uri in
    py_get "type" info <> JStr "local"
    /\ dict_get "path" info = None
    /\ exists bucket prefix,
         dict_get key info = Some (JStr bucket)
         /\ dict_get "prefix" info = Some (JStr prefix)
         /\ str_forallb not_slash bucket = true
         /\ (str_from 5 uri = bucket /\ prefix = EmptyString
             \/ str_from 5 uri = bucket +:+ "/" +:+ prefix)).
  { intros type key scheme Hlen Hp Hty Hkey.
    destruct (bucket_info_spec type key uri scheme Hlen Hp)
      as (bucket & prefix & Hinfo & Hb & Huri).
    cbn zeta. rewrite Hinfo. split; [|split].
    - unfold py_get, dict_get_default. cbn [dict_get String.eqb Ascii.eqb
        Bool.eqb andb]. congruence.
    - by destruct Hkey as [-> | ->].
    - exists bucket, prefix. split; [by destruct Hkey as [-> | ->]|].
      split; [by destruct Hkey as [-> | ->]|]. split; [done|].
      rewrite <- Hlen.
      destruct Huri as [[-> ->]| ->]; rewrite str_from_app; [by left | by right]. }
  destruct (String.prefix "s3://" uri) eqn:Hs3.
  { rewrite (prefix_exclusive "s" "f" _ "ile://" uri) by done.
    destruct (Hbucket "s3" "bucket" "s3://") as (Hty & Hpath & bucket & prefix & H);
      [done..|by left|].
    cbn [orb andb]. split; [|split].
    - destruct CLOUD_AVAILABLE; cbn [is_cloud]; split; try done; by intros [? ?].
    - intros path Hp. congruence.
    - intros _. exists "bucket", bucket, prefix. split; [by left | exact H]. }
  destruct (String.prefix "gs://" uri) eqn:Hgs.
  { rewrite (prefix_exclusive "g" "f" _ "ile://" uri) by done.
    destruct (Hbucket "gcs" "bucket" "gs://") as (Hty & Hpath & bucket & prefix & H);
      [done..|by left|].
    cbn [orb andb]. split; [|split].
    - destruct CLOUD_AVAILABLE; cbn [is_cloud]; split; try done; by intros [? ?].
    - intros path Hp. congruence.
    - intros _. exists "bucket", bucket, prefix. split; [by left | exact H]. }
  destruct (String.prefix "az://" uri) eqn:Haz.
  { rewrite (prefix_exclusive "a" "f" _ "ile://" uri) by done.
    destruct (Hbucket "azure" "container" "az://")
      as (Hty & Hpath & bucket & prefix & H); [done..|by right|].
    cbn [orb andb]. split; [|split].
    - destruct CLOUD_AVAILABLE; cbn [is_cloud]; split; try done; by intros [? ?].
    - intros path Hp. congruence.
    - intros _. exists "container", bucket, prefix.
      split; [by right | exact H]. }
  cbn [orb andb]. destruct (String.prefix "file://" uri) eqn:Hfile.
  - split; [|split].
    + cbn [is_cloud]. split; [done|]. by intros [_ ?].
    + intros path [= <-]. split; [done|]. reflexivity.
    + intros Hne. by destruct Hne.
  - split; [|split].
    + cbn [is_cloud]. split; [done|]. by intros [_ ?].
    + intros path [= <-]. done.
    + intros Hne. by destruct Hne.
Qed.
